(** * The Glue metadata crawler: column-comment reconciliation

    A shallow embedding of [glue_metadata_crawler.py] and the properties of
    its snapshot writer, fetcher and override merger.

    Conventions of the embedding.
    - Python values are the trees of [pyval]: what boto3 and [json.load]
      return ([None], booleans, integers, strings, datetimes, lists,
      dictionaries) and one constructor for objects of any other class.
      Floats are not part of the universe.
    - A Python [str] is a [string] whose characters are the code points
      0..255; code points above 255 are not part of the universe.
    - A dictionary is an association list in insertion order, as Python
      keeps it.
    - Exceptions are values of [exn]; a computation returns [Ret] or [Raise].
    - Calls to the outside world (boto3, the file system, stdout, logging)
      append to a trace of [event]s; what the world answers is read from an
      [env].
    - The one object that is mutated in place, the metadata document handed
      to [add_update_missing_values], is passed as state: the function
      returns the document as it stands when the call ends. *)

From Stdlib Require Import ZArith List String Ascii Bool Lia.
From Stdlib Require Import DecimalString.
From Stdlib Require DecimalFacts DecimalPos.
Import ListNotations.
Local Open Scope string_scope.
Local Open Scope Z_scope.
#[local] Set Warnings "-register-all".
#[local] Set Warnings "-automation".
#[local] Set Warnings "-default".

(** ** Python values *)

(** [datetime.datetime]: the civil fields, and [utcoffset()] in microseconds
    east of UTC ([None] for a naive datetime). *)
Record datetime : Type := mkDatetime {
  year : Z; month : Z; day : Z;
  hour : Z; minute : Z; second : Z; microsecond : Z;
  utcoffset : option Z
}.

(** A class other than the built-in ones of [pyval], under the three names
    the interpreter has for it: [cls.__name__]; the dotted name that
    [str(cls)] shows between the quotes (with the module, unless the module
    is [builtins]); and [tp_name], which the interpreter prints in its own
    error messages (the dotted name for a class written in C, the bare name
    for a class written in Python). *)
Record pyclass : Type := mkClass {
  cls_name : string;
  cls_path : string;
  cls_tp_name : string
}.

Definition pyclass_eqb (c c' : pyclass) : bool :=
  String.eqb (cls_name c) (cls_name c')
  && String.eqb (cls_path c) (cls_path c')
  && String.eqb (cls_tp_name c) (cls_tp_name c').

Inductive pyval : Type :=
| VNone
| VBool (b : bool)
| VInt (n : Z)
| VStr (s : string)
| VDatetime (d : datetime)
| VList (xs : list pyval)
| VDict (items : list (pyval * pyval))
| VObj (cls : pyclass) (addr : N).
(** [VObj cls addr]: an object of a class other than the above, living at
    [addr]; it has no [get], [strip], item or iteration protocol, and the
    default identity equality and hash. *)

Definition pydict : Type := list (pyval * pyval).

(** ** Exceptions *)

Inductive exn_class : Type :=
| AttributeError
| TypeError
| KeyError
| IndexError
| OSError
| JSONDecodeError
| ConnectionError
| EntityNotFoundException
| OtherError (name : string).

(** Every class above derives from [Exception]. [exn_msg] is [str(e)]. *)
Record exn : Type := Exn { exn_cls : exn_class; exn_msg : string }.

Inductive result (A : Type) : Type :=
| Ret (a : A)
| Raise (e : exn).
Arguments Ret {A} a.
Arguments Raise {A} e.

Definition rbind {A B} (r : result A) (k : A -> result B) : result B :=
  match r with
  | Ret a => k a
  | Raise e => Raise e
  end.

Declare Scope py_scope.
Delimit Scope py_scope with py.
Notation "x <- c ;; k" := (rbind c (fun x => k))
  (at level 61, c at next level, right associativity) : py_scope.
Notation "' pat <- c ;; k" := (rbind c (fun x => match x with pat => k end))
  (at level 61, pat pattern, c at next level, right associativity) : py_scope.
Local Open Scope py_scope.

(** ** Strings *)

(** [str.isspace] on one character: TAB..CR, FS..US, space, NEL, NBSP. *)
Definition isspace (c : ascii) : bool :=
  let n := N_of_ascii c in
  ((9 <=? n) && (n <=? 13) || (28 <=? n) && (n <=? 32)
   || (n =? 133) || (n =? 160))%N.

Fixpoint lstrip (s : string) : string :=
  match s with
  | EmptyString => EmptyString
  | String c rest => if isspace c then lstrip rest else s
  end.

(** Drops the trailing whitespace: a character is kept when it is not
    whitespace or something is kept after it. *)
Fixpoint rstrip (s : string) : string :=
  match s with
  | EmptyString => EmptyString
  | String c rest =>
      match rstrip rest with
      | EmptyString => if isspace c then EmptyString else String c EmptyString
      | kept => String c kept
      end
  end.

(** [s.strip()] *)
Definition strip (s : string) : string := rstrip (lstrip s).

Fixpoint is_prefix (p s : string) : bool :=
  match p, s with
  | EmptyString, _ => true
  | String a p', String b s' => Ascii.eqb a b && is_prefix p' s'
  | String _ _, EmptyString => false
  end.

(** [p in s] on two strings. *)
Fixpoint is_substring (p s : string) : bool :=
  is_prefix p s ||
  match s with
  | EmptyString => false
  | String _ s' => is_substring p s'
  end.

Definition chars (s : string) : list string :=
  map (fun c => String c EmptyString) (list_ascii_of_string s).

(** [str(n)] for an [int]. *)
Definition str_of_Z (n : Z) : string := NilZero.string_of_int (Z.to_int n).

(** ["%0<w>d" % n] for [0 <= n]. *)
Fixpoint zeros (k : nat) : string :=
  match k with
  | O => EmptyString
  | S k' => String "0" (zeros k')
  end.

Definition pad (w : nat) (n : Z) : string :=
  let digits := str_of_Z n in
  zeros (w - String.length digits) ++ digits.

(** ** Datetimes *)

Definition usec_per_second : Z := 1000000.
Definition usec_per_minute : Z := 60 * usec_per_second.
Definition usec_per_hour : Z := 60 * usec_per_minute.
Definition usec_per_day : Z := 24 * usec_per_hour.

(** [datetime._format_offset] *)
Definition format_offset (off : option Z) : string :=
  match off with
  | None => ""
  | Some o =>
      let sign := if o <? 0 then "-" else "+" in
      let a := Z.abs o in
      let hh := a / usec_per_hour in
      let mm := (a mod usec_per_hour) / usec_per_minute in
      let ss := (a mod usec_per_minute) / usec_per_second in
      let us := a mod usec_per_second in
      sign ++ pad 2 hh ++ ":" ++ pad 2 mm ++
      (if (ss =? 0) && (us =? 0) then ""
       else ":" ++ pad 2 ss ++ (if us =? 0 then "" else "." ++ pad 6 us))
  end.

(** [datetime.isoformat()] with the default separator and time spec. *)
Definition isoformat (d : datetime) : string :=
  pad 4 (year d) ++ "-" ++ pad 2 (month d) ++ "-" ++ pad 2 (day d) ++ "T" ++
  pad 2 (hour d) ++ ":" ++ pad 2 (minute d) ++ ":" ++ pad 2 (second d) ++
  (if microsecond d =? 0 then "" else "." ++ pad 6 (microsecond d)) ++
  format_offset (utcoffset d).

(** ** ISO 8601

    The format of the standard, independent of how [isoformat] prints: a
    reader of it, to compare the two. *)

(** The decimal digit of the units of [n]. *)
Definition digit (n : Z) : ascii := ascii_of_N (48 + Z.to_N (n mod 10)).

(** The last [w] decimal digits of [n], most significant first. *)
Fixpoint fixed (w : nat) (n : Z) : string :=
  match w with
  | O => EmptyString
  | S w' => fixed w' (n / 10) ++ String (digit n) EmptyString
  end.

Definition obind {A B} (o : option A) (k : A -> option B) : option B :=
  match o with
  | Some a => k a
  | None => None
  end.

Declare Scope iso_scope.
Delimit Scope iso_scope with iso.
Notation "x <-? c ;; k" := (obind c (fun x => k))
  (at level 61, c at next level, right associativity) : iso_scope.
Notation "' pat <-? c ;; k" := (obind c (fun x => match x with pat => k end))
  (at level 61, pat pattern, c at next level, right associativity) : iso_scope.
Local Open Scope iso_scope.

Definition digit_value (c : ascii) : option Z :=
  let n := Z.of_N (N_of_ascii c) in
  if (48 <=? n) && (n <=? 57) then Some (n - 48) else None.

(** Reads exactly [w] decimal digits, most significant first. *)
Fixpoint read_digits (w : nat) (acc : Z) (s : string) : option (Z * string) :=
  match w with
  | O => Some (acc, s)
  | S w' =>
      match s with
      | String c rest =>
          v <-? digit_value c;; read_digits w' (10 * acc + v) rest
      | EmptyString => None
      end
  end.

Definition expect (c : ascii) (s : string) : option string :=
  match s with
  | String c' rest => if Ascii.eqb c c' then Some rest else None
  | EmptyString => None
  end.

(** The decimal fraction of the second: six digits after a full stop, or
    nothing. *)
Definition read_fraction (s : string) : option (Z * string) :=
  match s with
  | String "." rest => read_digits 6 0 rest
  | _ => Some (0, s)
  end.

(** The time zone designator, [+hh:mm] or [-hh:mm], or nothing for a local
    time: the offset in microseconds east of UTC. *)
Definition read_zone (s : string) : option (option Z) :=
  match s with
  | EmptyString => Some None
  | String c rest =>
      sign <-? (if Ascii.eqb c "+" then Some 1
                else if Ascii.eqb c "-" then Some (-1) else None);;
      '(hh, rest) <-? read_digits 2 0 rest;;
      rest <-? expect ":" rest;;
      '(mm, rest) <-? read_digits 2 0 rest;;
      match rest with
      | EmptyString =>
          Some (Some (sign * (hh * usec_per_hour + mm * usec_per_minute)))
      | _ => None
      end
  end.

(** The extended format of ISO 8601 for a date and time of day,
    [YYYY-MM-DDThh:mm:ss], with an optional fraction [.ffffff] and an
    optional zone designator: the datetime that a string denotes, when it
    is written in that format. *)
Definition read_iso8601 (s : string) : option datetime :=
  '(y, s) <-? read_digits 4 0 s;;
  s <-? expect "-" s;;
  '(m, s) <-? read_digits 2 0 s;;
  s <-? expect "-" s;;
  '(d, s) <-? read_digits 2 0 s;;
  s <-? expect "T" s;;
  '(hh, s) <-? read_digits 2 0 s;;
  s <-? expect ":" s;;
  '(mm, s) <-? read_digits 2 0 s;;
  s <-? expect ":" s;;
  '(ss, s) <-? read_digits 2 0 s;;
  '(us, s) <-? read_fraction s;;
  zone <-? read_zone s;;
  Some (mkDatetime y m d hh mm ss us zone).

(** The values a [datetime] takes, with an offset of whole minutes. *)
Definition civil (d : datetime) : Prop :=
  1 <= year d <= 9999 /\ 1 <= month d <= 12 /\ 1 <= day d <= 31 /\
  0 <= hour d <= 23 /\ 0 <= minute d <= 59 /\ 0 <= second d <= 59 /\
  0 <= microsecond d <= 999999 /\
  match utcoffset d with
  | None => True
  | Some o => - usec_per_day < o < usec_per_day /\ o mod usec_per_minute = 0
  end.

(** Days from 0001-01-01 in the proleptic Gregorian calendar
    ([date.toordinal]). *)
Definition is_leap (y : Z) : bool :=
  (y mod 4 =? 0) && (negb (y mod 100 =? 0) || (y mod 400 =? 0)).

Definition days_before_year (y : Z) : Z :=
  let p := y - 1 in p * 365 + p / 4 - p / 100 + p / 400.

Definition days_before_month (y m : Z) : Z :=
  nth (Z.to_nat (m - 1))
      [0; 31; 59; 90; 120; 151; 181; 212; 243; 273; 304; 334] 0
  + (if (2 <? m) && is_leap y then 1 else 0).

Definition toordinal (d : datetime) : Z :=
  days_before_year (year d) + days_before_month (year d) (month d) + day d.

(** Microseconds of the civil fields since the start of day 0. *)
Definition civil_usec (d : datetime) : Z :=
  toordinal d * usec_per_day + hour d * usec_per_hour
  + minute d * usec_per_minute + second d * usec_per_second + microsecond d.

(** [d1 == d2]: two naive datetimes compare their fields, two aware ones the
    instants they denote, and a naive one never equals an aware one. *)
Definition datetime_eqb (d1 d2 : datetime) : bool :=
  match utcoffset d1, utcoffset d2 with
  | None, None => civil_usec d1 =? civil_usec d2
  | Some o1, Some o2 => civil_usec d1 - o1 =? civil_usec d2 - o2
  | _, _ => false
  end.

(** ** Operations of the Python object model

    The message texts of the exceptions the interpreter raises follow
    CPython 3. *)

(** [type(v).__name__] *)
Definition type_name (v : pyval) : string :=
  match v with
  | VNone => "NoneType"
  | VBool _ => "bool"
  | VInt _ => "int"
  | VStr _ => "str"
  | VDatetime _ => "datetime"
  | VList _ => "list"
  | VDict _ => "dict"
  | VObj cls _ => cls_name cls
  end.

(** [type(v)] as the interpreter's own error messages print it
    ([Py_TYPE(v)->tp_name]): [datetime] is a class written in C and keeps
    its module there. *)
Definition tp_name (v : pyval) : string :=
  match v with
  | VDatetime _ => "datetime.datetime"
  | VObj cls _ => cls_tp_name cls
  | _ => type_name v
  end.

(** [str(type(v))] *)
Definition type_repr (v : pyval) : string :=
  match v with
  | VDatetime _ => "<class 'datetime.datetime'>"
  | VObj cls _ => "<class '" ++ cls_path cls ++ "'>"
  | _ => "<class '" ++ type_name v ++ "'>"
  end.

(** [repr(v)], exact on [None], booleans, integers and strings without
    quotes or escapes, which is all this program ever formats. *)
Definition py_repr (v : pyval) : string :=
  match v with
  | VNone => "None"
  | VBool true => "True"
  | VBool false => "False"
  | VInt n => str_of_Z n
  | VStr s => "'" ++ s ++ "'"
  | VDatetime d => "datetime.datetime(" ++ isoformat d ++ ")"
  | VList _ => "[...]"
  | VDict _ => "{...}"
  | VObj cls _ => "<" ++ cls_path cls ++ " object>"
  end.

Definition is_none (v : pyval) : bool :=
  match v with VNone => true | _ => false end.

Definition hashable (v : pyval) : bool :=
  match v with VList _ | VDict _ => false | _ => true end.

Definition unhashable (v : pyval) : exn :=
  Exn TypeError ("unhashable type: '" ++ tp_name v ++ "'").

Definition num_of (v : pyval) : option Z :=
  match v with
  | VBool b => Some (if b then 1 else 0)
  | VInt n => Some n
  | _ => None
  end.

(** [a == b] where one operand is hashable, which is every comparison this
    program makes: a hashable value never equals a list or a dictionary, and
    [True == 1]. *)
Definition py_eqb (a b : pyval) : bool :=
  match a, b with
  | VNone, VNone => true
  | VStr s, VStr t => String.eqb s t
  | VDatetime d, VDatetime e => datetime_eqb d e
  | VObj c i, VObj c' i' => pyclass_eqb c c' && N.eqb i i'
  | _, _ =>
      match num_of a, num_of b with
      | Some x, Some y => x =? y
      | _, _ => false
      end
  end.

Fixpoint dict_lookup (k : pyval) (d : pydict) : option pyval :=
  match d with
  | [] => None
  | (k', v) :: d' => if py_eqb k' k then Some v else dict_lookup k d'
  end.

(** [d[k] = v] on a dictionary: an existing key keeps its place (and its key
    object), a new one goes last. *)
Fixpoint dict_set (k v : pyval) (d : pydict) : pydict :=
  match d with
  | [] => [(k, v)]
  | (k', v') :: d' =>
      if py_eqb k' k then (k', v) :: d' else (k', v') :: dict_set k v d'
  end.

Definition no_attribute (v : pyval) (attr : string) : exn :=
  Exn AttributeError
      ("'" ++ tp_name v ++ "' object has no attribute '" ++ attr ++ "'").

(** [obj.get(key, default)] *)
Definition py_get (obj key default : pyval) : result pyval :=
  match obj with
  | VDict items =>
      if hashable key then
        Ret (match dict_lookup key items with Some v => v | None => default end)
      else Raise (unhashable key)
  | _ => Raise (no_attribute obj "get")
  end.

(** [obj.items()] *)
Definition py_items (obj : pyval) : result pydict :=
  match obj with
  | VDict items => Ret items
  | _ => Raise (no_attribute obj "items")
  end.

(** [obj.strip()] *)
Definition py_strip (obj : pyval) : result string :=
  match obj with
  | VStr s => Ret (strip s)
  | _ => Raise (no_attribute obj "strip")
  end.

(** [seq[i]] for an integer [i] on a sequence of length [len]: the position
    read, counting from the end when [i] is negative. *)
Definition seq_index (i : Z) (len : nat) : option nat :=
  let n := Z.of_nat len in
  let j := if i <? 0 then i + n else i in
  if (0 <=? j) && (j <? n) then Some (Z.to_nat j) else None.

(** [obj[key]] *)
Definition py_getitem (obj key : pyval) : result pyval :=
  match obj with
  | VDict items =>
      if hashable key then
        match dict_lookup key items with
        | Some v => Ret v
        | None => Raise (Exn KeyError (py_repr key))
        end
      else Raise (unhashable key)
  | VList xs =>
      match num_of key with
      | Some i =>
          match seq_index i (List.length xs) with
          | Some j => Ret (nth j xs VNone)
          | None => Raise (Exn IndexError "list index out of range")
          end
      | None =>
          Raise (Exn TypeError ("list indices must be integers or slices, not "
                                ++ tp_name key))
      end
  | VStr s =>
      match num_of key with
      | Some i =>
          match seq_index i (String.length s) with
          | Some j => Ret (VStr (nth j (chars s) ""))
          | None => Raise (Exn IndexError "string index out of range")
          end
      | None =>
          Raise (Exn TypeError ("string indices must be integers, not '"
                                ++ tp_name key ++ "'"))
      end
  | _ =>
      Raise (Exn TypeError ("'" ++ tp_name obj ++ "' object is not subscriptable"))
  end.

(** [d[key] = v] on a dictionary under construction. *)
Definition py_setitem (d : pydict) (key v : pyval) : result pydict :=
  if hashable key then Ret (dict_set key v d) else Raise (unhashable key).

(** [obj[key] = v] for a key that is not an integer: the object after the
    assignment. *)
Definition py_store (obj key v : pyval) : result pyval :=
  match obj with
  | VDict items => items' <- py_setitem items key v;; Ret (VDict items')
  | VList _ =>
      Raise (Exn TypeError ("list indices must be integers or slices, not "
                            ++ tp_name key))
  | _ =>
      Raise (Exn TypeError ("'" ++ tp_name obj
                            ++ "' object does not support item assignment"))
  end.

(** [for x in obj]: the elements visited. *)
Definition py_iter (obj : pyval) : result (list pyval) :=
  match obj with
  | VList xs => Ret xs
  | VDict items => Ret (map fst items)
  | VStr s => Ret (map VStr (chars s))
  | _ => Raise (Exn TypeError ("'" ++ tp_name obj ++ "' object is not iterable"))
  end.

(** [x in c] *)
Definition py_contains (x c : pyval) : result bool :=
  match c with
  | VList xs => Ret (existsb (fun y => py_eqb y x) xs)
  | VDict items =>
      if hashable x then
        Ret (match dict_lookup x items with Some _ => true | None => false end)
      else Raise (unhashable x)
  | VStr s =>
      match x with
      | VStr p => Ret (is_substring p s)
      | _ =>
          Raise (Exn TypeError ("'in <string>' requires string as left operand, not "
                                ++ tp_name x))
      end
  | _ =>
      Raise (Exn TypeError ("argument of type '" ++ tp_name c
                            ++ "' is not iterable"))
  end.

(** A loop whose body may raise: [for x in xs: acc = body(acc, x)]. *)
Fixpoint for_each {A B} (body : A -> B -> result A) (xs : list B) (acc : A)
  : result A :=
  match xs with
  | [] => Ret acc
  | x :: rest => acc' <- body acc x;; for_each body rest acc'
  end.

(** ** JSON encoding *)

(** The document [json.dump] writes, up to layout. *)
Inductive json : Type :=
| JNull
| JBool (b : bool)
| JInt (n : Z)
| JString (s : string)
| JArray (elems : list json)
| JObject (fields : list (string * json)).

(** [serialize_datetime], lines 49-65. *)
Definition serialize_datetime (obj : pyval) : result string :=
  match obj with
  | VDatetime d => Ret (isoformat d)
  | _ =>
      Raise (Exn TypeError
                 ("Object of type '" ++ type_repr obj ++ "' is not JSON serializable"))
  end.

(** The key of a JSON object member, as [json] coerces dictionary keys. *)
Definition json_key (k : pyval) : result string :=
  match k with
  | VStr s => Ret s
  | VBool true => Ret "true"
  | VBool false => Ret "false"
  | VNone => Ret "null"
  | VInt n => Ret (str_of_Z n)
  | _ =>
      Raise (Exn TypeError
                 ("keys must be str, int, float, bool or None, not " ++ type_name k))
  end.

(** [json.dump(v, f, indent=4, default=serialize_datetime)]: the encoder
    hands every object it does not know to [serialize_datetime] and writes
    the string that comes back. *)
Fixpoint json_encode (v : pyval) : result json :=
  match v with
  | VNone => Ret JNull
  | VBool b => Ret (JBool b)
  | VInt n => Ret (JInt n)
  | VStr s => Ret (JString s)
  | VList xs =>
      elems <- (fix each (xs : list pyval) : result (list json) :=
                  match xs with
                  | [] => Ret []
                  | x :: rest =>
                      j <- json_encode x;; js <- each rest;; Ret (j :: js)
                  end) xs;;
      Ret (JArray elems)
  | VDict items =>
      fields <- (fix each (items : pydict) : result (list (string * json)) :=
                   match items with
                   | [] => Ret []
                   | (k, x) :: rest =>
                       name <- json_key k;;
                       j <- json_encode x;;
                       fs <- each rest;;
                       Ret ((name, j) :: fs)
                   end) items;;
      Ret (JObject fields)
  | VDatetime _ | VObj _ _ => s <- serialize_datetime v;; Ret (JString s)
  end.

(** ** The outside world *)

Inductive event : Type :=
| EvPrint (line : string)                        (* print(line) *)
| EvLogException (message : string)              (* logging.exception(...) *)
| EvLogin (service : string)                     (* Session(profile_name='fpac').client(service) *)
| EvGetTable (database table catalog : string)   (* glue_client.get_table(...) *)
| EvUpdateTable (database : string) (table_input : pyval)
                                                 (* glue_client.update_table(...) *)
| EvOpen (file mode : string)                    (* open(file, mode) *)
| EvJsonLoad (file : string)                     (* json.load(f) *)
| EvJsonDump (file : string) (doc : json)        (* json.dump(data, f, ...) ran to its end *)
| EvSnapshot (file : string).
(** [EvSnapshot file] marks the entry into
    [write_metadata_and_missing_values] with that output file; it is not an
    effect of the program. *)

(** What the world answers. The three files the program touches have
    different fixed names, so what is read never depends on what was
    written. *)
Record env : Type := mkEnv {
  aws_client : string -> option string;
    (* the text of the error boto3 raises when the client cannot be made *)
  glue_get_table : string -> string -> string -> result pyval;
  glue_update_table : string -> pyval -> option exn;
  fs_open : string -> string -> option exn;
  fs_load : string -> result pyval;      (* json.load on the open file *)
  fs_write : string -> result json -> option exn
    (* the error of a write, flush or close of the file while the encoder
       produces, or fails to produce, the document *)
}.

(** [glue_metadata_config] *)
Record config : Type := mkConfig {
  AWS_ACCESS_KEY_ID : string;
  AWS_SECRET_ACCESS_KEY : string;
  REGION_NAME : string;
  BUCKET_NAME : string;
  OBJECT_NAME : string;
  DATABASE_NAME : string;
  TABLE_NAME : string;
  CATALOG_ID : string
}.

(** The client objects carry no data of their own. *)
Inductive client : Type := S3Client | GlueClient.

(** Computations with effects: the events emitted and the outcome. *)
Definition M (A : Type) : Type := list event * result A.

Definition mret {A} (a : A) : M A := ([], Ret a).

Definition mbind {A B} (m : M A) (k : A -> M B) : M B :=
  match m with
  | (t, Ret a) => let '(t', r) := k a in ((t ++ t')%list, r)
  | (t, Raise e) => (t, Raise e)
  end.

Definition emit (ev : event) : M unit := ([ev], Ret tt).

Definition lift {A} (r : result A) : M A := ([], r).

Definition check (o : option exn) : M unit :=
  match o with
  | None => mret tt
  | Some e => ([], Raise e)
  end.

(** [try: m  except Exception as e: handler(e)] *)
Definition try_except {A} (m : M A) (handler : exn -> M A) : M A :=
  match m with
  | (t, Ret a) => (t, Ret a)
  | (t, Raise e) => let '(t', r) := handler e in ((t ++ t')%list, r)
  end.

Notation "x <~ c ;; k" := (mbind c (fun x => k))
  (at level 61, c at next level, right associativity) : py_scope.
Notation "' pat <~ c ;; k" := (mbind c (fun x => match x with pat => k end))
  (at level 61, pat pattern, c at next level, right associativity) : py_scope.
Notation "c ;;; k" := (mbind c (fun _ => k))
  (at level 61, right associativity) : py_scope.

Definition trace {A} (m : M A) : list event := fst m.
Definition outcome {A} (m : M A) : result A := snd m.

(** ** The program *)

(** [get_aws_token], lines 14-24. *)
Definition get_aws_token (cfg : config)
  : string * string * string * string * string * string * string * string :=
  (AWS_ACCESS_KEY_ID cfg, AWS_SECRET_ACCESS_KEY cfg, REGION_NAME cfg,
   BUCKET_NAME cfg, DATABASE_NAME cfg, CATALOG_ID cfg, OBJECT_NAME cfg,
   TABLE_NAME cfg).

(** [[key for key, value in metadata.items() if value is None]], line 106. *)
Definition null_fields (items : pydict) : list pyval :=
  map fst (filter (fun kv => is_none (snd kv)) items).

(** [comment is None or comment.strip() == ""], lines 140, 145 and 182. *)
Definition blank_comment (comment : pyval) : result bool :=
  match comment with
  | VNone => Ret true
  | _ => s <- py_strip comment;; Ret (String.eqb s "")
  end.

(** The body of the first loop of [write_metadata_and_missing_values],
    lines 138-146. *)
Definition snapshot_column (missing_values : pyval)
    (tables : pydict * pydict) (column : pyval) : result (pydict * pydict) :=
  let '(default_values, missing_columns) := tables in
  name <- py_get column (VStr "Name") VNone;;
  comment <- py_get column (VStr "Comment") VNone;;
  blank <- blank_comment comment;;
  default_values <-
    py_setitem default_values name (if blank then VStr "" else comment);;
  listed <- py_contains name missing_values;;
  if listed && blank then
    missing_columns <-
      py_setitem missing_columns name (VStr "default comment missing");;
    Ret (default_values, missing_columns)
  else Ret (default_values, missing_columns).

(** The body of the second loop, lines 150-151. *)
Definition flag_blank (default_values : pydict)
    (missing_columns : pydict) (column : pyval) : result pydict :=
  present <- py_contains column (VDict missing_columns);;
  if present then Ret missing_columns
  else
    value <- py_getitem (VDict default_values) column;;
    if py_eqb value (VStr "") then py_setitem missing_columns column (VStr "")
    else Ret missing_columns.

(** Lines 134-151: the two tables of a snapshot, [default_values] and
    [missing_columns]. *)
Definition snapshot_tables (metadata missing_values : pyval)
  : result (pydict * pydict) :=
  descriptor <- py_get metadata (VStr "StorageDescriptor") (VDict []);;
  columns <- py_get descriptor (VStr "Columns") (VList []);;
  columns <- py_iter columns;;
  '(default_values, missing_columns) <-
    for_each (snapshot_column missing_values) columns ([], []);;
  missing_columns <-
    for_each (flag_blank default_values) (map fst default_values)
             missing_columns;;
  Ret (default_values, missing_columns).

(** Lines 153-156. *)
Definition snapshot_data (tables : pydict * pydict) : pyval :=
  VDict [(VStr "default_values", VDict (fst tables));
         (VStr "missing_columns", VDict (snd tables))].

(** [metadata['StorageDescriptor']['Columns']], lines 180, 198 and 206. *)
Definition columns_of (metadata : pyval) : result pyval :=
  descriptor <- py_getitem metadata (VStr "StorageDescriptor");;
  py_getitem descriptor (VStr "Columns").

(** The body of the loop at lines 180-183. *)
Definition scan_column (missing_columns : pydict) (col : pyval)
  : result pydict :=
  comment <- py_get col (VStr "Comment") VNone;;
  blank <-
    (if is_none comment then Ret true
     else
       held <- py_getitem col (VStr "Comment");;
       s <- py_strip held;;
       Ret (String.eqb s ""));;
  if blank then
    name <- py_getitem col (VStr "Name");;
    py_setitem missing_columns name (VStr "")
  else Ret missing_columns.

(** Lines 179-183: the names of the columns with no usable comment. *)
Definition scan_missing_columns (metadata : pyval) : result pydict :=
  columns <- columns_of metadata;;
  cols <- py_iter columns;;
  for_each scan_column cols [].

(** Lines 198-200: the column objects after the loop, and whether it ran to
    its end. An exception leaves the columns before it assigned. *)
Fixpoint set_comments (column new_comment : pyval) (cols : list pyval)
  : list pyval * result unit :=
  match cols with
  | [] => ([], Ret tt)
  | col :: rest =>
      match py_getitem col (VStr "Name") with
      | Raise e => (cols, Raise e)
      | Ret name =>
          if py_eqb name column then
            match py_store col (VStr "Comment") new_comment with
            | Raise e => (cols, Raise e)
            | Ret col' =>
                let '(rest', r) := set_comments column new_comment rest in
                (col' :: rest', r)
            end
          else
            let '(rest', r) := set_comments column new_comment rest in
            (col :: rest', r)
      end
  end.

(** The metadata document once the objects of its column list have become
    [cols]. The document is a tree: no object occurs in it twice. *)
Definition with_columns (metadata : pyval) (cols : list pyval) : pyval :=
  match metadata with
  | VDict top =>
      match dict_lookup (VStr "StorageDescriptor") top with
      | Some (VDict descriptor) =>
          match dict_lookup (VStr "Columns") descriptor with
          | Some (VList _) =>
              VDict (dict_set (VStr "StorageDescriptor")
                       (VDict (dict_set (VStr "Columns") (VList cols) descriptor))
                       top)
          | _ => metadata
          end
      | _ => metadata
      end
  | _ => metadata
  end.

(** Lines 193-200: the document after the loop, and whether it ran to its
    end. *)
Fixpoint apply_new_values (new_values : pyval) (missing_columns : pydict)
    (metadata : pyval) : pyval * result unit :=
  match missing_columns with
  | [] => (metadata, Ret tt)
  | (column, new_comment) :: rest =>
      match (present <- py_contains column new_values;;
             new_comment <-
               (if present then py_getitem new_values column
                else Ret new_comment);;
             columns <- columns_of metadata;;
             cols <- py_iter columns;;
             Ret (new_comment, cols)) with
      | Raise e => (metadata, Raise e)
      | Ret (new_comment, cols) =>
          let '(cols', r) := set_comments column new_comment cols in
          let metadata' := with_columns metadata cols' in
          match r with
          | Raise e => (metadata', Raise e)
          | Ret _ => apply_new_values new_values rest metadata'
          end
      end
  end.

(** Lines 203-208: the [TableInput] of the update request. *)
Definition table_input_of (table_name : string) (columns : pyval) : pyval :=
  VDict [(VStr "Name", VStr table_name);
         (VStr "StorageDescriptor", VDict [(VStr "Columns", columns)])].

Section Program.

Variable E : env.
Variable cfg : config.

(** [login_to_aws_s3], lines 28-35. [ConnectionError] is an [OSError]: made
    from two arguments it takes them for [errno] and [strerror], and
    [str(e)] is ["[Errno " + str(errno) + "] " + str(strerror)]. *)
Definition login_to_aws_s3 : M client :=
  emit (EvLogin "s3");;;
  match aws_client E "s3" with
  | None => mret S3Client
  | Some err =>
      lift (Raise (Exn ConnectionError
                       ("[Errno Error connecting to AWS S3 Bucket : ] " ++ err)))
  end.

(** [login_to_aws_glue], lines 39-46. *)
Definition login_to_aws_glue : M client :=
  emit (EvLogin "glue");;;
  match aws_client E "glue" with
  | None => mret GlueClient
  | Some err =>
      lift (Raise (Exn ConnectionError
                       ("[Errno Error connecting to AWS Glue : ] " ++ err)))
  end.

(** [write_metadata_and_missing_values], lines 121-162. [open] truncates
    the file, and [json.dump] writes as it encodes, so a failure after
    [EvOpen] leaves a truncated or partial file; a complete document is
    written exactly when [EvJsonDump] is emitted. The file is written
    through a buffer and closed when the [with] block is left, so an error
    of the file system can come before or after an error of the encoder:
    when the world reports one, that is the exception that leaves the
    block, and otherwise the encoder's. *)
Definition write_metadata_and_missing_values
    (metadata missing_values : pyval) (output_file : string) : M pyval :=
  emit (EvSnapshot output_file);;;
  try_except
    (tables <~ lift (snapshot_tables metadata missing_values);;
     let data := snapshot_data tables in
     emit (EvOpen output_file "w");;;
     check (fs_open E output_file "w");;;
     let encoded := json_encode data in
     check (fs_write E output_file encoded);;;
     doc <~ lift encoded;;
     emit (EvJsonDump output_file doc);;;
     mret VNone)
    (fun e =>
       emit (EvPrint (" ***** Error during metadata writing: " ++ exn_msg e));;;
       mret VNone).

(** [get_table_metadata], lines 85-118. The two parameters are overwritten
    by the configuration at line 97. *)
Definition get_table_metadata (database_name table_name : string) : M pyval :=
  glue_client <~ login_to_aws_glue;;
  let '(access_key, secret_key, region_name, bucket_name, database_name,
        catalog_id, object_name, table_name) := get_aws_token cfg in
  try_except
    (emit (EvGetTable database_name table_name catalog_id);;;
     response <~ lift (glue_get_table E database_name table_name catalog_id);;
     metadata <~ lift (py_getitem response (VStr "Table"));;
     items <~ lift (py_items metadata);;
     let missing_values := VList (null_fields items) in
     write_metadata_and_missing_values metadata missing_values
                                       "default_metadata.json";;;
     mret metadata)
    (fun e =>
       match exn_cls e with
       | EntityNotFoundException =>
           emit (EvPrint ("***** Table '" ++ table_name
                          ++ "' not found in the database '" ++ database_name
                          ++ "'."));;;
           mret VNone
       | _ =>
           emit (EvPrint ("Error occurred: " ++ exn_msg e));;;
           mret VNone
       end).

(** [add_update_missing_values], lines 165-214. The first component is the
    metadata document as the call leaves it, whether it returns or raises;
    when the call returns [metadata] at line 214, that is the same object. *)
Definition add_update_missing_values (glue_client : client)
    (database_name table_name : string) (metadata : pyval) : pyval * M pyval :=
  match scan_missing_columns metadata with
  | Raise e => (metadata, lift (Raise e))
  | Ret [] =>
      (metadata,
       emit (EvPrint "***** No missing columns with empty 'Comment' found. *****");;;
       mret (VDict []))
  | Ret missing_columns =>
      match (emit (EvOpen "new_values.json" "r");;;
             check (fs_open E "new_values.json" "r");;;
             emit (EvJsonLoad "new_values.json");;;
             lift (fs_load E "new_values.json")) with
      | (t, Raise e) => (metadata, (t, Raise e))
      | (t, Ret new_values) =>
          let '(metadata', updated) :=
            apply_new_values new_values missing_columns metadata in
          (metadata',
           (t, updated);;;
           columns <~ lift (columns_of metadata');;
           let table_input := table_input_of table_name columns in
           emit (EvUpdateTable database_name table_input);;;
           check (glue_update_table E database_name table_input);;;
           emit (EvPrint "********** Missing column values updated successfully! **********");;;
           mret metadata')
      end
  end.

(** [main], lines 217-243. *)
Definition main : M unit :=
  try_except
    (let '(access_key, secret_key, region_name, bucket_name, database_name,
           catalog_id, object_name, table_name) := get_aws_token cfg in
     s3_client <~ login_to_aws_s3;;
     glue_client <~ login_to_aws_glue;;
     default_table_metadata <~ get_table_metadata database_name table_name;;
     update_table_metadata <~
       snd (add_update_missing_values glue_client database_name table_name
                                      default_table_metadata);;
     missing_values <~
       lift (py_get update_table_metadata (VStr "missing_columns") (VDict []));;
     write_metadata_and_missing_values update_table_metadata missing_values
                                       "updated_metadata.json";;;
     mret tt)
    (fun e =>
       emit (EvLogException ("An error occurred: " ++ exn_msg e));;;
       mret tt).

End Program.

(** ** The data model of the specification, read off a document *)

(** The column list of a metadata document that has one. *)
Definition table_columns (metadata : pyval) : option (list pyval) :=
  match metadata with
  | VDict top =>
      match dict_lookup (VStr "StorageDescriptor") top with
      | Some (VDict descriptor) =>
          match dict_lookup (VStr "Columns") descriptor with
          | Some (VList cols) => Some cols
          | _ => None
          end
      | _ => None
      end
  | _ => None
  end.

(** The top-level fields of a document. *)
Definition top_level (metadata : pyval) : pydict :=
  match metadata with
  | VDict top => top
  | _ => []
  end.

Definition field (c : pyval) (key : string) : option pyval :=
  match c with
  | VDict fields => dict_lookup (VStr key) fields
  | _ => None
  end.

(** A ColumnDescriptor: a dictionary with a string [Name] and a [Comment]
    that is absent, [None] or a string. *)
Definition is_column (c : pyval) : bool :=
  match c with
  | VDict _ =>
      match field c "Name", field c "Comment" with
      | Some (VStr _), (None | Some VNone | Some (VStr _)) => true
      | _, _ => false
      end
  | _ => false
  end.

(** A dictionary with a string [Name]. *)
Definition has_name (c : pyval) : bool :=
  match field c "Name" with
  | Some (VStr _) => true
  | _ => false
  end.

Definition col_name (c : pyval) : string :=
  match field c "Name" with
  | Some (VStr n) => n
  | _ => ""
  end.

(** A column is undocumented when its comment is absent, [None] or blank
    once trimmed. *)
Definition undocumented (c : pyval) : bool :=
  match field c "Comment" with
  | Some (VStr s) => String.eqb (strip s) ""
  | _ => true
  end.

(** The comment a snapshot shows for a column. *)
Definition shown_comment (c : pyval) : string :=
  match field c "Comment" with
  | Some (VStr s) => if String.eqb (strip s) "" then "" else s
  | _ => ""
  end.

(** A column whose comment is a string that is not blank. *)
Definition documented (c : pyval) : bool :=
  match field c "Comment" with
  | Some (VStr s) => negb (String.eqb (strip s) "")
  | _ => false
  end.

(** The dictionary with one entry per column, under the column's name. *)
Definition built (value : pyval -> pyval) (cols : list pyval) : pydict :=
  map (fun c => (VStr (col_name c), value c)) cols.

(** The column's name is one of the null top-level fields. *)
Definition listed (nulls : list pyval) (c : pyval) : bool :=
  existsb (fun y => py_eqb y (VStr (col_name c))) nulls.

(** The two kinds of entry in a missing-columns report. *)
Definition flagged_missing (nulls : list pyval) (c : pyval) : bool :=
  listed nulls c && undocumented c.

Definition flagged_blank (nulls : list pyval) (c : pyval) : bool :=
  undocumented c && negb (listed nulls c).

(** A value a [for] loop accepts. *)
Definition iterable (v : pyval) : bool :=
  match v with
  | VList _ | VDict _ | VStr _ => true
  | _ => false
  end.

(** The document holds a dictionary under [StorageDescriptor] that holds
    something iterable under [Columns]. *)
Definition has_columns (metadata : pyval) : bool :=
  match field metadata "StorageDescriptor" with
  | Some (VDict descriptor) =>
      match dict_lookup (VStr "Columns") descriptor with
      | Some v => iterable v
      | None => false
      end
  | _ => false
  end.

(** An override file as the specification describes it: every replacement
    comment is a string. *)
Definition string_valued (overrides : pydict) : bool :=
  forallb (fun kv => match snd kv with VStr _ => true | _ => false end)
          overrides.

(** The merge as the specification words it: an undocumented column takes
    the override under its name, or the empty string when there is none; a
    documented column is left alone. *)
Definition override_at (overrides : pydict) (name : string) : pyval :=
  match dict_lookup (VStr name) overrides with
  | Some v => v
  | None => VStr ""
  end.

Definition override_for (overrides : pydict) (c : pyval) : pyval :=
  override_at overrides (col_name c).

Definition with_comment (c v : pyval) : pyval :=
  match c with
  | VDict fields => VDict (dict_set (VStr "Comment") v fields)
  | _ => c
  end.

Definition merge_column (overrides : pydict) (c : pyval) : pyval :=
  if undocumented c then with_comment c (override_for overrides c) else c.

(** Line 199-200 on one column: the comment is assigned when the name is
    the one looked for. *)
Definition assign (name : string) (v c : pyval) : pyval :=
  if String.eqb (col_name c) name then with_comment c v else c.

(** The columns whose name is in [names] take their override. *)
Definition merge_named (overrides : pydict) (names : list string) (c : pyval)
  : pyval :=
  if existsb (String.eqb (col_name c)) names
  then with_comment c (override_for overrides c)
  else c.

(** A datetime wherever a value stands is replaced by its ISO-8601 string;
    dictionary keys are left as they are. *)
Fixpoint iso_view (v : pyval) : pyval :=
  match v with
  | VDatetime d => VStr (isoformat d)
  | VList xs => VList (map iso_view xs)
  | VDict items =>
      VDict ((fix each (items : pydict) : pydict :=
                match items with
                | [] => []
                | (k, x) :: rest => (k, iso_view x) :: each rest
                end) items)
  | _ => v
  end.

(** The members of a JSON object, one after the other. *)
Fixpoint encode_members (items : pydict) : result (list (string * json)) :=
  match items with
  | [] => Ret []
  | (k, x) :: rest =>
      name <- json_key k;;
      j <- json_encode x;;
      fs <- encode_members rest;;
      Ret ((name, j) :: fs)
  end.

Fixpoint encode_elements (xs : list pyval) : result (list json) :=
  match xs with
  | [] => Ret []
  | x :: rest => j <- json_encode x;; js <- encode_elements rest;; Ret (j :: js)
  end.

(** The keys and the leaves of a document, in the order in which the
    encoder meets them: the elements of a list one after the other, and
    each member of a dictionary with its key before its value. *)
Inductive part : Type :=
| Key (k : pyval)
| Leaf (v : pyval).

Fixpoint parts (v : pyval) : list part :=
  match v with
  | VList xs => flat_map parts xs
  | VDict items =>
      (fix each (items : pydict) : list part :=
         match items with
         | [] => []
         | (k, x) :: rest => (Key k :: parts x) ++ each rest
         end)%list items
  | _ => [Leaf v]
  end.

(** A part that JSON cannot take: a key that is not a string, a number, a
    boolean or [None], or a leaf that is an object of some other class
    than those of JSON and [datetime]. *)
Definition at_fault (p : part) : bool :=
  match p with
  | Key (VNone | VBool _ | VInt _ | VStr _) => false
  | Key _ => true
  | Leaf (VObj _ _) => true
  | Leaf _ => false
  end.

(** The exception of the encoder at such a part. *)
Definition fault_error (p : part) : exn :=
  match p with
  | Key k =>
      Exn TypeError
          ("keys must be str, int, float, bool or None, not " ++ type_name k)
  | Leaf w =>
      Exn TypeError
          ("Object of type '" ++ type_repr w ++ "' is not JSON serializable")
  end.

(** The parts of the members of a dictionary. *)
Fixpoint member_parts (items : pydict) : list part :=
  match items with
  | [] => []
  | (k, x) :: rest => (Key k :: parts x) ++ member_parts rest
  end%list.

(** The warning line of the snapshot writer. *)
Definition writing_warning (e : exn) : event :=
  EvPrint (" ***** Error during metadata writing: " ++ exn_msg e).

(** ** Sample data *)

Definition sample_column (name : string) (comment : option string) : pyval :=
  VDict ((VStr "Name", VStr name) :: (VStr "Type", VStr "string") ::
         match comment with
         | Some s => [(VStr "Comment", VStr s)]
         | None => []
         end).

Definition sample_created : datetime := mkDatetime 2024 1 15 10 30 0 0 (Some 0).

(** Scenario A: [id] is documented, [ts] is blank and also the name of a
    top-level field that is null. *)
Definition orders_columns : list pyval :=
  [sample_column "id" (Some "primary key");
   sample_column "ts" (Some "");
   sample_column "note" None].

Definition orders_table : pyval :=
  VDict [(VStr "Name", VStr "orders");
         (VStr "ts", VNone);
         (VStr "CreateTime", VDatetime sample_created);
         (VStr "StorageDescriptor",
          VDict [(VStr "Columns", VList orders_columns);
                 (VStr "Location", VStr "s3://bucket/orders")])].

(** A table whose columns all carry a comment. *)
Definition documented_columns : list pyval :=
  [sample_column "id" (Some "primary key");
   sample_column "ts" (Some "event timestamp")].

Definition documented_table : pyval :=
  VDict [(VStr "Name", VStr "orders");
         (VStr "StorageDescriptor",
          VDict [(VStr "Columns", VList documented_columns)])].

(** The "before" snapshot of [orders_table]. *)
Definition orders_snapshot : json :=
  JObject
    [("default_values",
      JObject [("id", JString "primary key"); ("ts", JString "");
               ("note", JString "")]);
     ("missing_columns",
      JObject [("ts", JString "default comment missing");
               ("note", JString "")])].

Definition sample_config : config :=
  mkConfig "" "" "" "" "" "sales" "orders" "123456789012".

(** A world where everything works, the catalog holds [table] and the
    override file holds [overrides]. *)
Definition friendly_world (table : pyval) (overrides : pydict) : env :=
  mkEnv (fun _ => None)
        (fun _ _ _ => Ret (VDict [(VStr "Table", table)]))
        (fun _ _ => None)
        (fun _ _ => None)
        (fun _ => Ret (VDict overrides))
        (fun _ _ => None).

(** A world where the table is not in the catalog. *)
Definition world_without_table : env :=
  mkEnv (fun _ => None)
        (fun _ _ _ => Raise (Exn EntityNotFoundException "Table orders not found."))
        (fun _ _ => None)
        (fun _ _ => None)
        (fun _ => Ret (VDict []))
        (fun _ _ => None).

(** A world where no file can be opened for writing. *)
Definition read_only_world (table : pyval) : env :=
  mkEnv (fun _ => None)
        (fun _ _ _ => Ret (VDict [(VStr "Table", table)]))
        (fun _ _ => None)
        (fun _ mode =>
           if String.eqb mode "w"
           then Some (Exn OSError "[Errno 13] Permission denied")
           else None)
        (fun _ => Ret (VDict []))
        (fun _ _ => None).

Definition sample_overrides : pydict := [(VStr "ts", VStr "event timestamp")].

(** ** Notions for the further properties *)

(** What holds of the two tables at every point of lines 134-151. *)
Definition tables_invariant (tables : pydict * pydict) : Prop :=
  (forall k v, In (k, v) (fst tables) ->
               hashable k = true /\ exists s, v = VStr s) /\
  (forall k v, In (k, v) (snd tables) ->
               (v = VStr "default comment missing" \/ v = VStr "") /\
               dict_lookup k (fst tables) <> None).

(** An update request to the catalog. *)
Definition is_update (ev : event) : bool :=
  match ev with
  | EvUpdateTable _ _ => true
  | _ => false
  end.

(** Two objects that agree on every field but [Comment]. *)
Definition same_but_comment (c c' : pyval) : Prop :=
  forall key, key <> "Comment" -> field c' key = field c key.

(** Two documents that agree on every top-level field but
    [StorageDescriptor], and whose storage descriptors agree on every field
    but [Columns]. *)
Definition same_outside_columns (metadata metadata' : pyval) : Prop :=
  (forall key, key <> "StorageDescriptor" ->
               field metadata' key = field metadata key) /\
  (forall descriptor,
      field metadata "StorageDescriptor" = Some descriptor ->
      exists descriptor',
        field metadata' "StorageDescriptor" = Some descriptor' /\
        forall key, key <> "Columns" ->
                    field descriptor' key = field descriptor key).

(** The snapshot document of a column list when the candidate set is the
    list [nulls]: the default values in column order, then the report, the
    flagged columns before the blank ones. *)
Definition snapshot_document (nulls cols : list pyval) : json :=
  JObject
    [("default_values",
      JObject (map (fun c => (col_name c, JString (shown_comment c))) cols));
     ("missing_columns",
      JObject (map (fun c => (col_name c, JString "default comment missing"))
                   (filter (flagged_missing nulls) cols)
               ++ map (fun c => (col_name c, JString ""))
                      (filter (flagged_blank nulls) cols))%list)].

(** The events a run for the configuration [cfg] may emit: the two logins,
    the fetch of the configured table, an update in the configured
    database, the three files each in its one mode, and lines of text. *)
Definition within_footprint (cfg : config) (ev : event) : Prop :=
  match ev with
  | EvLogin service => service = "s3" \/ service = "glue"
  | EvGetTable database table catalog =>
      database = DATABASE_NAME cfg /\ table = TABLE_NAME cfg /\
      catalog = CATALOG_ID cfg
  | EvUpdateTable database _ => database = DATABASE_NAME cfg
  | EvOpen file mode =>
      (mode = "w" /\
       (file = "default_metadata.json" \/ file = "updated_metadata.json")) \/
      (mode = "r" /\ file = "new_values.json")
  | EvJsonLoad file => file = "new_values.json"
  | EvJsonDump file _ =>
      file = "default_metadata.json" \/ file = "updated_metadata.json"
  | EvSnapshot file =>
      file = "default_metadata.json" \/ file = "updated_metadata.json"
  | EvPrint _ | EvLogException _ => True
  end.

Definition is_log_exception (ev : event) : bool :=
  match ev with
  | EvLogException _ => true
  | _ => false
  end.

(** ** The encoder class *)

(** [json.JSONEncoder.default]: the base encoder knows no object. *)
Definition JSONEncoder_default (obj : pyval) : result string :=
  Raise (Exn TypeError
             ("Object of type " ++ type_name obj ++ " is not JSON serializable")).

(** [DateTimeEncoder.default], lines 68-81. *)
Definition DateTimeEncoder_default (obj : pyval) : result string :=
  match obj with
  | VDatetime d => Ret (isoformat d)
  | _ => JSONEncoder_default obj
  end.

(** [json.dump] with a hook for the objects the encoder does not know,
    given as [default=hook] or as the [default] method of the class passed
    as [cls=]. The hooks of this program return a string or raise. *)
Fixpoint json_encode_with (hook : pyval -> result string) (v : pyval)
  : result json :=
  match v with
  | VNone => Ret JNull
  | VBool b => Ret (JBool b)
  | VInt n => Ret (JInt n)
  | VStr s => Ret (JString s)
  | VList xs =>
      elems <- (fix each (xs : list pyval) : result (list json) :=
                  match xs with
                  | [] => Ret []
                  | x :: rest =>
                      j <- json_encode_with hook x;;
                      js <- each rest;;
                      Ret (j :: js)
                  end) xs;;
      Ret (JArray elems)
  | VDict items =>
      fields <- (fix each (items : pydict) : result (list (string * json)) :=
                   match items with
                   | [] => Ret []
                   | (k, x) :: rest =>
                       name <- json_key k;;
                       j <- json_encode_with hook x;;
                       fs <- each rest;;
                       Ret ((name, j) :: fs)
                   end) items;;
      Ret (JObject fields)
  | VDatetime _ | VObj _ _ => s <- hook v;; Ret (JString s)
  end.

(** Two outcomes that are the same value, or two exceptions of the same
    class. *)
Definition same_outcome {A} (r1 r2 : result A) : Prop :=
  match r1, r2 with
  | Ret a, Ret b => a = b
  | Raise e1, Raise e2 => exn_cls e1 = exn_cls e2
  | _, _ => False
  end.

(** ** Names that occur more than once *)

(** Some undocumented column of the list bears the name of [c]. *)
Definition shares_undocumented_name (cols : list pyval) (c : pyval) : bool :=
  existsb (fun u => undocumented u && String.eqb (col_name u) (col_name c))
          cols.

(** The merge by name: a column takes the override when an undocumented
    column, itself or another, bears its name. *)
Definition merge_by_name (overrides : pydict) (cols : list pyval) (c : pyval)
  : pyval :=
  if shares_undocumented_name cols c
  then with_comment c (override_for overrides c)
  else c.

(** ** Overrides that are not text *)

(** A comment the test of lines 140 and 182 can take: a string or [None]. *)
Definition is_text (v : pyval) : bool :=
  match v with
  | VStr _ | VNone => true
  | _ => false
  end.

(** A column whose comment is there and is neither a string nor [None]. *)
Definition has_odd_comment (c : pyval) : bool :=
  match field c "Comment" with
  | Some v => negb (is_text v)
  | None => false
  end.

(** * Properties *)

(** ** Keys and dictionaries *)

Lemma py_eqb_str (a b : string) : py_eqb (VStr a) (VStr b) = String.eqb a b.
Proof. reflexivity. Qed.

Lemma py_eqb_str_l (a : string) (k : pyval) :
  py_eqb (VStr a) k = true -> k = VStr a.
Proof.
  destruct k; simpl; try discriminate.
  intros H. apply String.eqb_eq in H. now subst.
Qed.

Lemma py_eqb_str_r (a : string) (k : pyval) :
  py_eqb k (VStr a) = true -> k = VStr a.
Proof.
  destruct k as [| b | n | s | d | xs | items | cls addr]; simpl;
    try discriminate.
  intros H. apply String.eqb_eq in H. now subst.
Qed.

Lemma py_eqb_str_refl (a : string) : py_eqb (VStr a) (VStr a) = true.
Proof. simpl. apply String.eqb_refl. Qed.

Lemma py_eqb_str_sym (a : string) (k : pyval) :
  py_eqb k (VStr a) = py_eqb (VStr a) k.
Proof.
  destruct (py_eqb k (VStr a)) eqn:H1.
  - apply py_eqb_str_r in H1. subst. now rewrite py_eqb_str_refl.
  - destruct (py_eqb (VStr a) k) eqn:H2; [| reflexivity].
    apply py_eqb_str_l in H2. subst. now rewrite py_eqb_str_refl in H1.
Qed.

Lemma dict_lookup_set (a : string) (v : pyval) (d : pydict) (k : pyval) :
  dict_lookup k (dict_set (VStr a) v d)
  = if py_eqb (VStr a) k then Some v else dict_lookup k d.
Proof.
  induction d as [| [k' v'] d IH]; cbn [dict_lookup dict_set].
  - reflexivity.
  - destruct (py_eqb k' (VStr a)) eqn:Hk; cbn [dict_lookup].
    + apply py_eqb_str_r in Hk. subst k'.
      destruct (py_eqb (VStr a) k); reflexivity.
    + rewrite IH. destruct (py_eqb k' k) eqn:Hk'; [| reflexivity].
      destruct (py_eqb (VStr a) k) eqn:Ha; [| reflexivity].
      apply py_eqb_str_l in Ha. subst k.
      rewrite Hk in Hk'. discriminate.
Qed.

Lemma dict_set_fresh (a : string) (v : pyval) (d : pydict) :
  dict_lookup (VStr a) d = None ->
  dict_set (VStr a) v d = (d ++ [(VStr a, v)])%list.
Proof.
  induction d as [| [k' v'] d IH]; simpl; intros H.
  - reflexivity.
  - destruct (py_eqb k' (VStr a)); [discriminate |].
    now rewrite IH.
Qed.

Lemma dict_set_same (k v : pyval) (d : pydict) :
  dict_lookup k d = Some v -> dict_set k v d = d.
Proof.
  induction d as [| [k' v'] d IH]; simpl; intros H.
  - discriminate.
  - destruct (py_eqb k' k).
    + now inversion H.
    + now rewrite IH.
Qed.

Lemma dict_set_twice (a : string) (v w : pyval) (d : pydict) :
  dict_set (VStr a) w (dict_set (VStr a) v d) = dict_set (VStr a) w d.
Proof.
  induction d as [| [k' v'] d IH]; simpl.
  - now rewrite String.eqb_refl.
  - destruct (py_eqb k' (VStr a)) eqn:Hk; simpl; rewrite Hk.
    + reflexivity.
    + now rewrite IH.
Qed.

Lemma dict_lookup_app (k : pyval) (d1 d2 : pydict) :
  dict_lookup k (d1 ++ d2)%list
  = match dict_lookup k d1 with
    | Some v => Some v
    | None => dict_lookup k d2
    end.
Proof.
  induction d1 as [| [k' v'] d1 IH]; simpl.
  - reflexivity.
  - destruct (py_eqb k' k); [reflexivity | apply IH].
Qed.

(** ** Dictionaries built from a column list *)

Lemma built_lookup (value : pyval -> pyval) (cols : list pyval) (k : pyval) :
  dict_lookup k (built value cols)
  = option_map value (find (fun c => py_eqb (VStr (col_name c)) k) cols).
Proof.
  induction cols as [| c cols IH]; cbn [built map dict_lookup find].
  - reflexivity.
  - destruct (py_eqb (VStr (col_name c)) k); [reflexivity | apply IH].
Qed.

Lemma built_lookup_none (value : pyval -> pyval) (cols : list pyval)
    (n : string) :
  ~ In n (map col_name cols) -> dict_lookup (VStr n) (built value cols) = None.
Proof.
  induction cols as [| c cols IH]; cbn [built map dict_lookup In]; intros H.
  - reflexivity.
  - rewrite py_eqb_str. destruct (String.eqb (col_name c) n) eqn:Hn.
    + apply String.eqb_eq in Hn. tauto.
    + apply IH. tauto.
Qed.

Lemma find_by_name (p : pyval -> bool) (cols : list pyval) (c : pyval) :
  NoDup (map col_name cols) -> In c cols ->
  find (fun c' => py_eqb (VStr (col_name c')) (VStr (col_name c)))
       (filter p cols)
  = if p c then Some c else None.
Proof.
  induction cols as [| c0 cols IH]; cbn [map filter In]; intros Hnd Hin.
  - contradiction.
  - inversion Hnd as [| ? ? Hfresh Hnd']; subst.
    destruct (String.eqb (col_name c0) (col_name c)) eqn:Hn.
    + apply String.eqb_eq in Hn.
      destruct Hin as [-> | Hin].
      * destruct (p c) eqn:Hp.
        -- cbn [find]. now rewrite py_eqb_str, String.eqb_refl.
        -- clear IH Hnd. induction cols as [| c1 cols IH1]; [reflexivity |].
           cbn [filter]. cbn [map In] in Hfresh.
           assert (Hc1 : String.eqb (col_name c1) (col_name c) = false).
           { apply String.eqb_neq. intros Heq. apply Hfresh. now left. }
           inversion Hnd'; subst.
           destruct (p c1); cbn [find];
             [rewrite py_eqb_str, Hc1 |]; apply IH1; tauto.
      * exfalso. apply Hfresh. rewrite Hn. now apply in_map.
    + destruct Hin as [-> | Hin].
      * now rewrite String.eqb_refl in Hn.
      * destruct (p c0); cbn [find];
          [rewrite py_eqb_str, Hn |]; now apply IH.
Qed.

(** ** Columns *)

Lemma is_column_inv (c : pyval) :
  is_column c = true ->
  exists fields n,
    c = VDict fields /\
    dict_lookup (VStr "Name") fields = Some (VStr n) /\
    (dict_lookup (VStr "Comment") fields = None \/
     dict_lookup (VStr "Comment") fields = Some VNone \/
     exists s, dict_lookup (VStr "Comment") fields = Some (VStr s)).
Proof.
  destruct c as [| | | | | | fields |]; try discriminate.
  cbn [is_column field].
  destruct (dict_lookup (VStr "Name") fields) as [[| | | n | | | |] |] eqn:Hn;
    try discriminate.
  destruct (dict_lookup (VStr "Comment") fields) as [[| | | s | | | |] |] eqn:Hc;
    try discriminate; intros _; exists fields, n;
    (split; [reflexivity | split; [exact Hn |]]); eauto.
Qed.

(** Runs the object-model operations whose arguments are known. *)
Ltac py_step :=
  cbn [py_get py_getitem py_setitem py_store hashable blank_comment is_none
       py_strip rbind].

(** Unfolds the data-model view of a column that is known to be one. *)
Ltac column_cases c H :=
  let fields := fresh "fields" in
  let n := fresh "n" in
  let Hn := fresh "Hname" in
  let Hc := fresh "Hcomment" in
  let s := fresh "s" in
  destruct (is_column_inv c H) as (fields & n & -> & Hn & [Hc | [Hc | [s Hc]]]);
  unfold col_name, undocumented, shown_comment, documented, field in *;
  cbv beta iota in *;
  py_step; rewrite ?Hn, ?Hc in *; py_step.

Lemma snapshot_column_ok (missing_values : pyval) (dv mc : pydict) (c : pyval) :
  is_column c = true ->
  snapshot_column missing_values (dv, mc) c
  = (listed <- py_contains (VStr (col_name c)) missing_values;;
     Ret (dict_set (VStr (col_name c)) (VStr (shown_comment c)) dv,
          if listed && undocumented c
          then dict_set (VStr (col_name c)) (VStr "default comment missing") mc
          else mc)).
Proof.
  intros H. unfold snapshot_column.
  column_cases c H;
    try destruct (String.eqb (strip s) "");
    destruct (py_contains (VStr n) missing_values) as [[|] | e];
    reflexivity.
Qed.

Lemma scan_column_ok (missing : pydict) (c : pyval) :
  is_column c = true ->
  scan_column missing c
  = Ret (if undocumented c then dict_set (VStr (col_name c)) (VStr "") missing
         else missing).
Proof.
  intros H. unfold scan_column.
  column_cases c H; try reflexivity.
  destruct (String.eqb (strip s) ""); py_step; rewrite ?Hname; reflexivity.
Qed.

Lemma shown_comment_empty (c : pyval) :
  is_column c = true ->
  String.eqb (shown_comment c) "" = undocumented c.
Proof.
  intros H. column_cases c H; try reflexivity.
  destruct (String.eqb (strip s) "") eqn:Hs; [reflexivity |].
  destruct s; [discriminate Hs | reflexivity].
Qed.

Lemma forallb_cons_inv {A} (p : A -> bool) (x : A) (xs : list A) :
  forallb p (x :: xs) = true -> p x = true /\ forallb p xs = true.
Proof. cbn [forallb]. intros H. now apply andb_true_iff in H. Qed.

(** ** Loops *)

(** A loop whose body never raises is a fold. *)
Lemma for_each_fold {A B} (body : A -> B -> result A) (g : A -> B -> A)
    (xs : list B) :
  (forall acc x, In x xs -> body acc x = Ret (g acc x)) ->
  forall acc, for_each body xs acc = Ret (fold_left g xs acc).
Proof.
  induction xs as [| x xs IH]; intros Hbody acc; cbn [for_each fold_left].
  - reflexivity.
  - rewrite Hbody by now left. cbn [rbind].
    apply IH. intros acc' y Hy. apply Hbody. now right.
Qed.

(** Setting one key per column, for names that are all different and not
    yet in the dictionary, appends the entries in column order. *)
Lemma fold_set_fresh (value : pyval -> pyval) (p : pyval -> bool)
    (cols : list pyval) :
  NoDup (map col_name cols) ->
  forall d,
    (forall c, In c cols -> dict_lookup (VStr (col_name c)) d = None) ->
    fold_left (fun d c => if p c then dict_set (VStr (col_name c)) (value c) d
                          else d) cols d
    = (d ++ built value (filter p cols))%list.
Proof.
  induction cols as [| c cols IH]; intros Hnd d Hfresh;
    cbn [fold_left filter built map].
  - now rewrite app_nil_r.
  - inversion Hnd as [| ? ? Hc Hnd']; subst.
    destruct (p c).
    + rewrite dict_set_fresh by (apply Hfresh; now left).
      rewrite IH; [| assumption |].
      * cbn [built map]. now rewrite <- app_assoc.
      * intros c' Hc'. rewrite dict_lookup_app, Hfresh by now right.
        cbn [dict_lookup]. rewrite py_eqb_str.
        destruct (String.eqb (col_name c) (col_name c')) eqn:Hn;
          [| reflexivity].
        apply String.eqb_eq in Hn. exfalso. apply Hc. rewrite Hn.
        now apply in_map.
    + apply IH; [assumption |]. intros c' Hc'. apply Hfresh. now right.
Qed.

Lemma filter_true {A} (xs : list A) : filter (fun _ => true) xs = xs.
Proof. induction xs; cbn [filter]; congruence. Qed.

(** The first loop of the snapshot writer, whatever the candidate set: when
    it runs to its end, [default_values] holds one entry per column. *)
Lemma snapshot_loop_defaults (missing_values : pyval) (cols : list pyval) :
  forallb is_column cols = true ->
  forall dv0 mc0 dv mc,
    for_each (snapshot_column missing_values) cols (dv0, mc0) = Ret (dv, mc) ->
    dv = fold_left (fun d c => dict_set (VStr (col_name c))
                                        (VStr (shown_comment c)) d) cols dv0.
Proof.
  induction cols as [| c cols IH]; intros Hwf dv0 mc0 dv mc;
    cbn [for_each fold_left].
  - intros H. now inversion H.
  - apply forallb_cons_inv in Hwf as [Hc Hwf].
    rewrite snapshot_column_ok by assumption.
    destruct (py_contains (VStr (col_name c)) missing_values) as [l | e];
      cbn [rbind]; [| discriminate].
    intros H. now apply IH in H.
Qed.

(** The first loop when the candidate set is a list. *)
Lemma snapshot_loop_list (nulls cols : list pyval) :
  forallb is_column cols = true ->
  forall dv0 mc0,
    for_each (snapshot_column (VList nulls)) cols (dv0, mc0)
    = Ret (fold_left (fun d c => dict_set (VStr (col_name c))
                                          (VStr (shown_comment c)) d) cols dv0,
           fold_left (fun d c => if flagged_missing nulls c then
                                   dict_set (VStr (col_name c))
                                            (VStr "default comment missing") d
                                 else d) cols mc0).
Proof.
  induction cols as [| c cols IH]; intros Hwf dv0 mc0;
    cbn [for_each fold_left].
  - reflexivity.
  - apply forallb_cons_inv in Hwf as [Hc Hwf].
    rewrite snapshot_column_ok by assumption.
    cbn [py_contains rbind]. now rewrite IH.
Qed.

(** The second loop: every undocumented column that the first loop did not
    flag is entered with the empty tag, in column order. *)
Lemma flag_loop (nulls cols : list pyval) :
  forallb is_column cols = true ->
  NoDup (map col_name cols) ->
  forall rest pre,
    cols = (pre ++ rest)%list ->
    for_each (flag_blank (built (fun c => VStr (shown_comment c)) cols))
             (map fst (built (fun c => VStr (shown_comment c)) rest))
             (built (fun _ => VStr "default comment missing")
                    (filter (flagged_missing nulls) cols)
              ++ built (fun _ => VStr "") (filter (flagged_blank nulls) pre))%list
    = Ret (built (fun _ => VStr "default comment missing")
                 (filter (flagged_missing nulls) cols)
           ++ built (fun _ => VStr "") (filter (flagged_blank nulls) cols))%list.
Proof.
  intros Hwf Hnd.
  induction rest as [| c rest IH]; intros pre Hsplit;
    cbn [built map for_each fst].
  - rewrite app_nil_r in Hsplit. now subst.
  - assert (Hin : In c cols) by (subst; apply in_elt).
    assert (Hc : is_column c = true)
      by (rewrite forallb_forall in Hwf; now apply Hwf).
    assert (Hpre : ~ In (col_name c) (map col_name pre)).
    { subst cols. rewrite map_app in Hnd. cbn [map] in Hnd.
      apply NoDup_remove_2 in Hnd. intros Hp. apply Hnd.
      apply in_or_app. now left. }
    assert (Hlook :
      dict_lookup (VStr (col_name c))
        (built (fun _ => VStr "default comment missing")
               (filter (flagged_missing nulls) cols)
         ++ built (fun _ => VStr "") (filter (flagged_blank nulls) pre))%list
      = if flagged_missing nulls c then Some (VStr "default comment missing")
        else None).
    { rewrite dict_lookup_app, built_lookup, find_by_name by assumption.
      destruct (flagged_missing nulls c); [reflexivity |].
      cbn [option_map]. apply built_lookup_none.
      intros Hp. apply Hpre. rewrite in_map_iff in *.
      destruct Hp as (c' & Hn & Hc'). exists c'. split; [assumption |].
      now apply filter_In in Hc'. }
    unfold flag_blank at 1. cbn [py_contains hashable]. rewrite Hlook.
    specialize (IH (pre ++ [c])%list).
    rewrite <- app_assoc in IH. specialize (IH Hsplit).
    rewrite filter_app in IH. cbn [filter] in IH.
    unfold flagged_blank at 2 in IH. unfold flagged_missing in *.
    destruct (listed nulls c) eqn:Hl, (undocumented c) eqn:Hu;
      cbn [andb negb rbind] in *.
    + rewrite app_nil_r in IH. exact IH.
    + cbn [py_getitem hashable].
      pose proof (find_by_name (fun _ => true) cols c Hnd Hin) as Hf.
      rewrite filter_true in Hf. rewrite built_lookup, Hf. cbn [option_map rbind].
      rewrite py_eqb_str, shown_comment_empty, Hu by assumption.
      rewrite app_nil_r in IH. exact IH.
    + cbn [py_getitem hashable].
      pose proof (find_by_name (fun _ => true) cols c Hnd Hin) as Hf.
      rewrite filter_true in Hf. rewrite built_lookup, Hf. cbn [option_map rbind].
      rewrite py_eqb_str, shown_comment_empty, Hu by assumption.
      cbn [py_setitem hashable rbind].
      rewrite dict_set_fresh by (rewrite Hlook; reflexivity).
      unfold built in *. rewrite map_app in IH. cbn [map] in IH.
      rewrite <- app_assoc. exact IH.
    + cbn [py_getitem hashable].
      pose proof (find_by_name (fun _ => true) cols c Hnd Hin) as Hf.
      rewrite filter_true in Hf. rewrite built_lookup, Hf. cbn [option_map rbind].
      rewrite py_eqb_str, shown_comment_empty, Hu by assumption.
      rewrite app_nil_r in IH. exact IH.
Qed.

(** ** The snapshot tables *)

Lemma table_columns_inv (metadata : pyval) (cols : list pyval) :
  table_columns metadata = Some cols ->
  exists top descriptor,
    metadata = VDict top /\
    dict_lookup (VStr "StorageDescriptor") top = Some (VDict descriptor) /\
    dict_lookup (VStr "Columns") descriptor = Some (VList cols).
Proof.
  destruct metadata as [| | | | | | top |]; try discriminate.
  cbn [table_columns].
  destruct (dict_lookup (VStr "StorageDescriptor") top)
    as [[| | | | | | descriptor |] |] eqn:Hd; try discriminate.
  destruct (dict_lookup (VStr "Columns") descriptor)
    as [[| | | | | xs | |] |] eqn:Hc; try discriminate.
  intros H. inversion H; subst. now exists top, descriptor.
Qed.

Lemma default_values_built (cols : list pyval) :
  NoDup (map col_name cols) ->
  fold_left (fun d c => dict_set (VStr (col_name c)) (VStr (shown_comment c)) d)
            cols []
  = built (fun c => VStr (shown_comment c)) cols.
Proof.
  intros Hnd.
  pose proof (fold_set_fresh (fun c => VStr (shown_comment c)) (fun _ => true)
                cols Hnd [] (fun _ _ => eq_refl)) as H.
  rewrite filter_true in H. exact H.
Qed.

(** The tables a snapshot holds when the candidate set is a list. *)
Lemma snapshot_tables_list (metadata : pyval) (nulls cols : list pyval) :
  table_columns metadata = Some cols ->
  forallb is_column cols = true ->
  NoDup (map col_name cols) ->
  snapshot_tables metadata (VList nulls)
  = Ret (built (fun c => VStr (shown_comment c)) cols,
         (built (fun _ => VStr "default comment missing")
                (filter (flagged_missing nulls) cols)
          ++ built (fun _ => VStr "") (filter (flagged_blank nulls) cols))%list).
Proof.
  intros Hcols Hwf Hnd.
  destruct (table_columns_inv _ _ Hcols) as (top & sd & -> & Hsd & Hc).
  unfold snapshot_tables. py_step. rewrite Hsd. py_step. rewrite Hc.
  cbn [py_iter rbind].
  rewrite snapshot_loop_list by assumption. cbn [rbind].
  rewrite default_values_built by assumption.
  rewrite (fold_set_fresh (fun _ => VStr "default comment missing"))
    by (assumption || reflexivity).
  cbn [app].
  pose proof (flag_loop nulls cols Hwf Hnd cols [] eq_refl) as Hloop.
  cbn [filter built map] in Hloop. rewrite app_nil_r in Hloop.
  fold (built (fun _ : pyval => VStr "default comment missing")) in Hloop.
  fold (built (fun c => VStr (shown_comment c))) in Hloop.
  rewrite Hloop. reflexivity.
Qed.

(** Whatever the candidate set, a snapshot that is built holds one default
    value per column. *)
Lemma snapshot_tables_defaults (metadata missing_values : pyval)
    (cols : list pyval) (dv mc : pydict) :
  table_columns metadata = Some cols ->
  forallb is_column cols = true ->
  NoDup (map col_name cols) ->
  snapshot_tables metadata missing_values = Ret (dv, mc) ->
  dv = built (fun c => VStr (shown_comment c)) cols.
Proof.
  intros Hcols Hwf Hnd.
  destruct (table_columns_inv _ _ Hcols) as (top & sd & -> & Hsd & Hc).
  unfold snapshot_tables. py_step. rewrite Hsd. py_step. rewrite Hc.
  cbn [py_iter rbind].
  destruct (for_each (snapshot_column missing_values) cols ([], []))
    as [[dv' mc'] | e] eqn:Hloop; cbn [rbind]; [| discriminate].
  apply snapshot_loop_defaults in Hloop; [| assumption].
  rewrite default_values_built in Hloop by assumption. subst dv'.
  destruct (for_each _ _ mc') as [mc'' | e]; cbn [rbind]; [| discriminate].
  intros H. now inversion H.
Qed.

(** ** The snapshot writer *)

(** Runs the steps of a computation whose outcomes are known. *)
Ltac m_step :=
  cbn [mbind lift emit check mret try_except app fst snd trace outcome].

(** Every way the writer can run: it returns [None], after a complete
    document or after a warning. *)
Lemma writer_runs (E : env) (metadata missing_values : pyval) (file : string) :
  (exists tables doc,
      snapshot_tables metadata missing_values = Ret tables /\
      json_encode (snapshot_data tables) = Ret doc /\
      write_metadata_and_missing_values E metadata missing_values file
      = ([EvSnapshot file; EvOpen file "w"; EvJsonDump file doc], Ret VNone))
  \/
  (exists e,
      write_metadata_and_missing_values E metadata missing_values file
      = ([EvSnapshot file; writing_warning e], Ret VNone))
  \/
  (exists e,
      write_metadata_and_missing_values E metadata missing_values file
      = ([EvSnapshot file; EvOpen file "w"; writing_warning e], Ret VNone)).
Proof.
  unfold write_metadata_and_missing_values, writing_warning.
  destruct (snapshot_tables metadata missing_values) as [tables | e] eqn:Ht;
    m_step.
  2:{ right; left. now exists e. }
  destruct (fs_open E file "w") as [e |] eqn:Ho; m_step.
  { right; right. now exists e. }
  destruct (fs_write E file (json_encode (snapshot_data tables)))
    as [e |] eqn:Hw; m_step.
  { right; right. now exists e. }
  destruct (json_encode (snapshot_data tables)) as [doc | e] eqn:Hj; m_step.
  2:{ right; right. now exists e. }
  left. now exists tables, doc.
Qed.

(** ** JSON encoding *)

Lemma json_encode_dict (items : pydict) :
  json_encode (VDict items)
  = (fields <- encode_members items;; Ret (JObject fields)).
Proof.
  cbn [json_encode].
  match goal with
  | |- rbind (?each items) _ = _ =>
      assert (Heach : forall l, each l = encode_members l)
  end.
  { induction l as [| [k x] rest IH]; [reflexivity |].
    cbn [encode_members]. now rewrite <- IH. }
  now rewrite Heach.
Qed.

Lemma json_encode_list (xs : list pyval) :
  json_encode (VList xs)
  = (elems <- encode_elements xs;; Ret (JArray elems)).
Proof.
  cbn [json_encode].
  match goal with
  | |- rbind (?each xs) _ = _ =>
      assert (Heach : forall l, each l = encode_elements l)
  end.
  { induction l as [| x rest IH]; [reflexivity |].
    cbn [encode_elements]. now rewrite <- IH. }
  now rewrite Heach.
Qed.

Lemma encode_members_built (text : pyval -> string) (cols : list pyval) :
  encode_members (built (fun c => VStr (text c)) cols)
  = Ret (map (fun c => (col_name c, JString (text c))) cols).
Proof.
  induction cols as [| c cols IH]; cbn [built map encode_members]; [reflexivity |].
  cbn [json_key json_encode rbind].
  fold (built (fun c => VStr (text c)) cols). now rewrite IH.
Qed.

(** A snapshot document is an object with the two members
    [default_values] and [missing_columns], each an object. *)
Lemma snapshot_document_shape (tables : pydict * pydict) (doc : json) :
  json_encode (snapshot_data tables) = Ret doc ->
  exists dv mc,
    encode_members (fst tables) = Ret dv /\
    encode_members (snd tables) = Ret mc /\
    doc = JObject [("default_values", JObject dv);
                   ("missing_columns", JObject mc)].
Proof.
  unfold snapshot_data. rewrite json_encode_dict.
  cbn [encode_members json_key rbind]. rewrite !json_encode_dict.
  destruct (encode_members (fst tables)) as [dv | e]; cbn [rbind];
    [| discriminate].
  destruct (encode_members (snd tables)) as [mc | e]; cbn [rbind];
    [| discriminate].
  intros H. inversion H. now exists dv, mc.
Qed.

Lemma listed_iff (nulls : list pyval) (c : pyval) :
  listed nulls c = true <-> In (VStr (col_name c)) nulls.
Proof.
  unfold listed. rewrite existsb_exists. split.
  - intros (y & Hy & Heq). apply py_eqb_str_r in Heq. now subst.
  - intros H. exists (VStr (col_name c)). split; [assumption |].
    apply py_eqb_str_refl.
Qed.

(** ** The claims about the snapshot *)

(** The tags of a report, for any list of candidate names. *)
Lemma report_tags_by_candidates (metadata : pyval) (cols nulls : list pyval) :
  table_columns metadata = Some cols ->
  forallb is_column cols = true ->
  NoDup (map col_name cols) ->
  exists default_values report,
    snapshot_tables metadata (VList nulls) = Ret (default_values, report) /\
    (forall c, In c cols ->
       (dict_lookup (VStr (col_name c)) report
          = Some (VStr "default comment missing")
        <-> undocumented c = true /\ In (VStr (col_name c)) nulls) /\
       (undocumented c = true -> ~ In (VStr (col_name c)) nulls ->
        dict_lookup (VStr (col_name c)) report = Some (VStr "")) /\
       (undocumented c = false ->
        dict_lookup (VStr (col_name c)) report = None)) /\
    (forall k v, dict_lookup k report = Some v ->
                 exists c, In c cols /\ k = VStr (col_name c)).
Proof.
  intros Hcols Hwf Hnd.
  rewrite (snapshot_tables_list _ _ _ Hcols Hwf Hnd).
  eexists _, _. split; [reflexivity |]. split.
  - intros c Hin.
    assert (Hlook :
      dict_lookup (VStr (col_name c))
        (built (fun _ => VStr "default comment missing")
               (filter (flagged_missing nulls) cols)
         ++ built (fun _ => VStr "") (filter (flagged_blank nulls) cols))%list
      = if flagged_missing nulls c then Some (VStr "default comment missing")
        else if flagged_blank nulls c then Some (VStr "") else None).
    { rewrite dict_lookup_app, !built_lookup, !find_by_name by assumption.
      destruct (flagged_missing nulls c), (flagged_blank nulls c);
        reflexivity. }
    rewrite Hlook. unfold flagged_missing, flagged_blank.
    pose proof (listed_iff nulls c) as Hl.
    destruct (listed nulls c), (undocumented c); cbn [andb negb];
      (split; [split |]).
    all: try (intros H;
              first [discriminate H
                    | split; [reflexivity | now apply Hl]]).
    all: try (intros [Hu Hn];
              first [discriminate Hu | reflexivity
                    | apply Hl in Hn; discriminate Hn]).
    all: split;
      [ intros Hu Hn;
        first [discriminate Hu | reflexivity | exfalso; apply Hn; now apply Hl]
      | intros Hu; first [discriminate Hu | reflexivity] ].
  - intros k v. rewrite dict_lookup_app, !built_lookup.
    destruct (find _ (filter (flagged_missing nulls) cols)) as [c |] eqn:Hf;
      cbn [option_map].
    + intros _. apply find_some in Hf as [Hin Hk].
      apply filter_In in Hin as [Hin _]. apply py_eqb_str_l in Hk.
      now exists c.
    + destruct (find _ (filter (flagged_blank nulls) cols)) as [c |] eqn:Hg;
        cbn [option_map]; [| discriminate].
      intros _. apply find_some in Hg as [Hin Hk].
      apply filter_In in Hin as [Hin _]. apply py_eqb_str_l in Hk.
      now exists c.
Qed.

(** Line 106 keeps the keys of the items whose value is [None], and no
    other. *)
Lemma null_fields_spec (items : pydict) (k : pyval) :
  In k (null_fields items) <-> In (k, VNone) items.
Proof.
  unfold null_fields. rewrite in_map_iff. split.
  - intros ([k' v] & Hk & Hin). cbn [fst] in Hk. subst k'.
    apply filter_In in Hin as [Hin Hv]. cbn [snd] in Hv.
    destruct v; try discriminate Hv. exact Hin.
  - intros Hin. exists (k, VNone). split; [reflexivity |].
    apply filter_In. split; [exact Hin | reflexivity].
Qed.

(** C1. In the report of the analyzer, a column stands under the tag
    "default comment missing" exactly when it is undocumented and the
    document holds, at its top level, an item with the name of the column
    as key and [None] as value; every other undocumented column stands
    under the empty tag; a documented column does not stand in the report,
    and nothing but columns does. The analyzer is the snapshot writer as
    [get_table_metadata] calls it, with the list of line 106 as candidate
    set. The document is one of the data model: its columns are column
    descriptors with names that are all different. *)
Theorem report_tags_cross_reference (metadata : pyval) (cols : list pyval) :
  table_columns metadata = Some cols ->
  forallb is_column cols = true ->
  NoDup (map col_name cols) ->
  let null_at_top (c : pyval) :=
    In (VStr (col_name c), VNone) (top_level metadata) in
  exists default_values report,
    snapshot_tables metadata (VList (null_fields (top_level metadata)))
    = Ret (default_values, report) /\
    (forall c, In c cols ->
       (dict_lookup (VStr (col_name c)) report
          = Some (VStr "default comment missing")
        <-> undocumented c = true /\ null_at_top c) /\
       (undocumented c = true -> ~ null_at_top c ->
        dict_lookup (VStr (col_name c)) report = Some (VStr "")) /\
       (undocumented c = false ->
        dict_lookup (VStr (col_name c)) report = None)) /\
    (forall k v, dict_lookup k report = Some v ->
                 exists c, In c cols /\ k = VStr (col_name c)).
Proof.
  intros Hcols Hwf Hnd null_at_top. subst null_at_top. cbv beta.
  destruct (report_tags_by_candidates metadata cols
              (null_fields (top_level metadata)) Hcols Hwf Hnd)
    as (default_values & report & Hrun & Htags & Honly).
  exists default_values, report. split; [exact Hrun |].
  split; [| exact Honly].
  intros c Hin. destruct (Htags c Hin) as (Hmissing & Hblank & Hnone).
  rewrite null_fields_spec in Hmissing, Hblank.
  split; [| split; [exact Hblank | exact Hnone]].
  exact Hmissing.
Qed.

(** Names that are written out are all different. *)
Ltac distinct_names :=
  repeat constructor; cbn; intuition discriminate.

Lemma report_tags_cross_reference_witness :
  table_columns orders_table = Some orders_columns /\
  forallb is_column orders_columns = true /\
  NoDup (map col_name orders_columns) /\
  In (VStr "ts", VNone) (top_level orders_table) /\
  ~ In (VStr "note", VNone) (top_level orders_table) /\
  exists default_values report,
    snapshot_tables orders_table
                    (VList (null_fields (top_level orders_table)))
    = Ret (default_values, report) /\
    dict_lookup (VStr "ts") report = Some (VStr "default comment missing") /\
    dict_lookup (VStr "note") report = Some (VStr "") /\
    dict_lookup (VStr "id") report = None.
Proof.
  assert (Hnd : NoDup (map col_name orders_columns)) by distinct_names.
  assert (Hts : In (VStr "ts", VNone) (top_level orders_table))
    by (cbn; tauto).
  assert (Hnote : ~ In (VStr "note", VNone) (top_level orders_table))
    by (cbn; intuition discriminate).
  split; [reflexivity | split; [reflexivity | split; [exact Hnd |]]].
  split; [exact Hts | split; [exact Hnote |]].
  destruct (report_tags_cross_reference orders_table orders_columns
              eq_refl eq_refl Hnd)
    as (dv & report & Hrun & Hcols & _).
  exists dv, report. split; [exact Hrun |]. repeat split.
  - apply (Hcols (sample_column "ts" (Some ""))).
    + cbn. tauto.
    + split; [reflexivity | exact Hts].
  - apply (Hcols (sample_column "note" None)).
    + cbn. tauto.
    + reflexivity.
    + exact Hnote.
  - apply (Hcols (sample_column "id" (Some "primary key"))).
    + cbn. tauto.
    + reflexivity.
Defined.

(** C6. The snapshot writer never raises: whatever the document, the
    candidate set, the file and the state of the file system, it returns
    [None]; and an exception raised while the tables are built, the file is
    opened, the text is written or the document is encoded ends in one
    warning line that carries its message. *)
Theorem snapshot_write_is_best_effort (E : env)
    (metadata missing_values : pyval) (file : string) :
  let run := write_metadata_and_missing_values E metadata missing_values file in
  outcome run = Ret VNone /\
  (forall e, snapshot_tables metadata missing_values = Raise e ->
             trace run = [EvSnapshot file; writing_warning e]) /\
  (forall tables e,
      snapshot_tables metadata missing_values = Ret tables ->
      fs_open E file "w" = Some e ->
      trace run = [EvSnapshot file; EvOpen file "w"; writing_warning e]) /\
  (forall tables e,
      snapshot_tables metadata missing_values = Ret tables ->
      fs_open E file "w" = None ->
      fs_write E file (json_encode (snapshot_data tables)) = Some e ->
      trace run = [EvSnapshot file; EvOpen file "w"; writing_warning e]) /\
  (forall tables e,
      snapshot_tables metadata missing_values = Ret tables ->
      fs_open E file "w" = None ->
      fs_write E file (json_encode (snapshot_data tables)) = None ->
      json_encode (snapshot_data tables) = Raise e ->
      trace run = [EvSnapshot file; EvOpen file "w"; writing_warning e]).
Proof.
  intros run. subst run. split.
  - destruct (writer_runs E metadata missing_values file)
      as [(t & d & _ & _ & ->) | [(e & ->) | (e & ->)]]; reflexivity.
  - unfold write_metadata_and_missing_values, writing_warning.
    repeat split.
    + intros e ->. reflexivity.
    + intros tables e -> Ho. m_step. rewrite Ho. reflexivity.
    + intros tables e -> Ho Hw. m_step. rewrite Ho. m_step. rewrite Hw.
      reflexivity.
    + intros tables e -> Ho Hw Hj. m_step. rewrite Ho. m_step. rewrite Hw.
      m_step. rewrite Hj. reflexivity.
Qed.

Lemma snapshot_write_is_best_effort_witness :
  fs_open (read_only_world orders_table) "default_metadata.json" "w"
  = Some (Exn OSError "[Errno 13] Permission denied") /\
  outcome (write_metadata_and_missing_values
             (read_only_world orders_table) orders_table
             (VList [VStr "ts"]) "default_metadata.json") = Ret VNone /\
  trace (write_metadata_and_missing_values
           (read_only_world orders_table) orders_table
           (VList [VStr "ts"]) "default_metadata.json")
  = [EvSnapshot "default_metadata.json";
     EvOpen "default_metadata.json" "w";
     EvPrint " ***** Error during metadata writing: [Errno 13] Permission denied"].
Proof.
  split; [reflexivity |].
  destruct (snapshot_write_is_best_effort
              (read_only_world orders_table) orders_table
              (VList [VStr "ts"]) "default_metadata.json")
    as (Hout & _ & Hopen & _).
  split; [exact Hout |].
  exact (Hopen _ (Exn OSError "[Errno 13] Permission denied") eq_refl eq_refl).
Defined.

(** C7. Every snapshot document that is written is an object with the two
    members [default_values] and [missing_columns] and no other, written to
    the output file of the call; and for a document of the data model,
    [default_values] has one member per column, in column order, under the
    column's name: its comment, or the empty string when the comment is
    absent or blank. *)
Theorem snapshot_document_layout (E : env) (metadata missing_values : pyval)
    (file written : string) (doc : json) :
  In (EvJsonDump written doc)
     (trace (write_metadata_and_missing_values E metadata missing_values file)) ->
  written = file /\
  exists default_values missing_columns,
    doc = JObject [("default_values", JObject default_values);
                   ("missing_columns", JObject missing_columns)] /\
    forall cols,
      table_columns metadata = Some cols ->
      forallb is_column cols = true ->
      NoDup (map col_name cols) ->
      default_values
      = map (fun c => (col_name c, JString (shown_comment c))) cols.
Proof.
  destruct (writer_runs E metadata missing_values file)
    as [(tables & d & Ht & Hj & ->) | [(e & ->) | (e & ->)]];
    cbn [trace fst In]; unfold writing_warning.
  - intros [H | [H | [H | []]]]; try discriminate.
    inversion H; subst. split; [reflexivity |].
    destruct (snapshot_document_shape _ _ Hj) as (dv & mc & Hdv & Hmc & ->).
    exists dv, mc. split; [reflexivity |].
    intros cols Hcols Hwf Hnd. destruct tables as [dvt mct].
    rewrite (snapshot_tables_defaults _ _ _ _ _ Hcols Hwf Hnd Ht) in Hdv.
    cbn [fst] in Hdv. rewrite encode_members_built in Hdv. now inversion Hdv.
  - intros [H | [H | []]]; discriminate.
  - intros [H | [H | [H | []]]]; discriminate.
Qed.

Lemma snapshot_document_layout_witness :
  In (EvJsonDump "default_metadata.json" orders_snapshot)
     (trace (write_metadata_and_missing_values
               (friendly_world orders_table sample_overrides) orders_table
               (VList [VStr "ts"]) "default_metadata.json")) /\
  exists default_values missing_columns,
    orders_snapshot
    = JObject [("default_values", JObject default_values);
               ("missing_columns", JObject missing_columns)] /\
    default_values
    = [("id", JString "primary key"); ("ts", JString ""); ("note", JString "")].
Proof.
  assert (Hin :
    In (EvJsonDump "default_metadata.json" orders_snapshot)
       (trace (write_metadata_and_missing_values
                 (friendly_world orders_table sample_overrides) orders_table
                 (VList [VStr "ts"]) "default_metadata.json"))).
  { cbn. tauto. }
  split; [exact Hin |].
  destruct (snapshot_document_layout _ _ _ _ _ _ Hin)
    as (_ & dv & mc & Hdoc & Hcols).
  exists dv, mc. split; [exact Hdoc |].
  apply (Hcols orders_columns); [reflexivity | reflexivity | distinct_names].
Defined.

(** ** The merge *)

Lemma columns_of_table (metadata : pyval) (cols : list pyval) :
  table_columns metadata = Some cols -> columns_of metadata = Ret (VList cols).
Proof.
  intros H. destruct (table_columns_inv _ _ H) as (top & sd & -> & Hsd & Hc).
  unfold columns_of. py_step. rewrite Hsd. py_step. now rewrite Hc.
Qed.

Lemma table_columns_with (metadata : pyval) (cols cols' : list pyval) :
  table_columns metadata = Some cols ->
  table_columns (with_columns metadata cols') = Some cols'.
Proof.
  intros H. destruct (table_columns_inv _ _ H) as (top & sd & -> & Hsd & Hc).
  cbn [with_columns]. rewrite Hsd, Hc. cbn [table_columns].
  rewrite dict_lookup_set, py_eqb_str_refl, dict_lookup_set, py_eqb_str_refl.
  reflexivity.
Qed.

Lemma with_columns_same (metadata : pyval) (cols : list pyval) :
  table_columns metadata = Some cols -> with_columns metadata cols = metadata.
Proof.
  intros H. destruct (table_columns_inv _ _ H) as (top & sd & -> & Hsd & Hc).
  cbn [with_columns]. rewrite Hsd, Hc.
  rewrite (dict_set_same _ _ sd Hc). now rewrite (dict_set_same _ _ top Hsd).
Qed.

Lemma with_columns_twice (metadata : pyval) (cols cols1 cols2 : list pyval) :
  table_columns metadata = Some cols ->
  with_columns (with_columns metadata cols1) cols2 = with_columns metadata cols2.
Proof.
  intros H. destruct (table_columns_inv _ _ H) as (top & sd & -> & Hsd & Hc).
  cbn [with_columns]. rewrite Hsd, Hc. cbn [with_columns].
  rewrite dict_lookup_set, py_eqb_str_refl, dict_lookup_set, py_eqb_str_refl.
  now rewrite !dict_set_twice.
Qed.

Lemma col_name_with_comment (c v : pyval) :
  col_name (with_comment c v) = col_name c.
Proof.
  destruct c; try reflexivity.
  unfold col_name, field. cbn [with_comment]. now rewrite dict_lookup_set.
Qed.

Lemma has_name_with_comment (c v : pyval) :
  has_name (with_comment c v) = has_name c.
Proof.
  destruct c; try reflexivity.
  unfold has_name, field. cbn [with_comment]. now rewrite dict_lookup_set.
Qed.

Lemma with_comment_twice (c v w : pyval) :
  with_comment (with_comment c v) w = with_comment c w.
Proof.
  destruct c; try reflexivity. cbn [with_comment]. now rewrite dict_set_twice.
Qed.

Lemma is_column_has_name (c : pyval) : is_column c = true -> has_name c = true.
Proof.
  intros H. destruct (is_column_inv c H) as (fields & n & -> & Hn & _).
  unfold has_name, field. now rewrite Hn.
Qed.

Lemma has_name_inv (c : pyval) :
  has_name c = true ->
  exists fields,
    c = VDict fields /\
    py_getitem c (VStr "Name") = Ret (VStr (col_name c)).
Proof.
  destruct c as [| | | | | | fields |]; try discriminate.
  unfold has_name, col_name, field. py_step.
  destruct (dict_lookup (VStr "Name") fields) as [[| | | n | | | |] |];
    try discriminate.
  intros _. now exists fields.
Qed.

(** The loop at lines 198-200 on columns that all have a name. *)
Lemma set_comments_ok (name : string) (v : pyval) (cols : list pyval) :
  forallb has_name cols = true ->
  set_comments (VStr name) v cols = (map (assign name v) cols, Ret tt).
Proof.
  induction cols as [| c cols IH]; intros Hwf; cbn [set_comments map].
  - reflexivity.
  - apply forallb_cons_inv in Hwf as [Hc Hwf].
    rewrite (IH Hwf).
    destruct (has_name_inv c Hc) as (fields & Hfields & ->).
    rewrite py_eqb_str. unfold assign.
    destruct (String.eqb (col_name c) name); [| reflexivity].
    subst c. reflexivity.
Qed.

Lemma forallb_map_assign (name : string) (v : pyval) (cols : list pyval) :
  forallb has_name (map (assign name v) cols) = forallb has_name cols.
Proof.
  induction cols as [| c cols IH]; cbn [map forallb]; [reflexivity |].
  rewrite IH. f_equal. unfold assign.
  destruct (String.eqb (col_name c) name); [| reflexivity].
  apply has_name_with_comment.
Qed.

(** Lines 193-200 when the override file holds an object: one pass of
    assignments per missing name, and no exception. *)
Lemma apply_new_values_ok (overrides : pydict) (names : list pyval) :
  forall metadata cols,
    table_columns metadata = Some cols ->
    forallb has_name cols = true ->
    apply_new_values (VDict overrides) (built (fun _ => VStr "") names) metadata
    = (with_columns metadata
         (fold_left (fun cs u => map (assign (col_name u)
                                             (override_for overrides u)) cs)
                    names cols),
       Ret tt).
Proof.
  induction names as [| u names IH]; intros metadata cols Hcols Hwf;
    cbn [built map apply_new_values fold_left].
  - now rewrite with_columns_same.
  - cbn [py_contains hashable rbind].
    assert (Hov :
      (if match dict_lookup (VStr (col_name u)) overrides with
          | Some _ => true
          | None => false
          end
       then py_getitem (VDict overrides) (VStr (col_name u))
       else Ret (VStr ""))
      = Ret (override_for overrides u)).
    { unfold override_for, override_at. py_step.
      now destruct (dict_lookup (VStr (col_name u)) overrides). }
    rewrite Hov. cbn [rbind].
    rewrite (columns_of_table _ _ Hcols). cbn [rbind py_iter].
    rewrite set_comments_ok by assumption.
    fold (built (fun _ : pyval => VStr "") names).
    rewrite (IH _ (map (assign (col_name u) (override_for overrides u)) cols)).
    + now rewrite (with_columns_twice _ cols).
    + now apply (table_columns_with _ cols).
    + now rewrite forallb_map_assign.
Qed.

Lemma col_name_merge_named (overrides : pydict) (names : list string)
    (c : pyval) :
  col_name (merge_named overrides names c) = col_name c.
Proof.
  unfold merge_named.
  destruct (existsb _ names); [apply col_name_with_comment | reflexivity].
Qed.

Lemma assign_merge_named (overrides : pydict) (names : list string)
    (u c : pyval) :
  assign (col_name u) (override_for overrides u) (merge_named overrides names c)
  = merge_named overrides (col_name u :: names) c.
Proof.
  unfold assign. rewrite col_name_merge_named.
  unfold merge_named. cbn [existsb].
  destruct (String.eqb (col_name c) (col_name u)) eqn:Hn; cbn [orb].
  - apply String.eqb_eq in Hn.
    assert (Hov : override_for overrides u = override_for overrides c)
      by (unfold override_for; now rewrite Hn).
    rewrite Hov.
    destruct (existsb _ names); [apply with_comment_twice | reflexivity].
  - reflexivity.
Qed.

Lemma fold_assign (overrides : pydict) (us cols : list pyval) :
  forall names,
    fold_left (fun cs u => map (assign (col_name u)
                                       (override_for overrides u)) cs)
              us (map (merge_named overrides names) cols)
    = map (merge_named overrides (rev (map col_name us) ++ names)) cols.
Proof.
  induction us as [| u us IH]; intros names; cbn [fold_left map rev app].
  - reflexivity.
  - rewrite map_map.
    rewrite (map_ext _ _ (assign_merge_named overrides names u)).
    rewrite IH. now rewrite <- app_assoc.
Qed.

Lemma same_name_same_column (cols : list pyval) (c u : pyval) :
  NoDup (map col_name cols) -> In c cols -> In u cols ->
  col_name c = col_name u -> c = u.
Proof.
  induction cols as [| c0 cols IH]; cbn [map In]; intros Hnd Hc Hu Hn.
  - contradiction.
  - inversion Hnd as [| ? ? Hfresh Hnd']; subst.
    destruct Hc as [-> | Hc], Hu as [-> | Hu].
    + reflexivity.
    + exfalso. apply Hfresh. rewrite Hn. now apply in_map.
    + exfalso. apply Hfresh. rewrite <- Hn. now apply in_map.
    + now apply IH.
Qed.

(** With names that are all different, assigning under the names of the
    undocumented columns is the merge of the specification. *)
Lemma merge_named_undocumented (overrides : pydict) (cols : list pyval) :
  NoDup (map col_name cols) ->
  map (merge_named overrides
         (rev (map col_name (filter undocumented cols)) ++ [])) cols
  = map (merge_column overrides) cols.
Proof.
  intros Hnd. apply map_ext_in. intros c Hc.
  unfold merge_named, merge_column. rewrite app_nil_r.
  assert (Hex : existsb (String.eqb (col_name c))
                        (rev (map col_name (filter undocumented cols)))
                = undocumented c).
  { destruct (undocumented c) eqn:Hu.
    - apply existsb_exists. exists (col_name c). split.
      + rewrite <- in_rev. apply in_map. apply filter_In. now split.
      + apply String.eqb_refl.
    - destruct (existsb _ _) eqn:Hex; [| reflexivity].
      apply existsb_exists in Hex as (n & Hn & Heq).
      apply String.eqb_eq in Heq. subst n.
      rewrite <- in_rev in Hn. apply in_map_iff in Hn as (u & Hname & Hin).
      apply filter_In in Hin as [Hin Hund].
      rewrite (same_name_same_column cols c u Hnd Hc Hin (eq_sym Hname)) in Hu.
      congruence. }
  now rewrite Hex.
Qed.

Lemma map_merge_named_nil (overrides : pydict) (cols : list pyval) :
  map (merge_named overrides []) cols = cols.
Proof. unfold merge_named. cbn [existsb]. apply map_id. Qed.

(** Lines 179-183 on a document of the data model. *)
Lemma scan_missing_columns_ok (metadata : pyval) (cols : list pyval) :
  table_columns metadata = Some cols ->
  forallb is_column cols = true ->
  NoDup (map col_name cols) ->
  scan_missing_columns metadata
  = Ret (built (fun _ => VStr "") (filter undocumented cols)).
Proof.
  intros Hcols Hwf Hnd. unfold scan_missing_columns.
  rewrite (columns_of_table _ _ Hcols). cbn [rbind py_iter].
  rewrite (for_each_fold scan_column
             (fun d c => if undocumented c
                         then dict_set (VStr (col_name c)) (VStr "") d
                         else d)).
  - now rewrite (fold_set_fresh (fun _ => VStr "")) by (assumption || reflexivity).
  - intros acc c Hc. apply scan_column_ok.
    rewrite forallb_forall in Hwf. now apply Hwf.
Qed.

Lemma forallb_is_column_has_name (cols : list pyval) :
  forallb is_column cols = true -> forallb has_name cols = true.
Proof.
  rewrite !forallb_forall. intros H c Hc. apply is_column_has_name. now apply H.
Qed.

(** The document merge leaves behind, when the override file can be read
    and holds an object. *)
Lemma merge_final_document (E : env) (glue_client : client)
    (database_name table_name : string) (metadata : pyval)
    (cols : list pyval) (overrides : pydict) :
  table_columns metadata = Some cols ->
  forallb is_column cols = true ->
  NoDup (map col_name cols) ->
  fs_open E "new_values.json" "r" = None ->
  fs_load E "new_values.json" = Ret (VDict overrides) ->
  fst (add_update_missing_values E glue_client database_name table_name metadata)
  = with_columns metadata (map (merge_column overrides) cols).
Proof.
  intros Hcols Hwf Hnd Hopen Hload. unfold add_update_missing_values.
  rewrite (scan_missing_columns_ok _ _ Hcols Hwf Hnd).
  pose proof (merge_named_undocumented overrides cols Hnd) as Hmerge.
  pose proof (apply_new_values_ok overrides (filter undocumented cols)
                metadata cols Hcols (forallb_is_column_has_name _ Hwf)) as Happly.
  pose proof (fold_assign overrides (filter undocumented cols) cols []) as Hfold.
  rewrite map_merge_named_nil, Hmerge in Hfold. rewrite Hfold in Happly.
  destruct (filter undocumented cols) as [| u us] eqn:Hund.
  - cbn [built map fst]. cbn [rev map app] in Hmerge.
    rewrite map_merge_named_nil in Hmerge. rewrite <- Hmerge.
    now rewrite with_columns_same.
  - cbn [built map] in *. rewrite Hopen, Hload. m_step.
    rewrite Happly. reflexivity.
Qed.

Lemma field_with_comment (c v : pyval) :
  has_name c = true -> field (with_comment c v) "Comment" = Some v.
Proof.
  intros H. destruct (has_name_inv c H) as (fields & -> & _).
  cbn [with_comment field]. now rewrite dict_lookup_set, py_eqb_str_refl.
Qed.

Lemma col_name_merge_column (overrides : pydict) (c : pyval) :
  col_name (merge_column overrides c) = col_name c.
Proof.
  unfold merge_column.
  destruct (undocumented c); [apply col_name_with_comment | reflexivity].
Qed.

Lemma merge_column_twice (overrides : pydict) (c : pyval) :
  merge_column overrides (merge_column overrides c) = merge_column overrides c.
Proof.
  unfold merge_column. destruct (undocumented c) eqn:Hu.
  - unfold override_for. rewrite col_name_with_comment.
    destruct (undocumented (with_comment c _));
      [apply with_comment_twice | reflexivity].
  - now rewrite Hu.
Qed.

Lemma string_valued_lookup (overrides : pydict) (k v : pyval) :
  string_valued overrides = true ->
  dict_lookup k overrides = Some v -> exists s, v = VStr s.
Proof.
  unfold string_valued.
  induction overrides as [| [k' v'] ov IH]; cbn [forallb dict_lookup snd];
    intros Hs Hl.
  - discriminate.
  - apply andb_true_iff in Hs as [Hv Hs].
    destruct (py_eqb k' k).
    + inversion Hl; subst. destruct v; try discriminate. now eexists.
    + now apply IH.
Qed.

Lemma is_column_merge_column (overrides : pydict) (c : pyval) :
  string_valued overrides = true ->
  is_column c = true -> is_column (merge_column overrides c) = true.
Proof.
  intros Hs Hc. unfold merge_column.
  destruct (undocumented c); [| assumption].
  assert (Hv : exists s, override_for overrides c = VStr s).
  { unfold override_for, override_at.
    destruct (dict_lookup (VStr (col_name c)) overrides) as [v |] eqn:Hl.
    - now apply (string_valued_lookup overrides (VStr (col_name c))).
    - now exists "". }
  destruct Hv as [s ->].
  destruct (is_column_inv c Hc) as (fields & n & -> & Hn & _).
  cbn [with_comment is_column field].
  rewrite !dict_lookup_set, py_eqb_str_refl.
  change (py_eqb (VStr "Comment") (VStr "Name")) with false.
  cbv iota. now rewrite Hn.
Qed.

(** C2. Merge sets the comment of every undocumented column to the value
    the override mapping holds under the column's name, or to the empty
    string when it holds none, and leaves every documented column as it
    was. The document is one of the data model, and the override file is
    readable and holds an object; the catalog update may succeed or fail. *)
Theorem merge_fills_undocumented_columns (E : env) (glue_client : client)
    (database_name table_name : string) (metadata : pyval)
    (cols : list pyval) (overrides : pydict) :
  table_columns metadata = Some cols ->
  forallb is_column cols = true ->
  NoDup (map col_name cols) ->
  fs_open E "new_values.json" "r" = None ->
  fs_load E "new_values.json" = Ret (VDict overrides) ->
  table_columns
    (fst (add_update_missing_values E glue_client database_name table_name
                                    metadata))
  = Some (map (merge_column overrides) cols) /\
  forall c, In c cols ->
    col_name (merge_column overrides c) = col_name c /\
    (undocumented c = false -> merge_column overrides c = c) /\
    (undocumented c = true ->
     forall v, dict_lookup (VStr (col_name c)) overrides = Some v ->
               field (merge_column overrides c) "Comment" = Some v) /\
    (undocumented c = true ->
     dict_lookup (VStr (col_name c)) overrides = None ->
     field (merge_column overrides c) "Comment" = Some (VStr "")).
Proof.
  intros Hcols Hwf Hnd Hopen Hload. split.
  - rewrite (merge_final_document E glue_client database_name table_name
               metadata cols overrides) by assumption.
    now apply (table_columns_with _ cols).
  - intros c Hc.
    assert (Hname : has_name c = true).
    { apply is_column_has_name. rewrite forallb_forall in Hwf. now apply Hwf. }
    split; [apply col_name_merge_column |].
    unfold merge_column, override_for, override_at. repeat split.
    + now intros ->.
    + intros -> v ->. now apply field_with_comment.
    + intros -> ->. now apply field_with_comment.
Qed.

Lemma merge_fills_undocumented_columns_witness :
  table_columns orders_table = Some orders_columns /\
  forallb is_column orders_columns = true /\
  NoDup (map col_name orders_columns) /\
  fs_open (friendly_world orders_table sample_overrides) "new_values.json" "r"
  = None /\
  fs_load (friendly_world orders_table sample_overrides) "new_values.json"
  = Ret (VDict sample_overrides) /\
  table_columns
    (fst (add_update_missing_values
            (friendly_world orders_table sample_overrides) GlueClient
            "sales" "orders" orders_table))
  = Some [sample_column "id" (Some "primary key");
          sample_column "ts" (Some "event timestamp");
          sample_column "note" (Some "")].
Proof.
  assert (Hnd : NoDup (map col_name orders_columns)) by distinct_names.
  repeat (split; [first [reflexivity | exact Hnd] |]).
  exact (proj1 (merge_fills_undocumented_columns
                  (friendly_world orders_table sample_overrides) GlueClient
                  "sales" "orders" orders_table orders_columns sample_overrides
                  eq_refl eq_refl Hnd eq_refl eq_refl)).
Defined.

(** C8. Merge is idempotent on the document: after one merge, a second
    merge with the same override mapping leaves the document, and so every
    column comment, as the first one left it. The document is one of the
    data model and the override file maps names to strings. *)
Theorem merge_twice_is_merge_once (E1 E2 : env) (glue_client : client)
    (database_name table_name : string) (metadata : pyval)
    (cols : list pyval) (overrides : pydict) :
  table_columns metadata = Some cols ->
  forallb is_column cols = true ->
  NoDup (map col_name cols) ->
  string_valued overrides = true ->
  fs_open E1 "new_values.json" "r" = None ->
  fs_load E1 "new_values.json" = Ret (VDict overrides) ->
  fs_open E2 "new_values.json" "r" = None ->
  fs_load E2 "new_values.json" = Ret (VDict overrides) ->
  let once :=
    fst (add_update_missing_values E1 glue_client database_name table_name
                                   metadata) in
  fst (add_update_missing_values E2 glue_client database_name table_name once)
  = once.
Proof.
  intros Hcols Hwf Hnd Hs Ho1 Hl1 Ho2 Hl2 once. subst once.
  rewrite (merge_final_document E1 glue_client database_name table_name
             metadata cols overrides) by assumption.
  set (cols1 := map (merge_column overrides) cols).
  assert (Hcols1 : table_columns (with_columns metadata cols1) = Some cols1)
    by now apply (table_columns_with _ cols).
  assert (Hwf1 : forallb is_column cols1 = true).
  { subst cols1. rewrite forallb_forall in *. intros c' Hc'.
    apply in_map_iff in Hc' as (c & <- & Hc).
    apply is_column_merge_column; [assumption | now apply Hwf]. }
  assert (Hnd1 : NoDup (map col_name cols1)).
  { subst cols1. rewrite map_map.
    now rewrite (map_ext _ _ (col_name_merge_column overrides)). }
  rewrite (merge_final_document E2 glue_client database_name table_name
             _ cols1 overrides) by assumption.
  assert (Hfix : map (merge_column overrides) cols1 = cols1).
  { subst cols1. rewrite map_map. apply map_ext. intros c.
    apply merge_column_twice. }
  rewrite Hfix. now apply with_columns_same.
Qed.

Lemma merge_twice_is_merge_once_witness :
  table_columns orders_table = Some orders_columns /\
  forallb is_column orders_columns = true /\
  NoDup (map col_name orders_columns) /\
  string_valued sample_overrides = true /\
  fs_open (friendly_world orders_table sample_overrides) "new_values.json" "r"
  = None /\
  fs_load (friendly_world orders_table sample_overrides) "new_values.json"
  = Ret (VDict sample_overrides) /\
  fst (add_update_missing_values
         (friendly_world orders_table sample_overrides) GlueClient
         "sales" "orders"
         (fst (add_update_missing_values
                 (friendly_world orders_table sample_overrides) GlueClient
                 "sales" "orders" orders_table)))
  = fst (add_update_missing_values
           (friendly_world orders_table sample_overrides) GlueClient
           "sales" "orders" orders_table).
Proof.
  assert (Hnd : NoDup (map col_name orders_columns)) by distinct_names.
  repeat (split; [first [reflexivity | exact Hnd] |]).
  exact (merge_twice_is_merge_once
           (friendly_world orders_table sample_overrides)
           (friendly_world orders_table sample_overrides) GlueClient
           "sales" "orders" orders_table orders_columns sample_overrides
           eq_refl eq_refl Hnd eq_refl eq_refl eq_refl eq_refl eq_refl).
Defined.

Lemma scan_documented (cols : list pyval) :
  forallb documented cols = true ->
  forall acc, for_each scan_column cols acc = Ret acc.
Proof.
  induction cols as [| c cols IH]; intros Hdoc acc; cbn [for_each].
  - reflexivity.
  - apply forallb_cons_inv in Hdoc as [Hc Hdoc].
    assert (Hscan : scan_column acc c = Ret acc).
    { destruct c as [| | | | | | fields |]; try discriminate.
      unfold documented, field in Hc. unfold scan_column. py_step.
      destruct (dict_lookup (VStr "Comment") fields)
        as [[| | | s | | | |] |]; try discriminate.
      py_step. now destruct (String.eqb (strip s) ""). }
    rewrite Hscan. cbn [rbind]. now apply IH.
Qed.

(** C3, as the code has it. When every column carries a comment that is
    not blank, merge leaves the document as it is and returns the empty
    dictionary, not the document; it prints one line, does not open the
    override file and does not call [update_table]. *)
Theorem merge_without_undocumented_columns (E : env) (glue_client : client)
    (database_name table_name : string) (metadata : pyval)
    (cols : list pyval) :
  table_columns metadata = Some cols ->
  forallb documented cols = true ->
  add_update_missing_values E glue_client database_name table_name metadata
  = (metadata,
     ([EvPrint "***** No missing columns with empty 'Comment' found. *****"],
      Ret (VDict []))).
Proof.
  intros Hcols Hdoc. unfold add_update_missing_values, scan_missing_columns.
  rewrite (columns_of_table _ _ Hcols). cbn [rbind py_iter].
  now rewrite scan_documented.
Qed.

Lemma merge_without_undocumented_columns_witness :
  table_columns documented_table = Some documented_columns /\
  forallb documented documented_columns = true /\
  add_update_missing_values world_without_table GlueClient "sales" "orders"
                            documented_table
  = (documented_table,
     ([EvPrint "***** No missing columns with empty 'Comment' found. *****"],
      Ret (VDict []))).
Proof.
  split; [reflexivity | split; [reflexivity |]].
  exact (merge_without_undocumented_columns world_without_table GlueClient
           "sales" "orders" documented_table documented_columns
           eq_refl eq_refl).
Defined.

(** C3, as the specification has it, fails: on a table whose two columns
    are documented, merge does not return the document it was given. *)
Lemma merge_does_not_return_its_input :
  table_columns documented_table = Some documented_columns /\
  forallb documented documented_columns = true /\
  outcome (snd (add_update_missing_values
                  (friendly_world documented_table sample_overrides)
                  GlueClient "sales" "orders" documented_table))
  <> Ret documented_table.
Proof.
  split; [reflexivity | split; [reflexivity |]].
  cbn. discriminate.
Qed.

(** C9. Every request merge submits to [update_table] goes to the database
    of the call and carries a [TableInput] with the two keys [Name] and
    [StorageDescriptor], the latter with the one key [Columns]: the table
    name and the whole column list of the merged document, and nothing
    else. *)
Theorem update_request_is_columns_only (E : env) (glue_client : client)
    (database_name table_name : string) (metadata : pyval)
    (database : string) (table_input : pyval) :
  let run :=
    add_update_missing_values E glue_client database_name table_name metadata in
  In (EvUpdateTable database table_input) (trace (snd run)) ->
  database = database_name /\
  exists columns,
    columns_of (fst run) = Ret columns /\
    table_input
    = VDict [(VStr "Name", VStr table_name);
             (VStr "StorageDescriptor", VDict [(VStr "Columns", columns)])].
Proof.
  intros run. subst run. unfold add_update_missing_values.
  destruct (scan_missing_columns metadata) as [[| m ms] | e];
    cbn [fst snd]; m_step.
  - intros [H | []]. discriminate.
  - destruct (fs_open E "new_values.json" "r") as [e |]; m_step.
    { intros [H | []]. discriminate. }
    destruct (fs_load E "new_values.json") as [new_values | e]; m_step.
    2:{ intros [H | [H | []]]; discriminate. }
    destruct (apply_new_values new_values (m :: ms) metadata) as [metadata' r].
    cbn [fst snd].
    destruct r as [[] | e]; m_step.
    2:{ intros [H | [H | []]]; discriminate. }
    destruct (columns_of metadata') as [columns | e]; m_step.
    2:{ intros [H | [H | []]]; discriminate. }
    destruct (glue_update_table E database_name (table_input_of table_name columns));
      m_step; cbn [In];
      (intros [H | [H | [H | H]]]; try discriminate;
       [ inversion H; subst; split; [reflexivity |];
         now exists columns
       | try (destruct H as [H | []]; discriminate); try contradiction ]).
  - intros [].
Qed.

Lemma update_request_is_columns_only_witness :
  In (EvUpdateTable "sales"
        (VDict [(VStr "Name", VStr "orders");
                (VStr "StorageDescriptor",
                 VDict [(VStr "Columns",
                         VList [sample_column "id" (Some "primary key");
                                sample_column "ts" (Some "event timestamp");
                                sample_column "note" (Some "")])])]))
     (trace (snd (add_update_missing_values
                    (friendly_world orders_table sample_overrides) GlueClient
                    "sales" "orders" orders_table))) /\
  columns_of (fst (add_update_missing_values
                     (friendly_world orders_table sample_overrides) GlueClient
                     "sales" "orders" orders_table))
  = Ret (VList [sample_column "id" (Some "primary key");
                sample_column "ts" (Some "event timestamp");
                sample_column "note" (Some "")]).
Proof.
  assert (Hin :
    In (EvUpdateTable "sales"
          (VDict [(VStr "Name", VStr "orders");
                  (VStr "StorageDescriptor",
                   VDict [(VStr "Columns",
                           VList [sample_column "id" (Some "primary key");
                                  sample_column "ts" (Some "event timestamp");
                                  sample_column "note" (Some "")])])]))
       (trace (snd (add_update_missing_values
                      (friendly_world orders_table sample_overrides) GlueClient
                      "sales" "orders" orders_table)))).
  { cbn. tauto. }
  split; [exact Hin |].
  destruct (update_request_is_columns_only _ _ _ _ _ _ _ Hin)
    as (_ & columns & Hcolumns & Hinput).
  inversion Hinput; subst columns. exact Hcolumns.
Defined.

(** ** Documents without a column list *)

Lemma scan_needs_columns (metadata : pyval) :
  has_columns metadata = false ->
  exists e, scan_missing_columns metadata = Raise e.
Proof.
  unfold scan_missing_columns, columns_of, has_columns, field.
  destruct metadata as [| | | | | | top |]; py_step;
    try (intros _; eexists; reflexivity).
  destruct (dict_lookup (VStr "StorageDescriptor") top)
    as [[| | | | | | descriptor |] |]; py_step;
    try (intros _; eexists; reflexivity).
  destruct (dict_lookup (VStr "Columns") descriptor)
    as [[| | | | | | |] |]; cbn [iterable py_iter rbind];
    try discriminate; intros _; eexists; reflexivity.
Qed.

Lemma merge_of_none (E : env) (glue_client : client)
    (database_name table_name : string) :
  add_update_missing_values E glue_client database_name table_name VNone
  = (VNone, ([], Raise (Exn TypeError "'NoneType' object is not subscriptable"))).
Proof. reflexivity. Qed.

(** C10. Merge needs a document that holds a dictionary under
    [StorageDescriptor] with something a loop can walk under [Columns]. On
    any other input, and so on the [None] that a failed fetch returns, it
    raises at line 180: the document is untouched, the override file is not
    opened and [update_table] is not called. In [main], a fetch that fails
    is followed by no read of the override file and no update request. *)
Theorem merge_needs_a_column_list :
  (forall (E : env) (glue_client : client) (database_name table_name : string)
          (metadata : pyval),
      has_columns metadata = false ->
      exists e,
        add_update_missing_values E glue_client database_name table_name
                                  metadata
        = (metadata, ([], Raise e))) /\
  (forall (E : env) (glue_client : client) (database_name table_name : string),
      add_update_missing_values E glue_client database_name table_name VNone
      = (VNone,
         ([], Raise (Exn TypeError "'NoneType' object is not subscriptable")))) /\
  (forall (E : env) (cfg : config) (e : exn),
      glue_get_table E (DATABASE_NAME cfg) (TABLE_NAME cfg) (CATALOG_ID cfg)
      = Raise e ->
      (forall database table_input,
          ~ In (EvUpdateTable database table_input) (trace (main E cfg))) /\
      ~ In (EvOpen "new_values.json" "r") (trace (main E cfg))).
Proof.
  split; [| split].
  - intros E glue_client database_name table_name metadata Hshape.
    destruct (scan_needs_columns metadata Hshape) as [e He].
    exists e. unfold add_update_missing_values. now rewrite He.
  - apply merge_of_none.
  - intros E cfg e Hfetch.
    unfold main, get_table_metadata, login_to_aws_s3, login_to_aws_glue,
      get_aws_token.
    destruct (aws_client E "s3"); m_step;
      [split; [intros ? ? |]; cbn [In]; intuition discriminate |].
    destruct (aws_client E "glue"); m_step;
      [split; [intros ? ? |]; cbn [In]; intuition discriminate |].
    rewrite Hfetch. m_step.
    destruct (exn_cls e); m_step; rewrite merge_of_none; m_step;
      (split; [intros ? ? |]; cbn [In]; intuition discriminate).
Qed.

Lemma merge_needs_a_column_list_witness :
  has_columns (VDict [(VStr "Name", VStr "orders")]) = false /\
  glue_get_table world_without_table (DATABASE_NAME sample_config)
                 (TABLE_NAME sample_config) (CATALOG_ID sample_config)
  = Raise (Exn EntityNotFoundException "Table orders not found.") /\
  (exists e,
      add_update_missing_values world_without_table GlueClient "sales" "orders"
                                (VDict [(VStr "Name", VStr "orders")])
      = (VDict [(VStr "Name", VStr "orders")], ([], Raise e))) /\
  ~ In (EvOpen "new_values.json" "r") (trace (main world_without_table sample_config)).
Proof.
  destruct merge_needs_a_column_list as (Hshape & _ & Hmain).
  split; [reflexivity | split; [reflexivity | split]].
  - apply Hshape. reflexivity.
  - apply (Hmain world_without_table sample_config
                 (Exn EntityNotFoundException "Table orders not found.")).
    reflexivity.
Defined.

(** ** The fetch *)

(** C4. With a Glue client in hand, the fetch returns [None] when
    [get_table] raises, be it [EntityNotFoundException] or anything else;
    and it enters the snapshot writer, for the file "default_metadata.json",
    if and only if [get_table] answered with a response that holds a
    metadata document under ["Table"]. In that case it returns the
    document, whatever became of the snapshot. *)
Theorem fetch_snapshots_after_success_only (E : env) (cfg : config)
    (database_name table_name : string) :
  aws_client E "glue" = None ->
  let run := get_table_metadata E cfg database_name table_name in
  let answer :=
    glue_get_table E (DATABASE_NAME cfg) (TABLE_NAME cfg) (CATALOG_ID cfg) in
  (forall e, answer = Raise e ->
             outcome run = Ret VNone /\
             forall file, ~ In (EvSnapshot file) (trace run)) /\
  ((exists file, In (EvSnapshot file) (trace run)) <->
   (exists response items,
       answer = Ret response /\
       py_getitem response (VStr "Table") = Ret (VDict items))) /\
  (forall file, In (EvSnapshot file) (trace run) ->
                file = "default_metadata.json") /\
  (forall response items,
      answer = Ret response ->
      py_getitem response (VStr "Table") = Ret (VDict items) ->
      outcome run = Ret (VDict items) /\
      In (EvSnapshot "default_metadata.json") (trace run)).
Proof.
  intros Hlogin run answer. subst run answer.
  unfold get_table_metadata, login_to_aws_glue, get_aws_token.
  rewrite Hlogin. m_step.
  destruct (glue_get_table E (DATABASE_NAME cfg) (TABLE_NAME cfg)
                           (CATALOG_ID cfg)) as [response | e0] eqn:Hanswer;
    m_step.
  - destruct (py_getitem response (VStr "Table")) as [metadata | e1] eqn:Htable;
      m_step.
    + destruct metadata as [| | | | | | items |]; cbn [py_items]; m_step;
        cbn [exn_cls no_attribute]; m_step.
      7:{ destruct (writer_runs E (VDict items) (VList (null_fields items))
                      "default_metadata.json")
            as [(t & d & _ & _ & ->) | [(e & ->) | (e & ->)]];
            m_step; unfold writing_warning;
            (split; [intros ? H; discriminate H |]);
            (split; [split; [intros _; now exists response, items
                            | intros _; exists "default_metadata.json";
                              cbn [In]; tauto] |]);
            (split; [intros file; cbn [In]; intros H;
                     decompose [or] H; try discriminate; try contradiction;
                     match goal with
                     | Hs : EvSnapshot _ = EvSnapshot _ |- _ =>
                         now inversion Hs
                     end |]);
            intros r i Hr Hi; inversion Hr; subst r;
            rewrite Htable in Hi; inversion Hi; subst i;
            (split; [reflexivity | cbn [In]; tauto]). }
      all: (split; [intros ? H; discriminate H |]);
        (split; [split; [intros (file & H); cbn [In] in H;
                         decompose [or] H; try discriminate; contradiction
                        | intros (r & i & Hr & Hi); inversion Hr; subst r;
                          rewrite Htable in Hi; discriminate Hi] |]);
        (split; [intros file; cbn [In]; intros H;
                 decompose [or] H; try discriminate; contradiction |]);
        intros r i Hr Hi; inversion Hr; subst r;
        rewrite Htable in Hi; discriminate Hi.
    + destruct (exn_cls e1); m_step;
        (split; [intros ? H; discriminate H |]);
        (split; [split; [intros (file & H); cbn [In] in H;
                         decompose [or] H; try discriminate; contradiction
                        | intros (r & i & Hr & Hi); inversion Hr; subst r;
                          rewrite Htable in Hi; discriminate Hi] |]);
        (split; [intros file; cbn [In]; intros H;
                 decompose [or] H; try discriminate; contradiction |]);
        intros r i Hr Hi; inversion Hr; subst r;
        rewrite Htable in Hi; discriminate Hi.
  - destruct (exn_cls e0); m_step;
      (split; [intros ? _; split; [reflexivity |];
               intros file; cbn [In]; intros H;
               decompose [or] H; try discriminate; contradiction |]);
      (split; [split; [intros (file & H); cbn [In] in H;
                       decompose [or] H; try discriminate; contradiction
                      | intros (r & i & Hr & _); discriminate Hr] |]);
      (split; [intros file; cbn [In]; intros H;
               decompose [or] H; try discriminate; contradiction |]);
      intros r i Hr _; discriminate Hr.
Qed.

Lemma fetch_snapshots_after_success_only_witness :
  aws_client world_without_table "glue" = None /\
  glue_get_table world_without_table (DATABASE_NAME sample_config)
                 (TABLE_NAME sample_config) (CATALOG_ID sample_config)
  = Raise (Exn EntityNotFoundException "Table orders not found.") /\
  outcome (get_table_metadata world_without_table sample_config "" "")
  = Ret VNone /\
  ~ In (EvSnapshot "default_metadata.json")
       (trace (get_table_metadata world_without_table sample_config "" "")).
Proof.
  split; [reflexivity | split; [reflexivity |]].
  destruct (fetch_snapshots_after_success_only world_without_table
              sample_config "" "" eq_refl) as (Hfail & _).
  destruct (Hfail (Exn EntityNotFoundException "Table orders not found.")
                  eq_refl) as [Hnone Hquiet].
  split; [exact Hnone | apply Hquiet].
Defined.

(** ** Decimal digits *)

Lemma string_of_uint_app (u v : Decimal.uint) :
  NilEmpty.string_of_uint (Decimal.app u v)
  = NilEmpty.string_of_uint u ++ NilEmpty.string_of_uint v.
Proof.
  rewrite <- (DecimalFacts.of_list_to_list (Decimal.app u v)).
  rewrite DecimalFacts.app_spec.
  rewrite <- (DecimalFacts.of_list_to_list u) at 2.
  induction (DecimalFacts.to_list u) as [| h t IH];
    cbn [List.app DecimalFacts.of_list].
  - now rewrite DecimalFacts.of_list_to_list.
  - destruct h;
      cbn [DecimalFacts.of_list NilEmpty.string_of_uint String.append];
      now rewrite IH.
Qed.

(** A number printed without leading zeros keeps its digits when one more
    is written after them. *)
Lemma unorm_app_digit (u v : Decimal.uint) :
  Decimal.unorm u = u -> u <> Decimal.zero ->
  Decimal.unorm (Decimal.app u v) = Decimal.app u v.
Proof.
  intros Hu Hz.
  assert (Hhead : Decimal.nzhead u <> Decimal.Nil).
  { intros H. apply Hz. rewrite <- Hu. now apply DecimalFacts.unorm_0. }
  assert (Hnz : Decimal.nzhead u = u)
    by now rewrite <- (DecimalFacts.unorm_nzhead u Hhead).
  assert (Happ : Decimal.nzhead (Decimal.app u v) = Decimal.app u v).
  { apply DecimalFacts.to_list_inj.
    rewrite DecimalFacts.nzhead_spec, DecimalFacts.app_spec.
    apply (f_equal DecimalFacts.to_list) in Hnz.
    rewrite DecimalFacts.nzhead_spec in Hnz.
    destruct (DecimalFacts.to_list u) as [| h t] eqn:Hl.
    - exfalso. apply Hhead. apply DecimalFacts.to_list_inj.
      now rewrite DecimalFacts.nzhead_spec, Hl.
    - destruct h; try reflexivity.
      exfalso.
      now apply (DecimalFacts.lnzhead_neq_d0_head (DecimalFacts.d0 :: t) t). }
  rewrite DecimalFacts.unorm_nzhead; rewrite Happ; [reflexivity |].
  intros H. apply Hhead. rewrite Hnz.
  apply (f_equal DecimalFacts.to_list) in H.
  rewrite DecimalFacts.app_spec in H. cbn [DecimalFacts.to_list] in H.
  apply List.app_eq_nil in H as [H _].
  apply DecimalFacts.to_list_inj. exact H.
Qed.

Lemma rev_app_digit (u v : Decimal.uint) :
  Decimal.rev (Decimal.app u v)
  = Decimal.app (Decimal.rev v) (Decimal.rev u).
Proof.
  apply DecimalFacts.to_list_inj.
  rewrite DecimalFacts.rev_spec, !DecimalFacts.app_spec.
  now rewrite !DecimalFacts.rev_spec, List.rev_app_distr.
Qed.

(** A statement about a decimal digit is checked on the ten of them. *)
Lemma each_digit_N (P : N -> Prop) :
  (forall k, (k < 10)%nat -> P (N.of_nat k)) ->
  forall r, (r < 10)%N -> P r.
Proof.
  intros H r Hr. rewrite <- (Nnat.N2Nat.id r). apply H. lia.
Qed.

Lemma each_digit_Z (P : Z -> Prop) :
  (forall k, (k < 10)%nat -> P (Z.of_nat k)) ->
  forall n, 0 <= n < 10 -> P n.
Proof.
  intros H n Hn. rewrite <- (Z2Nat.id n) by lia. apply H. lia.
Qed.

Ltac ten_cases k tac :=
  do 10 (destruct k as [| k]; [tac |]); exfalso; lia.

Lemma to_uint_step (p : positive) (r : N) :
  (r < 10)%N ->
  N.to_uint (r + 10 * N.pos p)
  = Decimal.app (Pos.to_uint p) (N.to_uint r).
Proof.
  intros Hr.
  set (d := Decimal.app (Pos.to_uint p) (N.to_uint r)).
  assert (Hval : Pos.of_uint d = (r + 10 * N.pos p)%N).
  { subst d. rewrite DecimalPos.Unsigned.of_uint_alt, rev_app_digit.
    assert (Hp : DecimalPos.Unsigned.of_lu (Decimal.rev (Pos.to_uint p))
                 = N.pos p)
      by now rewrite <- DecimalPos.Unsigned.of_uint_alt,
           DecimalPos.Unsigned.of_to.
    revert r Hr. apply each_digit_N. intros k Hk.
    ten_cases k
      ltac:(match goal with
            | |- context [N.to_uint ?r] =>
                let t := eval vm_compute in (N.to_uint r) in
                change (N.to_uint r) with t
            end;
            cbn [Decimal.rev Decimal.revapp Decimal.app];
            cbn [DecimalPos.Unsigned.of_lu]; rewrite Hp; reflexivity). }
  rewrite <- Hval, DecimalPos.Unsigned.to_of. subst d.
  apply unorm_app_digit.
  - rewrite <- (DecimalPos.Unsigned.to_of (Pos.to_uint p)).
    now rewrite DecimalPos.Unsigned.of_to.
  - apply DecimalPos.Unsigned.to_uint_nonzero.
Qed.

Lemma str_of_Z_of_N (m : N) :
  str_of_Z (Z.of_N m) = NilZero.string_of_uint (N.to_uint m).
Proof. destruct m; reflexivity. Qed.

Lemma str_of_Z_digit (n : Z) :
  0 <= n < 10 -> str_of_Z n = String (digit n) EmptyString.
Proof.
  revert n. apply each_digit_Z. intros k Hk.
  ten_cases k ltac:(reflexivity).
Qed.

Lemma str_of_Z_step (n : Z) :
  10 <= n -> str_of_Z n = str_of_Z (n / 10) ++ String (digit n) EmptyString.
Proof.
  intros Hn.
  set (m := Z.to_N n).
  assert (Hm : n = Z.of_N m) by (subst m; rewrite Z2N.id; lia).
  assert (Hq : n / 10 = Z.of_N (m / 10)) by (rewrite Hm, N2Z.inj_div; reflexivity).
  assert (Hr : n mod 10 = Z.of_N (m mod 10))
    by (rewrite Hm, N2Z.inj_mod; reflexivity).
  assert (Hlt : (m mod 10 < 10)%N) by (apply N.mod_lt; discriminate).
  destruct (m / 10)%N as [| p] eqn:Hdiv.
  { exfalso. assert (0 < n / 10) by (apply Z.div_str_pos; lia).
    rewrite Hq in *. cbn in *. lia. }
  assert (Hsplit : m = (m mod 10 + 10 * N.pos p)%N).
  { rewrite <- Hdiv. rewrite N.add_comm. apply N.div_mod. discriminate. }
  rewrite Hq. rewrite Hm at 1. rewrite Hsplit at 1.
  rewrite !str_of_Z_of_N, to_uint_step by exact Hlt.
  change (N.to_uint (N.pos p)) with (Pos.to_uint p).
  assert (Hnn : forall u v, u <> Decimal.Nil ->
                  NilZero.string_of_uint (Decimal.app u v)
                  = NilZero.string_of_uint u ++ NilEmpty.string_of_uint v).
  { intros u v Hu.
    assert (Hz : forall d, d <> Decimal.Nil ->
                   NilZero.string_of_uint d = NilEmpty.string_of_uint d)
      by (intros d Hd; destruct d; [congruence | reflexivity ..]).
    assert (Happ : Decimal.app u v <> Decimal.Nil).
    { intros H. apply Hu. apply DecimalFacts.to_list_inj.
      apply (f_equal DecimalFacts.to_list) in H.
      rewrite DecimalFacts.app_spec in H.
      now apply List.app_eq_nil in H as [H _]. }
    rewrite (Hz u Hu), (Hz _ Happ). apply string_of_uint_app. }
  rewrite Hnn by apply DecimalPos.Unsigned.to_uint_nonnil. f_equal.
  unfold digit. rewrite Hr, N2Z.id. clear Hsplit Hr.
  revert Hlt. generalize (m mod 10)%N. apply each_digit_N. intros k Hk.
  ten_cases k ltac:(reflexivity).
Qed.

Lemma append_assoc (a b c : string) : (a ++ b) ++ c = a ++ (b ++ c).
Proof. induction a as [| x a IH]; cbn; [reflexivity | now rewrite IH]. Qed.

Lemma length_append (a b : string) :
  String.length (a ++ b) = (String.length a + String.length b)%nat.
Proof. induction a as [| x a IH]; cbn; [reflexivity | now rewrite IH]. Qed.

Lemma fixed_zero (w : nat) : fixed w 0 = zeros w.
Proof.
  induction w as [| w IH]; [reflexivity |].
  cbn [fixed]. change (0 / 10) with 0. rewrite IH.
  clear IH. induction w as [| w IH]; [reflexivity |].
  cbn [zeros String.append]. now rewrite IH.
Qed.

(** ["%0<w>d" % n] is the [w] decimal digits of [n] when [n] has no more
    than [w]. *)
Lemma pad_fixed (w : nat) (n : Z) :
  (1 <= w)%nat -> 0 <= n < 10 ^ Z.of_nat w -> pad w n = fixed w n.
Proof.
  revert n. induction w as [| w IH]; intros n Hw Hn; [lia |].
  destruct (Z_lt_ge_dec n 10) as [Hsmall | Hbig].
  - unfold pad. rewrite str_of_Z_digit by lia. cbn [String.length fixed].
    rewrite Z.div_small by lia. rewrite fixed_zero.
    now replace (S w - 1)%nat with w by lia.
  - assert (Hw' : (1 <= w)%nat).
    { destruct w; [| lia]. cbn in Hn. lia. }
    assert (Hq : 0 <= n / 10 < 10 ^ Z.of_nat w).
    { split; [apply Z.div_pos; lia |].
      apply Z.div_lt_upper_bound; [lia |].
      rewrite Nat2Z.inj_succ, Z.pow_succ_r in Hn by lia. lia. }
    cbn [fixed]. rewrite <- (IH (n / 10) Hw' Hq).
    unfold pad. rewrite str_of_Z_step by lia.
    rewrite length_append. cbn [String.length].
    replace (S w - (String.length (str_of_Z (n / 10)) + 1))%nat
      with (w - String.length (str_of_Z (n / 10)))%nat by lia.
    now rewrite append_assoc.
Qed.

Lemma digit_value_digit (n : Z) : digit_value (digit n) = Some (n mod 10).
Proof.
  unfold digit.
  assert (H : 0 <= n mod 10 < 10) by (apply Z.mod_pos_bound; lia).
  revert H. generalize (n mod 10). apply each_digit_Z. intros k Hk.
  ten_cases k ltac:(reflexivity).
Qed.

Lemma read_digits_last (w : nat) (acc : Z) (s : string) :
  read_digits (S w) acc s
  = '(a, s') <-? read_digits w acc s;;
    match s' with
    | String c rest => v <-? digit_value c;; Some (10 * a + v, rest)
    | EmptyString => None
    end.
Proof.
  revert acc s. induction w as [| w IH]; intros acc s.
  - cbn [read_digits obind]. destruct s as [| c rest]; [reflexivity |].
    destruct (digit_value c); reflexivity.
  - change (read_digits (S (S w)) acc s)
      with (match s with
            | String c rest =>
                v <-? digit_value c;; read_digits (S w) (10 * acc + v) rest
            | EmptyString => None
            end).
    destruct s as [| c rest]; [reflexivity |].
    cbn [read_digits]. destruct (digit_value c) as [v |]; [| reflexivity].
    cbn [obind]. apply IH.
Qed.

Lemma read_fixed (w : nat) (n acc : Z) (rest : string) :
  0 <= n < 10 ^ Z.of_nat w ->
  read_digits w acc (fixed w n ++ rest)
  = Some (acc * 10 ^ Z.of_nat w + n, rest).
Proof.
  revert n acc rest. induction w as [| w IH]; intros n acc rest Hn.
  - cbn in *. do 2 f_equal. lia.
  - rewrite Nat2Z.inj_succ, Z.pow_succ_r in * by lia.
    rewrite read_digits_last. cbn [fixed]. rewrite append_assoc.
    rewrite IH.
    2:{ split; [apply Z.div_pos; lia |].
        apply Z.div_lt_upper_bound; lia. }
    cbn [obind String.append]. rewrite digit_value_digit. cbn [obind].
    do 2 f_equal. pose proof (Z.div_mod n 10). lia.
Qed.

(** What [isoformat] writes is the datetime in the extended format of
    ISO 8601: a reader of that format gets the datetime back. *)
Lemma read_isoformat (d : datetime) :
  civil d -> read_iso8601 (isoformat d) = Some d.
Proof.
  destruct d as [y m d hh mm ss us off]. unfold civil, isoformat.
  cbn [year month day hour minute second microsecond utcoffset].
  intros (Hy & Hm & Hd & Hhh & Hmm & Hss & Hus & Hoff).
  rewrite !pad_fixed by (try (cbn; lia)).
  unfold read_iso8601.
  repeat (rewrite read_fixed by (cbn; lia);
          cbn [obind expect String.append Ascii.eqb Bool.eqb]).
  rewrite !Z.mul_0_l, !Z.add_0_l.
  assert (Hzone : read_zone (format_offset off) = Some off).
  { destruct off as [o |]; [| reflexivity].
    destruct Hoff as [Hrange Hwhole].
    unfold format_offset, usec_per_day, usec_per_hour, usec_per_minute,
      usec_per_second in *.
    change (24 * (60 * (60 * 1000000))) with 86400000000 in *.
    change (60 * (60 * 1000000)) with 3600000000 in *.
    change (60 * 1000000) with 60000000 in *.
    set (a := Z.abs o).
    assert (Ha : 0 <= a < 86400000000) by (subst a; lia).
    assert (Hamod : a mod 60000000 = 0).
    { subst a. destruct (Z.abs_eq_or_opp o) as [-> | ->]; [assumption |].
      rewrite Z.mod_opp_l_z; lia. }
    assert (Hs : a mod 60000000 / 1000000 = 0) by now rewrite Hamod.
    assert (Hu : a mod 1000000 = 0).
    { pose proof (Z.rem_mul_r a 1000000 60 ltac:(lia) ltac:(lia)) as H.
      change (1000000 * 60) with 60000000 in H.
      pose proof (Z.mod_pos_bound a 1000000 ltac:(lia)).
      pose proof (Z.mod_pos_bound (a / 1000000) 60 ltac:(lia)). lia. }
    rewrite Hs, Hu. cbn [Z.eqb andb].
    pose proof (Z.div_mod a 3600000000 ltac:(lia)) as Hdiv.
    pose proof (Z.mod_pos_bound a 3600000000 ltac:(lia)) as Hbound.
    pose proof (Z.div_mod (a mod 3600000000) 60000000 ltac:(lia)) as Hdiv'.
    pose proof (Z.mod_pos_bound (a mod 3600000000) 60000000 ltac:(lia))
      as Hbound'.
    assert (Hmm0 : (a mod 3600000000) mod 60000000 = 0).
    { pose proof (Z.rem_mul_r a 60000000 60 ltac:(lia) ltac:(lia)) as H.
      change (60000000 * 60) with 3600000000 in H.
      rewrite H, Hamod, Z.add_0_l, Z.mul_comm, Z.mod_mul; lia. }
    assert (Hh : 0 <= a / 3600000000 < 100)
      by (split; [apply Z.div_pos; lia | apply Z.div_lt_upper_bound; lia]).
    assert (Hm' : 0 <= a mod 3600000000 / 60000000 < 100)
      by (split; [apply Z.div_pos; lia | apply Z.div_lt_upper_bound; lia]).
    rewrite !pad_fixed by (try (cbn; lia)).
    destruct (o <? 0) eqn:Hneg;
      cbn [read_zone String.append Ascii.eqb Bool.eqb obind];
      repeat (rewrite read_fixed by (cbn; lia);
              cbn [obind expect String.append Ascii.eqb Bool.eqb]);
      do 2 f_equal; [apply Z.ltb_lt in Hneg | apply Z.ltb_ge in Hneg];
      unfold usec_per_hour, usec_per_minute, usec_per_second;
      rewrite !Z.mul_0_l, !Z.add_0_l; subst a; lia. }
  destruct (us =? 0) eqn:Hzero.
  - apply Z.eqb_eq in Hzero. subst us. cbn [String.append].
    assert (Hfrac : read_fraction (format_offset off)
                    = Some (0, format_offset off)).
    { destruct off as [o |]; [| reflexivity].
      unfold format_offset. destruct (o <? 0); reflexivity. }
    rewrite Hfrac. cbn [obind]. rewrite Hzone. reflexivity.
  - cbn [String.append read_fraction].
    rewrite read_fixed by (cbn; lia). cbn [obind].
    rewrite Hzone. reflexivity.
Qed.

(** ** Serialization *)

(** Induction on a value, with the hypothesis for every element of a list
    and every key and member of a dictionary. *)
Lemma pyval_induction (P : pyval -> Prop) :
  P VNone ->
  (forall b, P (VBool b)) ->
  (forall n, P (VInt n)) ->
  (forall s, P (VStr s)) ->
  (forall d, P (VDatetime d)) ->
  (forall xs, Forall P xs -> P (VList xs)) ->
  (forall items, Forall (fun kv => P (fst kv) /\ P (snd kv)) items ->
                 P (VDict items)) ->
  (forall cls addr, P (VObj cls addr)) ->
  forall v, P v.
Proof.
  intros HNone HBool HInt HStr HDate HList HDict HObj.
  fix IH 1. intros v. destruct v as [| b | n | s | d | xs | items | cls addr].
  - exact HNone.
  - apply HBool.
  - apply HInt.
  - apply HStr.
  - apply HDate.
  - apply HList.
    revert xs. fix IHxs 1. intros [| x xs].
    + constructor.
    + constructor; [apply IH | apply IHxs].
  - apply HDict.
    revert items. fix IHitems 1. intros [| [k x] items].
    + constructor.
    + constructor; [split; apply IH | apply IHitems].
  - apply HObj.
Qed.

Lemma iso_view_dict (items : pydict) :
  iso_view (VDict items)
  = VDict (map (fun kv => (fst kv, iso_view (snd kv))) items).
Proof.
  cbn [iso_view]. f_equal.
  induction items as [| [k x] items IH]; [reflexivity |].
  cbn [map fst snd]. now rewrite IH.
Qed.

Lemma json_encode_iso_view (v : pyval) : json_encode (iso_view v) = json_encode v.
Proof.
  induction v as [| b | n | s | d | xs IH | items IH | cls addr]
    using pyval_induction; try reflexivity.
  - cbn [iso_view]. rewrite !json_encode_list. f_equal.
    induction IH as [| x xs Hx _ IHxs]; [reflexivity |].
    cbn [map encode_elements]. now rewrite Hx, IHxs.
  - rewrite iso_view_dict, !json_encode_dict. f_equal.
    induction IH as [| [k x] items [_ Hx] _ IHitems]; [reflexivity |].
    cbn [map encode_members fst snd] in *. now rewrite Hx, IHitems.
Qed.

Lemma encode_elements_error (xs : list pyval) (e : exn) :
  encode_elements xs = Raise e ->
  exists x, In x xs /\ json_encode x = Raise e.
Proof.
  induction xs as [| x xs IH]; cbn [encode_elements]; [discriminate |].
  destruct (json_encode x) as [j | e'] eqn:Hj; cbn [rbind].
  - destruct (encode_elements xs) as [js | e'']; cbn [rbind]; [discriminate |].
    intros H. inversion H; subst e''.
    destruct (IH eq_refl) as (y & Hy & He). exists y. split; [now right | exact He].
  - intros H. inversion H; subst e'. exists x. split; [now left | exact Hj].
Qed.

Lemma encode_members_error (items : pydict) (e : exn) :
  encode_members items = Raise e ->
  exists k x, In (k, x) items /\
              (json_key k = Raise e \/ json_encode x = Raise e).
Proof.
  induction items as [| [k x] items IH]; cbn [encode_members]; [discriminate |].
  destruct (json_key k) as [name | e'] eqn:Hk; cbn [rbind].
  - destruct (json_encode x) as [j | e'] eqn:Hj; cbn [rbind].
    + destruct (encode_members items) as [fs | e'']; cbn [rbind];
        [discriminate |].
      intros H. inversion H; subst e''.
      destruct (IH eq_refl) as (k' & x' & Hin & He).
      exists k', x'. split; [now right | exact He].
    + intros H. inversion H; subst e'.
      exists k, x. split; [now left | now right].
  - intros H. inversion H; subst e'.
    exists k, x. split; [now left | now left].
Qed.

Lemma json_key_error (k : pyval) (e : exn) :
  json_key k = Raise e ->
  e = Exn TypeError
          ("keys must be str, int, float, bool or None, not " ++ type_name k).
Proof.
  destruct k as [| [|] | | | | | |]; cbn [json_key]; try discriminate;
    intros H; now inversion H.
Qed.

Lemma parts_dict (items : pydict) : parts (VDict items) = member_parts items.
Proof.
  cbn [parts]. induction items as [| [k x] items IH]; [reflexivity |].
  cbn [member_parts]. now rewrite <- IH.
Qed.

Lemma find_app {A} (f : A -> bool) (l l' : list A) :
  find f (l ++ l')%list
  = match find f l with
    | Some a => Some a
    | None => find f l'
    end.
Proof.
  induction l as [| a l IH]; [reflexivity |].
  cbn [List.app find]. now destruct (f a).
Qed.

Lemma json_key_fault (k : pyval) :
  if at_fault (Key k) then json_key k = Raise (fault_error (Key k))
  else exists name, json_key k = Ret name.
Proof.
  destruct k as [| [|] | n | s | d | xs | items | cls addr];
    cbn [at_fault json_key fault_error]; try reflexivity; eexists; reflexivity.
Qed.

(** An encoding fails at the first part at fault, in document order, with
    the exception of that part; without such a part it succeeds. *)
Lemma json_encode_fault (v : pyval) :
  match find at_fault (parts v) with
  | Some p => json_encode v = Raise (fault_error p)
  | None => exists j, json_encode v = Ret j
  end.
Proof.
  induction v as [| b | n | s | d | xs IH | items IH | cls addr]
    using pyval_induction;
    try (cbn [parts find at_fault]; eexists; reflexivity).
  - rewrite json_encode_list. cbn [parts].
    assert (Hxs : match find at_fault (flat_map parts xs) with
                  | Some p => encode_elements xs = Raise (fault_error p)
                  | None => exists js, encode_elements xs = Ret js
                  end).
    { induction IH as [| x xs Hx _ IHxs]; [now exists [] |].
      cbn [flat_map encode_elements]. rewrite find_app.
      destruct (find at_fault (parts x)) as [p |].
      - now rewrite Hx.
      - destruct Hx as [j ->]. cbn [rbind].
        destruct (find at_fault (flat_map parts xs)) as [p |].
        + now rewrite IHxs.
        + destruct IHxs as [js ->]. now exists (j :: js). }
    destruct (find at_fault (flat_map parts xs)) as [p |].
    + now rewrite Hxs.
    + destruct Hxs as [js ->]. now exists (JArray js).
  - rewrite json_encode_dict, parts_dict.
    assert (Hitems : match find at_fault (member_parts items) with
                     | Some p => encode_members items = Raise (fault_error p)
                     | None => exists fs, encode_members items = Ret fs
                     end).
    { induction IH as [| [k x] items [_ Hx] _ IHitems]; [now exists [] |].
      cbn [snd] in Hx. cbn [member_parts encode_members List.app find].
      pose proof (json_key_fault k) as Hk.
      destruct (at_fault (Key k)); [now rewrite Hk |].
      destruct Hk as [name ->]. cbn [rbind]. rewrite find_app.
      destruct (find at_fault (parts x)) as [p |].
      - now rewrite Hx.
      - destruct Hx as [j ->]. cbn [rbind].
        destruct (find at_fault (member_parts items)) as [p |].
        + now rewrite IHitems.
        + destruct IHitems as [fs ->]. now exists ((name, j) :: fs). }
    destruct (find at_fault (member_parts items)) as [p |].
    + now rewrite Hitems.
    + destruct Hitems as [fs ->]. now exists (JObject fs).
Qed.

(** C5. [serialize_datetime] turns a datetime into its ISO-8601 string:
    what it returns is read back, by a reader of the extended format of
    ISO 8601, as the datetime itself. For any other object it raises a
    [TypeError] whose message holds [str(type(obj))]. In a document that
    is encoded, every datetime that stands as a value, at any depth, is
    written as that string. An encoding fails exactly when the document
    has a part that JSON cannot take, and it fails at the first of them in
    document order: at an object of another class, with the [TypeError] of
    [serialize_datetime] whose message holds the dotted name of the class
    of that object; or at a dictionary key that is not a string, a number,
    a boolean or [None], with a [TypeError] whose message holds the name of
    the class of that key. *)
Theorem datetimes_are_written_in_iso_format :
  (forall d, serialize_datetime (VDatetime d) = Ret (isoformat d)) /\
  (forall d, civil d -> read_iso8601 (isoformat d) = Some d) /\
  (forall v, (forall d, v <> VDatetime d) ->
             serialize_datetime v
             = Raise (Exn TypeError
                          ("Object of type '" ++ type_repr v
                           ++ "' is not JSON serializable"))) /\
  (forall d, json_encode (VDatetime d) = Ret (JString (isoformat d))) /\
  (forall v, json_encode v = json_encode (iso_view v)) /\
  (forall v cls addr,
      find at_fault (parts v) = Some (Leaf (VObj cls addr)) ->
      json_encode v
      = Raise (Exn TypeError
                   ("Object of type '<class '" ++ cls_path cls
                    ++ "'>' is not JSON serializable"))) /\
  (forall v k,
      find at_fault (parts v) = Some (Key k) ->
      json_encode v
      = Raise (Exn TypeError
                   ("keys must be str, int, float, bool or None, not "
                    ++ type_name k))) /\
  (forall v, find at_fault (parts v) = None ->
             exists j, json_encode v = Ret j) /\
  (forall v p, find at_fault (parts v) = Some p ->
               (exists k, p = Key k) \/ (exists cls addr, p = Leaf (VObj cls addr))).
Proof.
  split; [reflexivity |].
  split; [exact read_isoformat |].
  split.
  { intros v Hv. destruct v; try reflexivity. now destruct (Hv d). }
  split; [reflexivity |].
  split.
  { intros v. symmetry. apply json_encode_iso_view. }
  split.
  { intros v cls addr Hfind. pose proof (json_encode_fault v) as H.
    rewrite Hfind in H. rewrite H. cbn [fault_error type_repr].
    do 2 f_equal. cbn [String.append]. now rewrite !append_assoc. }
  split.
  { intros v k Hfind. pose proof (json_encode_fault v) as H.
    now rewrite Hfind in H. }
  split.
  { intros v Hfind. pose proof (json_encode_fault v) as H.
    now rewrite Hfind in H. }
  intros v p Hfind. apply find_some in Hfind as [_ Hp].
  destruct p as [k | w]; [left; now exists k |].
  destruct w; try discriminate Hp. right. now eexists _, _.
Qed.

Lemma datetimes_are_written_in_iso_format_witness :
  let stop := VObj (mkClass "Event" "threading.Event" "Event") 7 in
  let document :=
    VDict [(VStr "CreateTime", VDatetime sample_created);
           (VStr "Tags", VList [VStr "a"; stop; VObj (mkClass "object" "object" "object") 8])] in
  civil sample_created /\
  read_iso8601 "2024-01-15T10:30:00+00:00" = Some sample_created /\
  find at_fault (parts document) = Some (Leaf stop) /\
  json_encode document
  = Raise (Exn TypeError
               "Object of type '<class 'threading.Event'>' is not JSON serializable").
Proof.
  intros stop document.
  assert (Hcivil : civil sample_created) by (cbv; intuition discriminate).
  destruct datetimes_are_written_in_iso_format
    as (_ & Hread & _ & _ & _ & Hleaf & _).
  split; [exact Hcivil |].
  split; [exact (Hread sample_created Hcivil) |].
  split; [reflexivity |].
  exact (Hleaf document (mkClass "Event" "threading.Event" "Event") 7%N
               eq_refl).
Defined.

(** ** Runs on the sample table *)

Example isoformat_aware :
  isoformat sample_created = "2024-01-15T10:30:00+00:00".
Proof. reflexivity. Qed.

Example isoformat_naive_with_microseconds :
  isoformat (mkDatetime 987 12 3 4 5 6 700 None) = "0987-12-03T04:05:06.000700".
Proof. reflexivity. Qed.

Example isoformat_west_of_utc :
  isoformat (mkDatetime 2023 6 30 23 59 59 0
                        (Some (- (5 * usec_per_hour + 30 * usec_per_minute))))
  = "2023-06-30T23:59:59-05:30".
Proof. reflexivity. Qed.

Example datetime_eqb_compares_instants :
  datetime_eqb (mkDatetime 2024 3 1 0 30 0 0 (Some usec_per_hour))
               (mkDatetime 2024 2 29 23 30 0 0 (Some 0)) = true.
Proof. reflexivity. Qed.

Example strip_trims_both_ends :
  strip (String "009" " a b  ") = "a b".
Proof. reflexivity. Qed.

(** Scenario A of the specification. *)
Example scenario_a_report :
  snapshot_tables orders_table (VList (null_fields (top_level orders_table)))
  = Ret ([(VStr "id", VStr "primary key"); (VStr "ts", VStr "");
          (VStr "note", VStr "")],
         [(VStr "ts", VStr "default comment missing"); (VStr "note", VStr "")]).
Proof. reflexivity. Qed.

(** The fetch of the sample table: one snapshot, then the document. *)
Example fetch_of_orders :
  get_table_metadata (friendly_world orders_table sample_overrides)
                     sample_config "" ""
  = ([EvLogin "glue"; EvGetTable "sales" "orders" "123456789012";
      EvSnapshot "default_metadata.json"; EvOpen "default_metadata.json" "w";
      EvJsonDump "default_metadata.json" orders_snapshot],
     Ret orders_table).
Proof. reflexivity. Qed.

(** Scenario B: the override of [ts] lands in the document and in the one
    update request. *)
Example scenario_b_merge :
  let merged := [sample_column "id" (Some "primary key");
                 sample_column "ts" (Some "event timestamp");
                 sample_column "note" (Some "")] in
  add_update_missing_values (friendly_world orders_table sample_overrides)
                            GlueClient "sales" "orders" orders_table
  = (with_columns orders_table merged,
     ([EvOpen "new_values.json" "r"; EvJsonLoad "new_values.json";
       EvUpdateTable "sales" (table_input_of "orders" (VList merged));
       EvPrint "********** Missing column values updated successfully! **********"],
      Ret (with_columns orders_table merged))).
Proof. reflexivity. Qed.

(** Scenario C in [main]: nothing is missing, so merge hands [{}] on and the
    "after" snapshot is written from that empty dictionary. *)
Example main_on_documented_table :
  main (friendly_world documented_table sample_overrides) sample_config
  = ([EvLogin "s3"; EvLogin "glue"; EvLogin "glue";
      EvGetTable "sales" "orders" "123456789012";
      EvSnapshot "default_metadata.json"; EvOpen "default_metadata.json" "w";
      EvJsonDump "default_metadata.json"
        (JObject [("default_values",
                   JObject [("id", JString "primary key");
                            ("ts", JString "event timestamp")]);
                  ("missing_columns", JObject [])]);
      EvPrint "***** No missing columns with empty 'Comment' found. *****";
      EvSnapshot "updated_metadata.json"; EvOpen "updated_metadata.json" "w";
      EvJsonDump "updated_metadata.json"
        (JObject [("default_values", JObject []);
                  ("missing_columns", JObject [])])],
     Ret tt).
Proof. reflexivity. Qed.

(** Scenario D in [main]: the table is not in the catalog. *)
Example main_without_table :
  main world_without_table sample_config
  = ([EvLogin "s3"; EvLogin "glue"; EvLogin "glue";
      EvGetTable "sales" "orders" "123456789012";
      EvPrint "***** Table 'orders' not found in the database 'sales'.";
      EvLogException "An error occurred: 'NoneType' object is not subscriptable"],
     Ret tt).
Proof. reflexivity. Qed.

(** Two columns under one name: the comment of the documented one is
    overwritten, which is why the claims about merge are stated for names
    that are all different. *)
Example merge_with_a_repeated_name :
  table_columns
    (fst (add_update_missing_values
            (friendly_world VNone sample_overrides) GlueClient "sales" "orders"
            (VDict [(VStr "StorageDescriptor",
                     VDict [(VStr "Columns",
                             VList [sample_column "ts" (Some "kept?");
                                    sample_column "ts" None])])])))
  = Some [sample_column "ts" (Some "event timestamp");
          sample_column "ts" (Some "event timestamp")].
Proof. reflexivity. Qed.

(** The "after" snapshot of [main] is built with the candidate set
    [metadata.get('missing_columns', {})], not with the null top-level
    fields: with no override for [ts], the column stays undocumented and is
    entered under the empty tag in "updated_metadata.json". *)
Example after_snapshot_has_no_candidates :
  exists before merged,
    trace (main (friendly_world orders_table []) sample_config)
    = (before ++
       [EvUpdateTable "sales" (table_input_of "orders" (VList merged));
        EvPrint "********** Missing column values updated successfully! **********";
        EvSnapshot "updated_metadata.json"; EvOpen "updated_metadata.json" "w";
        EvJsonDump "updated_metadata.json"
          (JObject [("default_values",
                     JObject [("id", JString "primary key"); ("ts", JString "");
                              ("note", JString "")]);
                    ("missing_columns",
                     JObject [("ts", JString ""); ("note", JString "")])])])%list.
Proof.
  exists [EvLogin "s3"; EvLogin "glue"; EvLogin "glue";
          EvGetTable "sales" "orders" "123456789012";
          EvSnapshot "default_metadata.json"; EvOpen "default_metadata.json" "w";
          EvJsonDump "default_metadata.json" orders_snapshot;
          EvOpen "new_values.json" "r"; EvJsonLoad "new_values.json"].
  exists [sample_column "id" (Some "primary key");
          sample_column "ts" (Some "");
          sample_column "note" (Some "")].
  reflexivity.
Qed.

(** A column name the encoder cannot turn into a key: the file is opened,
    the encoding fails, and the writer reports it and returns. *)
Example snapshot_with_a_name_that_is_no_key :
  write_metadata_and_missing_values
    (friendly_world VNone []) 
    (VDict [(VStr "StorageDescriptor",
             VDict [(VStr "Columns",
                     VList [VDict [(VStr "Name",
                                    VObj (mkClass "Event" "threading.Event"
                                                  "Event") 1)]])])])
    (VList []) "default_metadata.json"
  = ([EvSnapshot "default_metadata.json"; EvOpen "default_metadata.json" "w";
      EvPrint " ***** Error during metadata writing: keys must be str, int, float, bool or None, not Event"],
     Ret VNone).
Proof. reflexivity. Qed.

(** * More of the program *)

(** ** Trimming *)

Lemma lstrip_empty (s : string) :
  lstrip s = "" <-> forallb isspace (list_ascii_of_string s) = true.
Proof.
  induction s as [| c s IH]; cbn [lstrip list_ascii_of_string forallb].
  - tauto.
  - destruct (isspace c); cbn [andb]; [exact IH |].
    split; discriminate.
Qed.

Lemma lstrip_head (s : string) :
  lstrip s = "" \/ exists c rest, lstrip s = String c rest /\ isspace c = false.
Proof.
  induction s as [| c s IH]; cbn [lstrip]; [now left |].
  destruct (isspace c) eqn:Hc; [exact IH |].
  right. now exists c, s.
Qed.

Lemma rstrip_empty (s : string) :
  rstrip s = "" <-> forallb isspace (list_ascii_of_string s) = true.
Proof.
  induction s as [| c s IH]; cbn [rstrip list_ascii_of_string forallb].
  - tauto.
  - destruct (rstrip s) eqn:Hr.
    + destruct (isspace c); cbn [andb].
      * split; [intros _; now apply IH | reflexivity].
      * split; discriminate.
    + split; [discriminate |].
      intros H. apply andb_true_iff in H as [_ H]. apply IH in H. discriminate.
Qed.

Lemma strip_empty (s : string) :
  String.eqb (strip s) "" = forallb isspace (list_ascii_of_string s).
Proof.
  unfold strip.
  destruct (forallb isspace (list_ascii_of_string s)) eqn:Hall.
  - apply lstrip_empty in Hall. rewrite Hall. reflexivity.
  - apply String.eqb_neq. intros Hr. apply rstrip_empty in Hr.
    destruct (lstrip_head s) as [Hl | (c & rest & Hl & Hc)].
    + apply lstrip_empty in Hl. congruence.
    + rewrite Hl in Hr. cbn [list_ascii_of_string forallb] in Hr.
      rewrite Hc in Hr. discriminate.
Qed.

(** X1. The test of lines 140, 145 and 182 on a comment that is a string:
    the comment counts as missing exactly when every one of its characters
    is whitespace (the empty string included). *)
Theorem blank_comment_is_all_whitespace (s : string) :
  blank_comment (VStr s) = Ret (forallb isspace (list_ascii_of_string s)).
Proof.
  cbn [blank_comment py_strip rbind]. now rewrite strip_empty.
Qed.

(** ** The snapshot tables on any input *)

(** X2. The writer reads a missing [StorageDescriptor] or a missing
    [Columns] as no columns and builds two empty tables, where merge raises
    [KeyError] on the same document; a [StorageDescriptor] that is there
    but [None] is not covered by the default and makes the writer fail. *)
Theorem writer_defaults_for_missing_keys (top : pydict) (missing_values : pyval) :
  (dict_lookup (VStr "StorageDescriptor") top = None ->
   snapshot_tables (VDict top) missing_values = Ret ([], []) /\
   scan_missing_columns (VDict top)
   = Raise (Exn KeyError "'StorageDescriptor'")) /\
  (forall descriptor,
      dict_lookup (VStr "StorageDescriptor") top = Some (VDict descriptor) ->
      dict_lookup (VStr "Columns") descriptor = None ->
      snapshot_tables (VDict top) missing_values = Ret ([], []) /\
      scan_missing_columns (VDict top) = Raise (Exn KeyError "'Columns'")) /\
  (dict_lookup (VStr "StorageDescriptor") top = Some VNone ->
   snapshot_tables (VDict top) missing_values
   = Raise (Exn AttributeError "'NoneType' object has no attribute 'get'")).
Proof.
  unfold snapshot_tables, scan_missing_columns, columns_of.
  split; [| split].
  - intros H. py_step. now rewrite H.
  - intros descriptor H H0. py_step. rewrite H. py_step. now rewrite H0.
  - intros H. py_step. now rewrite H.
Qed.

Lemma writer_defaults_for_missing_keys_witness :
  dict_lookup (VStr "StorageDescriptor") [(VStr "Name", VStr "orders")] = None /\
  snapshot_tables (VDict [(VStr "Name", VStr "orders")]) (VList []) = Ret ([], []) /\
  scan_missing_columns (VDict [(VStr "Name", VStr "orders")])
  = Raise (Exn KeyError "'StorageDescriptor'").
Proof.
  split; [reflexivity |].
  exact (proj1 (writer_defaults_for_missing_keys
                  [(VStr "Name", VStr "orders")] (VList [])) eq_refl).
Defined.

(** X3. A snapshot is built from the column list alone: two documents with
    the same columns give the same tables, whatever else they hold. *)
Theorem snapshot_depends_on_columns_only (metadata1 metadata2 missing_values : pyval)
    (cols : list pyval) :
  table_columns metadata1 = Some cols ->
  table_columns metadata2 = Some cols ->
  snapshot_tables metadata1 missing_values
  = snapshot_tables metadata2 missing_values.
Proof.
  intros H1 H2.
  destruct (table_columns_inv _ _ H1) as (top1 & sd1 & -> & Hsd1 & Hc1).
  destruct (table_columns_inv _ _ H2) as (top2 & sd2 & -> & Hsd2 & Hc2).
  unfold snapshot_tables. py_step. rewrite Hsd1, Hsd2. py_step.
  now rewrite Hc1, Hc2.
Qed.

Lemma snapshot_depends_on_columns_only_witness :
  table_columns orders_table = Some orders_columns /\
  table_columns (VDict [(VStr "StorageDescriptor",
                         VDict [(VStr "Columns", VList orders_columns)])])
  = Some orders_columns /\
  snapshot_tables orders_table (VList [VStr "ts"])
  = snapshot_tables (VDict [(VStr "StorageDescriptor",
                             VDict [(VStr "Columns", VList orders_columns)])])
                    (VList [VStr "ts"]).
Proof.
  split; [reflexivity | split; [reflexivity |]].
  exact (snapshot_depends_on_columns_only
           orders_table
           (VDict [(VStr "StorageDescriptor",
                    VDict [(VStr "Columns", VList orders_columns)])])
           (VList [VStr "ts"]) orders_columns eq_refl eq_refl).
Defined.

Lemma py_eqb_refl (k : pyval) : hashable k = true -> py_eqb k k = true.
Proof.
  destruct k as [| b | n | s | d | xs | items | cls addr]; cbn [hashable];
    try discriminate; intros _; cbn [py_eqb num_of].
  - reflexivity.
  - apply Z.eqb_refl.
  - apply Z.eqb_refl.
  - apply String.eqb_refl.
  - unfold datetime_eqb. destruct (utcoffset d); apply Z.eqb_refl.
  - unfold pyclass_eqb. now rewrite !String.eqb_refl, N.eqb_refl.
Qed.

(** What [d[k'] = v'] leaves in a dictionary: the old entries, but for one
    whose value is now [v']. *)
Lemma in_dict_set (k v k' v' : pyval) (d : pydict) :
  In (k, v) (dict_set k' v' d) ->
  In (k, v) d \/ (v = v' /\ (k = k' \/ exists v0, In (k, v0) d)).
Proof.
  induction d as [| [k0 v0] d IH]; cbn [dict_set In].
  - intros [H | []]. inversion H; subst. right. split; [reflexivity | now left].
  - destruct (py_eqb k0 k'); cbn [In].
    + intros [H | H].
      * inversion H; subst. right. split; [reflexivity |]. right.
        exists v0. now left.
      * left. now right.
    + intros [H | H].
      * left. now left.
      * destruct (IH H) as [Hin | [-> [-> | (v1 & Hin)]]].
        -- left. now right.
        -- right. split; [reflexivity | now left].
        -- right. split; [reflexivity |]. right. exists v1. now right.
Qed.

Lemma dict_set_keeps_keys (k k' v' : pyval) (d : pydict) :
  dict_lookup k d <> None -> dict_lookup k (dict_set k' v' d) <> None.
Proof.
  induction d as [| [k0 v0] d IH]; cbn [dict_set dict_lookup].
  - intros H. now contradict H.
  - destruct (py_eqb k0 k'); cbn [dict_lookup];
      destruct (py_eqb k0 k); try discriminate; auto.
Qed.

Lemma dict_set_has_key (k v : pyval) (d : pydict) :
  py_eqb k k = true -> dict_lookup k (dict_set k v d) <> None.
Proof.
  intros Hk. induction d as [| [k0 v0] d IH]; cbn [dict_set dict_lookup].
  - now rewrite Hk.
  - destruct (py_eqb k0 k) eqn:H0; cbn [dict_lookup]; rewrite H0;
      [discriminate | exact IH].
Qed.

Lemma in_dict_has_key (k v : pyval) (d : pydict) :
  py_eqb k k = true -> In (k, v) d -> dict_lookup k d <> None.
Proof.
  intros Hk. induction d as [| [k0 v0] d IH]; cbn [In dict_lookup].
  - contradiction.
  - intros [H | H].
    + inversion H; subst. now rewrite Hk.
    + destruct (py_eqb k0 k); [discriminate | now apply IH].
Qed.

(** A property that every pass of a loop keeps holds when the loop ends. *)
Lemma for_each_invariant {A B} (P : A -> Prop) (body : A -> B -> result A)
    (xs : list B) :
  (forall acc x acc', In x xs -> P acc -> body acc x = Ret acc' -> P acc') ->
  forall acc acc', P acc -> for_each body xs acc = Ret acc' -> P acc'.
Proof.
  induction xs as [| x xs IH]; intros Hbody acc acc' Hacc; cbn [for_each].
  - intros H. now inversion H; subst.
  - destruct (body acc x) as [acc1 |] eqn:Hx; cbn [rbind]; [| discriminate].
    apply IH.
    + intros a y a' Hy. apply Hbody. now right.
    + apply (Hbody acc x); [now left | assumption | assumption].
Qed.

Lemma snapshot_column_invariant (missing_values : pyval)
    (tables : pydict * pydict) (column : pyval) (tables' : pydict * pydict) :
  tables_invariant tables ->
  snapshot_column missing_values tables column = Ret tables' ->
  tables_invariant tables'.
Proof.
  destruct tables as [dv mc]. intros [Hdv Hmc]. unfold snapshot_column.
  destruct (py_get column (VStr "Name") VNone) as [name |]; cbn [rbind];
    [| discriminate].
  destruct (py_get column (VStr "Comment") VNone) as [comment |]; cbn [rbind];
    [| discriminate].
  destruct (blank_comment comment) as [blank |] eqn:Hblank; cbn [rbind];
    [| discriminate].
  unfold py_setitem.
  destruct (hashable name) eqn:Hname; cbn [rbind]; [| discriminate].
  assert (Hshown : exists s, (if blank then VStr "" else comment) = VStr s).
  { destruct blank; [now exists "" |].
    destruct comment; cbn [blank_comment py_strip rbind] in Hblank;
      try discriminate. now eexists. }
  destruct Hshown as [shown Hshown]. rewrite Hshown.
  assert (Hdv' : forall k v, In (k, v) (dict_set name (VStr shown) dv) ->
                             hashable k = true /\ exists s, v = VStr s).
  { intros k v Hin. apply in_dict_set in Hin as [Hin | [-> [-> | (v0 & Hin)]]].
    - now apply Hdv.
    - split; [assumption | now exists shown].
    - split; [now apply (Hdv k v0) | now exists shown]. }
  assert (Hmc' : forall k v, In (k, v) mc ->
                  (v = VStr "default comment missing" \/ v = VStr "") /\
                  dict_lookup k (dict_set name (VStr shown) dv) <> None).
  { intros k v Hin. destruct (Hmc k v Hin) as [Htag Hkey].
    split; [assumption | now apply dict_set_keeps_keys]. }
  destruct (py_contains name missing_values) as [listed |]; cbn [rbind];
    [| discriminate].
  destruct (listed && blank); cbn [rbind].
  - intros H. inversion H; subst. split; cbn [fst snd]; [exact Hdv' |].
    intros k v Hin. apply in_dict_set in Hin as [Hin | [-> [-> | (v0 & Hin)]]].
    + now apply Hmc'.
    + split; [now left |]. apply dict_set_has_key. now apply py_eqb_refl.
    + split; [now left |]. now apply (Hmc' k v0).
  - intros H. inversion H; subst. split; cbn [fst snd]; assumption.
Qed.

Lemma flag_blank_invariant (dv mc : pydict) (column : pyval) (mc' : pydict) :
  In column (map fst dv) ->
  tables_invariant (dv, mc) ->
  flag_blank dv mc column = Ret mc' ->
  tables_invariant (dv, mc').
Proof.
  intros Hcol [Hdv Hmc]. unfold flag_blank.
  destruct (py_contains column (VDict mc)) as [[|] |]; cbn [rbind];
    try discriminate.
  - intros H. inversion H; subst. now split.
  - destruct (py_getitem (VDict dv) column) as [value |]; cbn [rbind];
      [| discriminate].
    destruct (py_eqb value (VStr "")).
    + unfold py_setitem. destruct (hashable column) eqn:Hh; [| discriminate].
      intros H. inversion H; subst. split; cbn [fst snd]; [exact Hdv |].
      intros k v Hin.
      apply in_dict_set in Hin as [Hin | [-> [-> | (v0 & Hin)]]].
      * now apply Hmc.
      * split; [now right |].
        apply in_map_iff in Hcol as ([k0 v0] & Hk & Hin). cbn [fst] in Hk.
        subst k0. apply (in_dict_has_key column v0); [| assumption].
        now apply py_eqb_refl.
      * split; [now right |]. now apply (Hmc k v0).
    + intros H. inversion H; subst. now split.
Qed.

Lemma snapshot_tables_invariant (metadata missing_values : pyval)
    (tables : pydict * pydict) :
  snapshot_tables metadata missing_values = Ret tables ->
  tables_invariant tables.
Proof.
  unfold snapshot_tables.
  destruct (py_get metadata _ _) as [descriptor |]; cbn [rbind];
    [| discriminate].
  destruct (py_get descriptor _ _) as [columns |]; cbn [rbind];
    [| discriminate].
  destruct (py_iter columns) as [cols |]; cbn [rbind]; [| discriminate].
  destruct (for_each (snapshot_column missing_values) cols ([], []))
    as [[dv mc] |] eqn:Hloop; cbn [rbind]; [| discriminate].
  assert (H1 : tables_invariant (dv, mc)).
  { apply (for_each_invariant tables_invariant
             (snapshot_column missing_values) cols) with (acc := ([], []));
      [| split; cbn [fst snd In]; contradiction | exact Hloop].
    intros acc x acc' _. apply snapshot_column_invariant. }
  destruct (for_each (flag_blank dv) (map fst dv) mc) as [mc' |] eqn:Hflag;
    cbn [rbind]; [| discriminate].
  intros H. inversion H; subst.
  apply (for_each_invariant (fun m => tables_invariant (dv, m))
           (flag_blank dv) (map fst dv)) with (acc := mc);
    [| exact H1 | exact Hflag].
  intros acc x acc' Hx. now apply flag_blank_invariant.
Qed.

(** X4. In every snapshot that is built, from whatever input: each default
    value is a string, each entry of the report carries one of the two tags
    "default comment missing" and "", and each name in the report has a
    default value. *)
Theorem snapshot_tables_are_well_formed (metadata missing_values : pyval)
    (default_values missing_columns : pydict) :
  snapshot_tables metadata missing_values
  = Ret (default_values, missing_columns) ->
  (forall k v, In (k, v) default_values -> exists s, v = VStr s) /\
  (forall k v, In (k, v) missing_columns ->
               v = VStr "default comment missing" \/ v = VStr "") /\
  (forall k v, In (k, v) missing_columns ->
               dict_lookup k default_values <> None).
Proof.
  intros H. apply snapshot_tables_invariant in H as [Hdv Hmc].
  cbn [fst snd] in *. repeat split.
  - intros k v Hin. now apply (Hdv k v).
  - intros k v Hin. now apply (Hmc k v).
  - intros k v Hin. now apply (Hmc k v).
Qed.

Lemma snapshot_tables_are_well_formed_witness :
  snapshot_tables orders_table (VList [VStr "ts"])
  = Ret ([(VStr "id", VStr "primary key"); (VStr "ts", VStr "");
          (VStr "note", VStr "")],
         [(VStr "ts", VStr "default comment missing"); (VStr "note", VStr "")])
  /\
  dict_lookup (VStr "note")
              [(VStr "id", VStr "primary key"); (VStr "ts", VStr "");
               (VStr "note", VStr "")] <> None.
Proof.
  split; [reflexivity |].
  destruct (snapshot_tables_are_well_formed orders_table (VList [VStr "ts"])
              _ _ eq_refl) as (_ & _ & Hkeys).
  apply (Hkeys (VStr "note") (VStr "")). cbn. tauto.
Defined.

(** X5. The encoding of a snapshot can fail on a column name only: when it
    raises, a key of one of the two tables is not a string, a number, a
    boolean or [None], and the message names the type of that key.
    [serialize_datetime] is never reached, since no value of a snapshot is
    anything but a string. *)
Theorem snapshot_encoding_fails_on_names_only (metadata missing_values : pyval)
    (tables : pydict * pydict) (e : exn) :
  snapshot_tables metadata missing_values = Ret tables ->
  json_encode (snapshot_data tables) = Raise e ->
  exists k v,
    (In (k, v) (fst tables) \/ In (k, v) (snd tables)) /\
    json_key k = Raise e /\
    e = Exn TypeError
            ("keys must be str, int, float, bool or None, not " ++ type_name k).
Proof.
  intros Htables. apply snapshot_tables_invariant in Htables as [Hdv Hmc].
  unfold snapshot_data. rewrite json_encode_dict.
  cbn [encode_members json_key rbind]. rewrite !json_encode_dict.
  destruct (encode_members (fst tables)) as [dv |] eqn:Hedv; cbn [rbind].
  - destruct (encode_members (snd tables)) as [mc |] eqn:Hemc; cbn [rbind];
      [discriminate |].
    intros H. inversion H; subst.
    apply encode_members_error in Hemc as (k & v & Hin & [Hk | Hv]).
    + exists k, v. split; [now right |]. split; [assumption |].
      now apply json_key_error.
    + destruct (Hmc k v Hin) as [[-> | ->] _]; discriminate.
  - intros H. inversion H; subst.
    apply encode_members_error in Hedv as (k & v & Hin & [Hk | Hv]).
    + exists k, v. split; [now left |]. split; [assumption |].
      now apply json_key_error.
    + destruct (Hdv k v Hin) as [_ [s ->]]. discriminate.
Qed.

Lemma snapshot_encoding_fails_on_names_only_witness :
  let metadata :=
    VDict [(VStr "StorageDescriptor",
            VDict [(VStr "Columns",
                    VList [VDict [(VStr "Name", VDatetime sample_created)]])])] in
  snapshot_tables metadata (VList [])
  = Ret ([(VDatetime sample_created, VStr "")],
         [(VDatetime sample_created, VStr "")]) /\
  json_encode (snapshot_data ([(VDatetime sample_created, VStr "")],
                              [(VDatetime sample_created, VStr "")]))
  = Raise (Exn TypeError
               "keys must be str, int, float, bool or None, not datetime") /\
  exists k v,
    (In (k, v) [(VDatetime sample_created, VStr "")] \/
     In (k, v) [(VDatetime sample_created, VStr "")]) /\
    json_key k
    = Raise (Exn TypeError
                 "keys must be str, int, float, bool or None, not datetime").
Proof.
  intros metadata. split; [reflexivity | split; [reflexivity |]].
  destruct (snapshot_encoding_fails_on_names_only metadata (VList [])
              ([(VDatetime sample_created, VStr "")],
               [(VDatetime sample_created, VStr "")])
              (Exn TypeError
                   "keys must be str, int, float, bool or None, not datetime")
              eq_refl eq_refl) as (k & v & Hin & Hk & _).
  now exists k, v.
Defined.

(** ** More on the merge *)

Lemma existsb_filter_nonempty {A} (p : A -> bool) (xs : list A) :
  existsb p xs = true -> filter p xs <> [].
Proof.
  induction xs as [| x xs IH]; cbn [existsb filter]; [discriminate |].
  destruct (p x); [discriminate | exact IH].
Qed.

(** The whole of a merge on a document of the data model that has an
    undocumented column, when the override file holds an object. *)
Lemma merge_run (E : env) (glue_client : client)
    (database_name table_name : string) (metadata : pyval)
    (cols : list pyval) (overrides : pydict) :
  table_columns metadata = Some cols ->
  forallb is_column cols = true ->
  NoDup (map col_name cols) ->
  existsb undocumented cols = true ->
  fs_open E "new_values.json" "r" = None ->
  fs_load E "new_values.json" = Ret (VDict overrides) ->
  let merged := map (merge_column overrides) cols in
  let metadata' := with_columns metadata merged in
  let table_input := table_input_of table_name (VList merged) in
  add_update_missing_values E glue_client database_name table_name metadata
  = (metadata',
     match glue_update_table E database_name table_input with
     | None =>
         ([EvOpen "new_values.json" "r"; EvJsonLoad "new_values.json";
           EvUpdateTable database_name table_input;
           EvPrint "********** Missing column values updated successfully! **********"],
          Ret metadata')
     | Some e =>
         ([EvOpen "new_values.json" "r"; EvJsonLoad "new_values.json";
           EvUpdateTable database_name table_input],
          Raise e)
     end).
Proof.
  intros Hcols Hwf Hnd Hsome Hopen Hload merged metadata' table_input.
  subst merged metadata' table_input.
  unfold add_update_missing_values.
  rewrite (scan_missing_columns_ok _ _ Hcols Hwf Hnd).
  pose proof (merge_named_undocumented overrides cols Hnd) as Hmerge.
  pose proof (apply_new_values_ok overrides (filter undocumented cols)
                metadata cols Hcols (forallb_is_column_has_name _ Hwf)) as Happly.
  pose proof (fold_assign overrides (filter undocumented cols) cols []) as Hfold.
  rewrite map_merge_named_nil, Hmerge in Hfold. rewrite Hfold in Happly.
  apply existsb_filter_nonempty in Hsome.
  destruct (filter undocumented cols) as [| u us] eqn:Hund; [congruence |].
  cbn [built map] in *. rewrite Hopen, Hload. m_step. rewrite Happly.
  rewrite (columns_of_table _ (map (merge_column overrides) cols))
    by now apply (table_columns_with _ cols).
  m_step.
  destruct (glue_update_table E database_name
              (table_input_of table_name
                 (VList (map (merge_column overrides) cols)))); reflexivity.
Qed.

(** X6. On a document of the data model with an undocumented column and a
    readable override object, merge opens the override file, sends one
    update request with the table name and all the merged columns, and then
    either prints its success line and returns the merged document itself,
    or, when [update_table] raises, lets that exception through without the
    success line. Either way the document has been merged in place. *)
Theorem merge_updates_then_returns_or_raises (E : env) (glue_client : client)
    (database_name table_name : string) (metadata : pyval)
    (cols : list pyval) (overrides : pydict) :
  table_columns metadata = Some cols ->
  forallb is_column cols = true ->
  NoDup (map col_name cols) ->
  existsb undocumented cols = true ->
  fs_open E "new_values.json" "r" = None ->
  fs_load E "new_values.json" = Ret (VDict overrides) ->
  let merged := map (merge_column overrides) cols in
  let metadata' := with_columns metadata merged in
  let table_input := table_input_of table_name (VList merged) in
  let run :=
    add_update_missing_values E glue_client database_name table_name metadata in
  fst run = metadata' /\
  (glue_update_table E database_name table_input = None ->
   snd run
   = ([EvOpen "new_values.json" "r"; EvJsonLoad "new_values.json";
       EvUpdateTable database_name table_input;
       EvPrint "********** Missing column values updated successfully! **********"],
      Ret metadata')) /\
  (forall e,
      glue_update_table E database_name table_input = Some e ->
      snd run
      = ([EvOpen "new_values.json" "r"; EvJsonLoad "new_values.json";
          EvUpdateTable database_name table_input],
         Raise e)).
Proof.
  intros Hcols Hwf Hnd Hsome Hopen Hload merged metadata' table_input run.
  subst run.
  rewrite (merge_run E glue_client database_name table_name metadata cols
             overrides Hcols Hwf Hnd Hsome Hopen Hload).
  fold merged. fold metadata'. fold table_input. cbn [fst snd].
  split; [reflexivity |]. split.
  - intros ->. reflexivity.
  - intros e ->. reflexivity.
Qed.

(** A world where the catalog refuses every update. *)
Lemma merge_updates_then_returns_or_raises_witness :
  let E := mkEnv (fun _ => None)
                 (fun _ _ _ => Ret (VDict [(VStr "Table", orders_table)]))
                 (fun _ _ => Some (Exn (OtherError "ConcurrentModificationException")
                                       "Update table failed"))
                 (fun _ _ => None)
                 (fun _ => Ret (VDict sample_overrides))
                 (fun _ _ => None) in
  table_columns orders_table = Some orders_columns /\
  forallb is_column orders_columns = true /\
  NoDup (map col_name orders_columns) /\
  existsb undocumented orders_columns = true /\
  outcome (snd (add_update_missing_values E GlueClient "sales" "orders"
                                          orders_table))
  = Raise (Exn (OtherError "ConcurrentModificationException")
               "Update table failed") /\
  table_columns (fst (add_update_missing_values E GlueClient "sales" "orders"
                                                orders_table))
  = Some [sample_column "id" (Some "primary key");
          sample_column "ts" (Some "event timestamp");
          sample_column "note" (Some "")].
Proof.
  intros E.
  assert (Hnd : NoDup (map col_name orders_columns)) by distinct_names.
  split; [reflexivity |]. split; [reflexivity |]. split; [exact Hnd |].
  split; [reflexivity |].
  destruct (merge_updates_then_returns_or_raises E GlueClient "sales" "orders"
              orders_table orders_columns sample_overrides
              eq_refl eq_refl Hnd eq_refl eq_refl eq_refl)
    as (Hdoc & _ & Hfail).
  split.
  - rewrite (Hfail _ eq_refl). reflexivity.
  - rewrite Hdoc. reflexivity.
Defined.

(** X7. When the override file cannot be opened, or does not parse, merge
    on a document with an undocumented column raises that error: the
    document is left as it was and no update request is sent. *)
Theorem merge_stops_without_overrides (E : env) (glue_client : client)
    (database_name table_name : string) (metadata : pyval)
    (cols : list pyval) :
  table_columns metadata = Some cols ->
  forallb is_column cols = true ->
  NoDup (map col_name cols) ->
  existsb undocumented cols = true ->
  (forall e,
      fs_open E "new_values.json" "r" = Some e ->
      add_update_missing_values E glue_client database_name table_name metadata
      = (metadata, ([EvOpen "new_values.json" "r"], Raise e))) /\
  (forall e,
      fs_open E "new_values.json" "r" = None ->
      fs_load E "new_values.json" = Raise e ->
      add_update_missing_values E glue_client database_name table_name metadata
      = (metadata,
         ([EvOpen "new_values.json" "r"; EvJsonLoad "new_values.json"],
          Raise e))).
Proof.
  intros Hcols Hwf Hnd Hsome.
  unfold add_update_missing_values.
  rewrite (scan_missing_columns_ok _ _ Hcols Hwf Hnd).
  apply existsb_filter_nonempty in Hsome.
  destruct (filter undocumented cols) as [| u us]; [congruence |].
  cbn [built map]. split.
  - intros e ->. reflexivity.
  - intros e -> ->. reflexivity.
Qed.

Lemma merge_stops_without_overrides_witness :
  let E := mkEnv (fun _ => None)
                 (fun _ _ _ => Ret (VDict [(VStr "Table", orders_table)]))
                 (fun _ _ => None)
                 (fun _ _ => Some (Exn (OtherError "FileNotFoundError")
                                       "[Errno 2] No such file or directory: 'new_values.json'"))
                 (fun _ => Ret (VDict []))
                 (fun _ _ => None) in
  table_columns orders_table = Some orders_columns /\
  forallb is_column orders_columns = true /\
  NoDup (map col_name orders_columns) /\
  existsb undocumented orders_columns = true /\
  add_update_missing_values E GlueClient "sales" "orders" orders_table
  = (orders_table,
     ([EvOpen "new_values.json" "r"],
      Raise (Exn (OtherError "FileNotFoundError")
                 "[Errno 2] No such file or directory: 'new_values.json'"))).
Proof.
  intros E.
  assert (Hnd : NoDup (map col_name orders_columns)) by distinct_names.
  split; [reflexivity |]. split; [reflexivity |]. split; [exact Hnd |].
  split; [reflexivity |].
  exact (proj1 (merge_stops_without_overrides E GlueClient "sales" "orders"
                  orders_table orders_columns eq_refl eq_refl Hnd eq_refl)
               _ eq_refl).
Defined.

(** X8. Whatever the document and the world, merge sends at most one
    update request, and never before it has opened and loaded the override
    file: a trace with an update request starts with these three events. *)
Theorem merge_updates_at_most_once (E : env) (glue_client : client)
    (database_name table_name : string) (metadata : pyval) :
  let events :=
    trace (snd (add_update_missing_values E glue_client database_name
                                          table_name metadata)) in
  (List.length (filter is_update events) <= 1)%nat /\
  forall database table_input,
    In (EvUpdateTable database table_input) events ->
    exists rest,
      events = EvOpen "new_values.json" "r" :: EvJsonLoad "new_values.json"
               :: EvUpdateTable database table_input :: rest /\
      filter is_update rest = [].
Proof.
  intros events. subst events. unfold add_update_missing_values.
  destruct (scan_missing_columns metadata) as [[| m ms] | e];
    cbn [fst snd]; m_step.
  - split; [cbn; lia |]. intros ? ? [H | []]. discriminate.
  - destruct (fs_open E "new_values.json" "r") as [e |]; m_step.
    { split; [cbn; lia |]. intros ? ? [H | []]. discriminate. }
    destruct (fs_load E "new_values.json") as [new_values | e]; m_step.
    2:{ split; [cbn; lia |]. intros ? ? [H | [H | []]]; discriminate. }
    destruct (apply_new_values new_values (m :: ms) metadata) as [metadata' r].
    cbn [fst snd].
    destruct r as [[] | e]; m_step.
    2:{ split; [cbn; lia |]. intros ? ? [H | [H | []]]; discriminate. }
    destruct (columns_of metadata') as [columns | e]; m_step.
    2:{ split; [cbn; lia |]. intros ? ? [H | [H | []]]; discriminate. }
    destruct (glue_update_table E database_name
                (table_input_of table_name columns)); m_step;
      (split; [cbn; lia |]); intros database table_input; cbn [In];
      intros H; decompose [or] H; try discriminate; try contradiction;
      match goal with
      | Hu : EvUpdateTable _ _ = EvUpdateTable _ _ |- _ =>
          inversion Hu; subst; eexists; split; reflexivity
      end.
  - split; [cbn; lia |]. intros ? ? [].
Qed.

Lemma merge_updates_at_most_once_witness :
  In (EvUpdateTable "sales"
        (table_input_of "orders"
           (VList [sample_column "id" (Some "primary key");
                   sample_column "ts" (Some "event timestamp");
                   sample_column "note" (Some "")])))
     (trace (snd (add_update_missing_values
                    (friendly_world orders_table sample_overrides) GlueClient
                    "sales" "orders" orders_table))) /\
  exists rest,
    trace (snd (add_update_missing_values
                  (friendly_world orders_table sample_overrides) GlueClient
                  "sales" "orders" orders_table))
    = EvOpen "new_values.json" "r" :: EvJsonLoad "new_values.json"
      :: EvUpdateTable "sales"
           (table_input_of "orders"
              (VList [sample_column "id" (Some "primary key");
                      sample_column "ts" (Some "event timestamp");
                      sample_column "note" (Some "")]))
      :: rest /\
    filter is_update rest = [].
Proof.
  assert (Hin :
    In (EvUpdateTable "sales"
          (table_input_of "orders"
             (VList [sample_column "id" (Some "primary key");
                     sample_column "ts" (Some "event timestamp");
                     sample_column "note" (Some "")])))
       (trace (snd (add_update_missing_values
                      (friendly_world orders_table sample_overrides) GlueClient
                      "sales" "orders" orders_table)))).
  { cbn. tauto. }
  split; [exact Hin |].
  exact (proj2 (merge_updates_at_most_once
                  (friendly_world orders_table sample_overrides) GlueClient
                  "sales" "orders" orders_table) _ _ Hin).
Defined.

(** ** What merge leaves alone *)

Lemma same_outside_columns_refl (metadata : pyval) :
  same_outside_columns metadata metadata.
Proof.
  split; [reflexivity |]. intros descriptor H. now exists descriptor.
Qed.

Lemma same_outside_columns_trans (m1 m2 m3 : pyval) :
  same_outside_columns m1 m2 -> same_outside_columns m2 m3 ->
  same_outside_columns m1 m3.
Proof.
  intros [H12 D12] [H23 D23]. split.
  - intros key Hkey. now rewrite H23, H12.
  - intros d1 Hd1. destruct (D12 d1 Hd1) as (d2 & Hd2 & F12).
    destruct (D23 d2 Hd2) as (d3 & Hd3 & F23).
    exists d3. split; [assumption |].
    intros key Hkey. now rewrite F23, F12.
Qed.

Lemma with_columns_outside (metadata : pyval) (cols : list pyval) :
  same_outside_columns metadata (with_columns metadata cols).
Proof.
  destruct metadata as [| | | | | | top |];
    try apply same_outside_columns_refl.
  cbn [with_columns].
  destruct (dict_lookup (VStr "StorageDescriptor") top)
    as [[| | | | | | descriptor |] |] eqn:Hsd;
    try apply same_outside_columns_refl.
  destruct (dict_lookup (VStr "Columns") descriptor)
    as [[| | | | | old | |] |] eqn:Hc;
    try apply same_outside_columns_refl.
  split.
  - intros key Hkey. cbn [field]. rewrite dict_lookup_set, py_eqb_str.
    destruct (String.eqb "StorageDescriptor" key) eqn:Heq; [| reflexivity].
    apply String.eqb_eq in Heq. congruence.
  - intros d Hd. cbn [field] in Hd. rewrite Hsd in Hd. inversion Hd; subst d.
    eexists. split.
    + cbn [field]. now rewrite dict_lookup_set, py_eqb_str_refl.
    + intros key Hkey. cbn [field]. rewrite dict_lookup_set, py_eqb_str.
      destruct (String.eqb "Columns" key) eqn:Heq; [| reflexivity].
      apply String.eqb_eq in Heq. congruence.
Qed.

Lemma same_but_comment_refl (c : pyval) : same_but_comment c c.
Proof. intros key _. reflexivity. Qed.

Lemma same_but_comment_store (c v c' : pyval) :
  py_store c (VStr "Comment") v = Ret c' -> same_but_comment c c'.
Proof.
  destruct c as [| | | | | | fields |]; try discriminate.
  cbn [py_store py_setitem hashable rbind]. intros H. inversion H; subst.
  intros key Hkey. cbn [field]. rewrite dict_lookup_set, py_eqb_str.
  destruct (String.eqb "Comment" key) eqn:Heq; [| reflexivity].
  apply String.eqb_eq in Heq. congruence.
Qed.

Lemma Forall2_same_refl (cols : list pyval) : Forall2 same_but_comment cols cols.
Proof.
  induction cols; constructor; [apply same_but_comment_refl | assumption].
Qed.

Lemma Forall2_same_trans (l1 l2 l3 : list pyval) :
  Forall2 same_but_comment l1 l2 -> Forall2 same_but_comment l2 l3 ->
  Forall2 same_but_comment l1 l3.
Proof.
  intros H12. revert l3.
  induction H12 as [| a b l1 l2 Hab _ IH]; intros l3 H23.
  - inversion H23. constructor.
  - inversion H23 as [| b' c l2' l3' Hbc Hrest]; subst.
    constructor; [| now apply IH].
    intros key Hkey. now rewrite Hbc, Hab.
Qed.

(** The loop at lines 198-200 on any list of objects, whether it ends or
    raises. *)
Lemma set_comments_frame (column v : pyval) (cols : list pyval) :
  Forall2 same_but_comment cols (fst (set_comments column v cols)).
Proof.
  induction cols as [| c cols IH]; cbn [set_comments].
  - constructor.
  - destruct (py_getitem c (VStr "Name")) as [name |]; cbn [fst];
      [| apply Forall2_same_refl].
    destruct (py_eqb name column).
    + destruct (py_store c (VStr "Comment") v) as [c' |] eqn:Hstore;
        cbn [fst]; [| apply Forall2_same_refl].
      destruct (set_comments column v cols) as [rest' r]. cbn [fst] in *.
      constructor; [now apply (same_but_comment_store c v) | assumption].
    + destruct (set_comments column v cols) as [rest' r]. cbn [fst] in *.
      constructor; [apply same_but_comment_refl | assumption].
Qed.

Lemma apply_new_values_outside (new_values : pyval) (missing : pydict) :
  forall metadata,
    same_outside_columns metadata
      (fst (apply_new_values new_values missing metadata)).
Proof.
  induction missing as [| [column comment] missing IH]; intros metadata;
    cbn [apply_new_values].
  - apply same_outside_columns_refl.
  - match goal with
    | |- context [match ?scrutinee with Ret _ => _ | Raise _ => _ end] =>
        destruct scrutinee as [[new_comment cols] |]
    end; cbn [fst]; [| apply same_outside_columns_refl].
    destruct (set_comments column new_comment cols) as [cols' [[] |]];
      cbn [fst].
    + eapply same_outside_columns_trans;
        [apply with_columns_outside | apply IH].
    + apply with_columns_outside.
Qed.

Lemma apply_new_values_columns (new_values : pyval) (missing : pydict) :
  forall metadata cols,
    table_columns metadata = Some cols ->
    exists merged,
      table_columns (fst (apply_new_values new_values missing metadata))
      = Some merged /\
      Forall2 same_but_comment cols merged.
Proof.
  induction missing as [| [column comment] missing IH]; intros metadata cols Hcols;
    cbn [apply_new_values].
  - exists cols. split; [assumption | apply Forall2_same_refl].
  - rewrite (columns_of_table _ _ Hcols). cbn [py_iter].
    destruct (py_contains column new_values) as [present |]; cbn [rbind fst];
      [| exists cols; split; [assumption | apply Forall2_same_refl]].
    destruct (if present then py_getitem new_values column else Ret comment)
      as [new_comment |]; cbn [rbind py_iter fst];
      [| exists cols; split; [assumption | apply Forall2_same_refl]].
    pose proof (set_comments_frame column new_comment cols) as Hframe.
    destruct (set_comments column new_comment cols) as [cols' r].
    cbn [fst] in Hframe.
    assert (Hcols' : table_columns (with_columns metadata cols') = Some cols')
      by now apply (table_columns_with _ cols).
    destruct r as [[] |]; cbn [fst].
    + destruct (IH _ _ Hcols') as (merged & Hm & Hf).
      exists merged. split; [assumption |].
      now apply (Forall2_same_trans cols cols' merged).
    + now exists cols'.
Qed.

(** X9. Merge touches nothing but comments, on any document and in any
    world, whether it returns or raises: every top-level field but
    [StorageDescriptor] and every field of the storage descriptor but
    [Columns] is as before, the column list keeps its length and order, and
    every column keeps every field but [Comment]. *)
Theorem merge_touches_comments_only (E : env) (glue_client : client)
    (database_name table_name : string) (metadata : pyval) :
  let final :=
    fst (add_update_missing_values E glue_client database_name table_name
                                   metadata) in
  same_outside_columns metadata final /\
  forall cols,
    table_columns metadata = Some cols ->
    exists merged,
      table_columns final = Some merged /\
      Forall2 same_but_comment cols merged.
Proof.
  intros final. subst final. unfold add_update_missing_values.
  destruct (scan_missing_columns metadata) as [[| m ms] | e]; cbn [fst].
  - split; [apply same_outside_columns_refl |].
    intros cols Hcols. exists cols. split; [assumption | apply Forall2_same_refl].
  - destruct (fs_open E "new_values.json" "r") as [e |]; m_step.
    { split; [apply same_outside_columns_refl |].
      intros cols Hcols. exists cols.
      split; [assumption | apply Forall2_same_refl]. }
    destruct (fs_load E "new_values.json") as [new_values | e]; m_step.
    2:{ split; [apply same_outside_columns_refl |].
        intros cols Hcols. exists cols.
        split; [assumption | apply Forall2_same_refl]. }
    pose proof (apply_new_values_outside new_values (m :: ms) metadata) as Hout.
    pose proof (apply_new_values_columns new_values (m :: ms) metadata) as Hcol.
    destruct (apply_new_values new_values (m :: ms) metadata) as [metadata' r].
    cbn [fst] in *. now split.
  - split; [apply same_outside_columns_refl |].
    intros cols Hcols. exists cols. split; [assumption | apply Forall2_same_refl].
Qed.

Lemma merge_touches_comments_only_witness :
  table_columns orders_table = Some orders_columns /\
  field (fst (add_update_missing_values
                (friendly_world orders_table sample_overrides) GlueClient
                "sales" "orders" orders_table)) "CreateTime"
  = Some (VDatetime sample_created) /\
  exists merged,
    table_columns (fst (add_update_missing_values
                          (friendly_world orders_table sample_overrides)
                          GlueClient "sales" "orders" orders_table))
    = Some merged /\
    Forall2 same_but_comment orders_columns merged.
Proof.
  split; [reflexivity |].
  destruct (merge_touches_comments_only
              (friendly_world orders_table sample_overrides) GlueClient
              "sales" "orders" orders_table) as [[Hfields _] Hcols].
  split.
  - rewrite Hfields by discriminate. reflexivity.
  - apply Hcols. reflexivity.
Defined.

(** ** After the merge *)

Lemma undocumented_with_comment (c : pyval) (s : string) :
  has_name c = true ->
  undocumented (with_comment c (VStr s))
  = forallb isspace (list_ascii_of_string s).
Proof.
  intros H. unfold undocumented. rewrite field_with_comment by assumption.
  apply strip_empty.
Qed.

Lemma documented_negb_undocumented (c : pyval) :
  is_column c = true -> documented c = negb (undocumented c).
Proof.
  intros H. destruct (is_column_inv c H) as (fields & n & -> & _ & Hc).
  unfold documented, undocumented, field.
  destruct Hc as [-> | [-> | [s ->]]]; reflexivity.
Qed.

(** X10. After a merge with string overrides, a column is still
    undocumented exactly when it was undocumented before and the override
    file has no entry under its name, or one that is all whitespace; every
    column of the merged document is a column descriptor again. *)
Theorem merge_leaves_undocumented_without_override (E : env)
    (glue_client : client) (database_name table_name : string)
    (metadata : pyval) (cols : list pyval) (overrides : pydict) :
  table_columns metadata = Some cols ->
  forallb is_column cols = true ->
  NoDup (map col_name cols) ->
  string_valued overrides = true ->
  fs_open E "new_values.json" "r" = None ->
  fs_load E "new_values.json" = Ret (VDict overrides) ->
  exists merged,
    table_columns
      (fst (add_update_missing_values E glue_client database_name table_name
                                      metadata))
    = Some merged /\
    forallb is_column merged = true /\
    Forall2
      (fun c c' =>
         col_name c' = col_name c /\
         (undocumented c' = true <->
          undocumented c = true /\
          (dict_lookup (VStr (col_name c)) overrides = None \/
           exists s,
             dict_lookup (VStr (col_name c)) overrides = Some (VStr s) /\
             forallb isspace (list_ascii_of_string s) = true)))
      cols merged.
Proof.
  intros Hcols Hwf Hnd Hs Hopen Hload.
  exists (map (merge_column overrides) cols). split; [| split].
  - rewrite (merge_final_document E glue_client database_name table_name
               metadata cols overrides) by assumption.
    now apply (table_columns_with _ cols).
  - rewrite forallb_forall in *. intros c' Hc'.
    apply in_map_iff in Hc' as (c & <- & Hc).
    apply is_column_merge_column; [assumption | now apply Hwf].
  - clear Hcols Hnd. induction cols as [| c cols IH]; cbn [map]; constructor.
    + apply forallb_cons_inv in Hwf as [Hc _].
      split; [apply col_name_merge_column |].
      pose proof (is_column_has_name c Hc) as Hname.
      unfold merge_column, override_for, override_at.
      destruct (undocumented c) eqn:Hu.
      * destruct (dict_lookup (VStr (col_name c)) overrides) as [v |] eqn:Hl.
        -- destruct (string_valued_lookup _ _ _ Hs Hl) as [s ->].
           rewrite undocumented_with_comment by assumption. split.
           ++ intros Hall. split; [reflexivity |]. right. now exists s.
           ++ intros [_ [Hnone | (s' & Hsome & Hall)]]; [discriminate |].
              now inversion Hsome; subst.
        -- rewrite undocumented_with_comment by assumption. split.
           ++ intros _. split; [reflexivity | now left].
           ++ reflexivity.
      * rewrite Hu. split; [discriminate | intros [H _]; discriminate].
    + apply IH. now apply forallb_cons_inv in Hwf.
Qed.

Lemma merge_leaves_undocumented_without_override_witness :
  table_columns orders_table = Some orders_columns /\
  forallb is_column orders_columns = true /\
  NoDup (map col_name orders_columns) /\
  string_valued sample_overrides = true /\
  fs_open (friendly_world orders_table sample_overrides) "new_values.json" "r"
  = None /\
  fs_load (friendly_world orders_table sample_overrides) "new_values.json"
  = Ret (VDict sample_overrides) /\
  exists merged,
    table_columns
      (fst (add_update_missing_values
              (friendly_world orders_table sample_overrides) GlueClient
              "sales" "orders" orders_table))
    = Some merged /\
    forallb is_column merged = true.
Proof.
  assert (Hnd : NoDup (map col_name orders_columns)) by distinct_names.
  split; [reflexivity |]. split; [reflexivity |]. split; [exact Hnd |].
  split; [reflexivity |]. split; [reflexivity |]. split; [reflexivity |].
  destruct (merge_leaves_undocumented_without_override
              (friendly_world orders_table sample_overrides) GlueClient
              "sales" "orders" orders_table orders_columns sample_overrides
              eq_refl eq_refl Hnd eq_refl eq_refl eq_refl)
    as (merged & Hm & Hwf & _).
  now exists merged.
Defined.

(** X11. Once a merge has given every undocumented column a comment that
    is not blank, a second merge of the document finds nothing to do: it
    prints its one line, returns [{}], opens no file and sends no update,
    in any world. *)
Theorem second_merge_finds_nothing (E1 E2 : env) (glue_client : client)
    (database_name table_name : string) (metadata : pyval)
    (cols : list pyval) (overrides : pydict) :
  table_columns metadata = Some cols ->
  forallb is_column cols = true ->
  NoDup (map col_name cols) ->
  fs_open E1 "new_values.json" "r" = None ->
  fs_load E1 "new_values.json" = Ret (VDict overrides) ->
  (forall c, In c cols -> undocumented c = true ->
             exists s,
               dict_lookup (VStr (col_name c)) overrides = Some (VStr s) /\
               forallb isspace (list_ascii_of_string s) = false) ->
  let once :=
    fst (add_update_missing_values E1 glue_client database_name table_name
                                   metadata) in
  add_update_missing_values E2 glue_client database_name table_name once
  = (once,
     ([EvPrint "***** No missing columns with empty 'Comment' found. *****"],
      Ret (VDict []))).
Proof.
  intros Hcols Hwf Hnd Hopen Hload Hall once. subst once.
  rewrite (merge_final_document E1 glue_client database_name table_name
             metadata cols overrides) by assumption.
  set (merged := map (merge_column overrides) cols).
  assert (Hm : table_columns (with_columns metadata merged) = Some merged)
    by now apply (table_columns_with _ cols).
  assert (Hdoc : forallb documented merged = true).
  { subst merged. rewrite forallb_forall in *. intros c' Hc'.
    apply in_map_iff in Hc' as (c & <- & Hc).
    pose proof (Hwf c Hc) as Hcol.
    unfold merge_column, override_for, override_at.
    destruct (undocumented c) eqn:Hu.
    - destruct (Hall c Hc Hu) as (s & -> & Hs).
      unfold documented.
      rewrite field_with_comment by now apply is_column_has_name.
      now rewrite strip_empty, Hs.
    - now rewrite documented_negb_undocumented, Hu. }
  unfold add_update_missing_values, scan_missing_columns.
  rewrite (columns_of_table _ _ Hm). cbn [rbind py_iter].
  now rewrite scan_documented.
Qed.

Lemma second_merge_finds_nothing_witness :
  let overrides := [(VStr "ts", VStr "event timestamp");
                    (VStr "note", VStr "free text")] in
  table_columns orders_table = Some orders_columns /\
  forallb is_column orders_columns = true /\
  NoDup (map col_name orders_columns) /\
  (forall c, In c orders_columns -> undocumented c = true ->
             exists s,
               dict_lookup (VStr (col_name c)) overrides = Some (VStr s) /\
               forallb isspace (list_ascii_of_string s) = false) /\
  outcome (snd (add_update_missing_values
                  world_without_table GlueClient "sales" "orders"
                  (fst (add_update_missing_values
                          (friendly_world orders_table overrides) GlueClient
                          "sales" "orders" orders_table))))
  = Ret (VDict []).
Proof.
  intros overrides.
  assert (Hnd : NoDup (map col_name orders_columns)) by distinct_names.
  assert (Hall : forall c, In c orders_columns -> undocumented c = true ->
             exists s,
               dict_lookup (VStr (col_name c)) overrides = Some (VStr s) /\
               forallb isspace (list_ascii_of_string s) = false).
  { intros c [<- | [<- | [<- | []]]] Hu.
    - discriminate Hu.
    - now exists "event timestamp".
    - now exists "free text". }
  split; [reflexivity |]. split; [reflexivity |]. split; [exact Hnd |].
  split; [exact Hall |].
  rewrite (second_merge_finds_nothing
             (friendly_world orders_table overrides) world_without_table
             GlueClient "sales" "orders" orders_table orders_columns overrides
             eq_refl eq_refl Hnd eq_refl eq_refl Hall).
  reflexivity.
Defined.

(** ** What each function emits *)

Lemma writer_events (E : env) (metadata missing_values : pyval)
    (file : string) (ev : event) :
  In ev (trace (write_metadata_and_missing_values E metadata missing_values file)) ->
  ev = EvSnapshot file \/ ev = EvOpen file "w" \/
  (exists doc, ev = EvJsonDump file doc) \/ (exists line, ev = EvPrint line).
Proof.
  destruct (writer_runs E metadata missing_values file)
    as [(t & d & _ & _ & ->) | [(e & ->) | (e & ->)]];
    cbn [trace fst In]; unfold writing_warning; intros H;
    decompose [or] H; subst; try contradiction; eauto 6.
Qed.

Lemma writer_returns (E : env) (metadata missing_values : pyval)
    (file : string) :
  outcome (write_metadata_and_missing_values E metadata missing_values file)
  = Ret VNone.
Proof.
  destruct (writer_runs E metadata missing_values file)
    as [(t & d & _ & _ & ->) | [(e & ->) | (e & ->)]]; reflexivity.
Qed.

Lemma merge_events (E : env) (glue_client : client)
    (database_name table_name : string) (metadata : pyval) (ev : event) :
  In ev (trace (snd (add_update_missing_values E glue_client database_name
                                               table_name metadata))) ->
  ev = EvOpen "new_values.json" "r" \/ ev = EvJsonLoad "new_values.json" \/
  (exists table_input, ev = EvUpdateTable database_name table_input) \/
  (exists line, ev = EvPrint line).
Proof.
  unfold add_update_missing_values.
  destruct (scan_missing_columns metadata) as [[| m ms] | e];
    cbn [fst snd]; m_step.
  - intros [H | []]. subst. eauto 6.
  - destruct (fs_open E "new_values.json" "r") as [e |]; m_step.
    { intros [H | []]. subst. eauto. }
    destruct (fs_load E "new_values.json") as [new_values | e]; m_step.
    2:{ intros [H | [H | []]]; subst; eauto. }
    destruct (apply_new_values new_values (m :: ms) metadata) as [metadata' r].
    cbn [fst snd].
    destruct r as [[] | e]; m_step.
    2:{ intros [H | [H | []]]; subst; eauto. }
    destruct (columns_of metadata') as [columns | e]; m_step.
    2:{ intros [H | [H | []]]; subst; eauto. }
    destruct (glue_update_table E database_name
                (table_input_of table_name columns)); m_step; cbn [In];
      intros H; decompose [or] H; subst; try contradiction; eauto 6.
  - intros [].
Qed.

Lemma fetch_events (E : env) (cfg : config) (database_name table_name : string)
    (ev : event) :
  In ev (trace (get_table_metadata E cfg database_name table_name)) ->
  ev = EvLogin "glue" \/
  ev = EvGetTable (DATABASE_NAME cfg) (TABLE_NAME cfg) (CATALOG_ID cfg) \/
  ev = EvSnapshot "default_metadata.json" \/
  ev = EvOpen "default_metadata.json" "w" \/
  (exists doc, ev = EvJsonDump "default_metadata.json" doc) \/
  (exists line, ev = EvPrint line).
Proof.
  unfold get_table_metadata, login_to_aws_glue, get_aws_token.
  destruct (aws_client E "glue"); m_step.
  { intros [H | []]. subst. eauto. }
  destruct (glue_get_table E (DATABASE_NAME cfg) (TABLE_NAME cfg)
                           (CATALOG_ID cfg)) as [response | e0]; m_step.
  - destruct (py_getitem response (VStr "Table")) as [metadata | e1]; m_step.
    + destruct metadata as [| | | | | | items |]; cbn [py_items]; m_step;
        cbn [exn_cls no_attribute]; m_step.
      7:{ destruct (writer_runs E (VDict items) (VList (null_fields items))
                      "default_metadata.json")
            as [(t & d & _ & _ & ->) | [(e & ->) | (e & ->)]];
            m_step; unfold writing_warning; cbn [In]; intros H;
            decompose [or] H; subst; try contradiction; eauto 8. }
      all: cbn [In]; intros H; decompose [or] H; subst;
        try contradiction; eauto 8.
    + destruct (exn_cls e1); m_step; cbn [In]; intros H;
        decompose [or] H; subst; try contradiction; eauto 8.
  - destruct (exn_cls e0); m_step; cbn [In]; intros H;
      decompose [or] H; subst; try contradiction; eauto 8.
Qed.

(** The run of [main]: the events of its steps, then at most one logged
    exception. *)
Lemma main_shape (E : env) (cfg : config) :
  exists steps,
    (trace (main E cfg) = steps \/
     exists message, trace (main E cfg) = (steps ++ [EvLogException message])%list)
    /\
    outcome (main E cfg) = Ret tt /\
    forall ev, In ev steps ->
      ev = EvLogin "s3" \/ ev = EvLogin "glue" \/
      In ev (trace (get_table_metadata E cfg (DATABASE_NAME cfg)
                                       (TABLE_NAME cfg))) \/
      (exists metadata,
          In ev (trace (snd (add_update_missing_values
                               E GlueClient (DATABASE_NAME cfg)
                               (TABLE_NAME cfg) metadata)))) \/
      (exists metadata missing_values,
          In ev (trace (write_metadata_and_missing_values
                          E metadata missing_values "updated_metadata.json"))).
Proof.
  unfold main, login_to_aws_s3, login_to_aws_glue, get_aws_token.
  destruct (aws_client E "s3"); m_step.
  { exists [EvLogin "s3"]. split; [right; eexists; reflexivity |]. split; [reflexivity |].
    intros ev [<- | []]. now left. }
  destruct (aws_client E "glue"); m_step.
  { exists [EvLogin "s3"; EvLogin "glue"].
    split; [right; eexists; reflexivity |]. split; [reflexivity |].
    intros ev [<- | [<- | []]]; tauto. }
  destruct (get_table_metadata E cfg (DATABASE_NAME cfg) (TABLE_NAME cfg))
    as [t1 [metadata | e1]] eqn:Hfetch; m_step.
  2:{ exists (EvLogin "s3" :: EvLogin "glue" :: t1).
      split; [right; eexists; reflexivity |]. split; [reflexivity |].
      intros ev [<- | [<- | H]]; tauto. }
  destruct (add_update_missing_values E GlueClient (DATABASE_NAME cfg)
              (TABLE_NAME cfg) metadata) as [final [t2 [returned | e2]]]
    eqn:Hrun; cbn [snd]; m_step.
  2:{ exists (EvLogin "s3" :: EvLogin "glue" :: t1 ++ t2)%list.
      split; [right; exists ("An error occurred: " ++ exn_msg e2);
              reflexivity |].
      split; [reflexivity |].
      intros ev [<- | [<- | H]]; [tauto | tauto |].
      apply in_app_or in H as [H | H]; [tauto |].
      right; right; right; left. exists metadata. now rewrite Hrun. }
  destruct (py_get returned (VStr "missing_columns") (VDict []))
    as [missing_values | e3]; m_step.
  2:{ exists (EvLogin "s3" :: EvLogin "glue" :: t1 ++ t2)%list.
      split; [right; exists ("An error occurred: " ++ exn_msg e3);
              cbn [app]; rewrite ?app_nil_r; reflexivity |].
      split; [reflexivity |].
      intros ev [<- | [<- | H]]; [tauto | tauto |].
      apply in_app_or in H as [H | H]; [tauto |].
      right; right; right; left. exists metadata. now rewrite Hrun. }
  pose proof (writer_returns E returned missing_values "updated_metadata.json")
    as Hret.
  destruct (write_metadata_and_missing_values E returned missing_values
              "updated_metadata.json") as [t3 r3] eqn:Hwrite.
  cbn [outcome snd] in Hret. subst r3. m_step.
  exists (EvLogin "s3" :: EvLogin "glue" :: t1 ++ t2 ++ t3)%list.
  split; [left; cbn [app]; rewrite ?app_nil_r; reflexivity |].
  split; [reflexivity |].
  intros ev [<- | [<- | H]]; [tauto | tauto |].
  apply in_app_or in H as [H | H]; [tauto |].
  apply in_app_or in H as [H | H].
  - right; right; right; left. exists metadata. now rewrite Hrun.
  - right; right; right; right. exists returned, missing_values.
    now rewrite Hwrite.
Qed.

(** ** The whole run *)

Lemma filter_none {A} (p : A -> bool) (xs : list A) :
  (forall x, In x xs -> p x = false) -> filter p xs = [].
Proof.
  induction xs as [| x xs IH]; intros H; cbn [filter]; [reflexivity |].
  rewrite (H x) by now left. apply IH. intros y Hy. apply H. now right.
Qed.

Lemma main_steps_are_no_log (E : env) (cfg : config) (ev : event) :
  ev = EvLogin "s3" \/ ev = EvLogin "glue" \/
  In ev (trace (get_table_metadata E cfg (DATABASE_NAME cfg) (TABLE_NAME cfg))) \/
  (exists metadata,
      In ev (trace (snd (add_update_missing_values
                           E GlueClient (DATABASE_NAME cfg)
                           (TABLE_NAME cfg) metadata)))) \/
  (exists metadata missing_values,
      In ev (trace (write_metadata_and_missing_values
                      E metadata missing_values "updated_metadata.json"))) ->
  is_log_exception ev = false /\ within_footprint cfg ev.
Proof.
  intros [-> | [-> | [H | [(metadata & H) | (metadata & mv & H)]]]].
  - split; [reflexivity | now left].
  - split; [reflexivity | now right].
  - apply fetch_events in H.
    destruct H as [-> | [-> | [-> | [-> | [(doc & ->) | (line & ->)]]]]];
      cbn; tauto.
  - apply merge_events in H.
    destruct H as [-> | [-> | [(ti & ->) | (line & ->)]]]; cbn; tauto.
  - apply writer_events in H.
    destruct H as [-> | [-> | [(doc & ->) | (line & ->)]]]; cbn; tauto.
Qed.

(** X12. [main] never raises. Whatever the world does, it returns, and it
    logs at most one exception, as the last thing it does. *)
Theorem main_catches_everything (E : env) (cfg : config) :
  outcome (main E cfg) = Ret tt /\
  (List.length (filter is_log_exception (trace (main E cfg))) <= 1)%nat /\
  forall message,
    In (EvLogException message) (trace (main E cfg)) ->
    exists steps,
      trace (main E cfg) = (steps ++ [EvLogException message])%list /\
      filter is_log_exception steps = [].
Proof.
  destruct (main_shape E cfg) as (steps & Htrace & Hout & Hsteps).
  assert (Hquiet : filter is_log_exception steps = []).
  { apply filter_none. intros ev Hev.
    now apply (main_steps_are_no_log E cfg ev), Hsteps. }
  split; [exact Hout |].
  destruct Htrace as [-> | (message & ->)].
  - rewrite Hquiet. split; [cbn; lia |].
    intros message Hin. exfalso.
    assert (Hm : In (EvLogException message) (filter is_log_exception steps))
      by (apply filter_In; now split).
    rewrite Hquiet in Hm. contradiction.
  - rewrite filter_app, Hquiet. split; [cbn; lia |].
    intros message' Hin. apply in_app_or in Hin as [Hin | [Hin | []]].
    + exfalso.
      assert (Hm : In (EvLogException message')
                      (filter is_log_exception steps))
        by (apply filter_In; now split).
      rewrite Hquiet in Hm. contradiction.
    + inversion Hin; subst. now exists steps.
Qed.

Lemma main_catches_everything_witness :
  In (EvLogException "An error occurred: 'NoneType' object is not subscriptable")
     (trace (main world_without_table sample_config)) /\
  exists steps,
    trace (main world_without_table sample_config)
    = (steps ++ [EvLogException
                   "An error occurred: 'NoneType' object is not subscriptable"])%list
    /\ filter is_log_exception steps = [].
Proof.
  assert (Hin :
    In (EvLogException "An error occurred: 'NoneType' object is not subscriptable")
       (trace (main world_without_table sample_config))).
  { cbn. tauto. }
  split; [exact Hin |].
  exact (proj2 (proj2 (main_catches_everything world_without_table
                         sample_config)) _ Hin).
Defined.

(** X13. What a run touches: [main] logs in to S3 and Glue only, fetches
    the configured table only, sends updates to the configured database
    only, writes "default_metadata.json" and "updated_metadata.json" and no
    other file, and reads "new_values.json" and no other file. *)
Theorem main_stays_within_its_footprint (E : env) (cfg : config) (ev : event) :
  In ev (trace (main E cfg)) -> within_footprint cfg ev.
Proof.
  destruct (main_shape E cfg) as (steps & Htrace & _ & Hsteps).
  destruct Htrace as [-> | (message & ->)].
  - intros Hin. now apply (main_steps_are_no_log E cfg ev), Hsteps.
  - intros Hin. apply in_app_or in Hin as [Hin | [<- | []]].
    + now apply (main_steps_are_no_log E cfg ev), Hsteps.
    + exact I.
Qed.

Lemma main_stays_within_its_footprint_witness :
  In (EvOpen "new_values.json" "r")
     (trace (main (friendly_world orders_table sample_overrides) sample_config))
  /\
  within_footprint sample_config (EvOpen "new_values.json" "r").
Proof.
  assert (Hin :
    In (EvOpen "new_values.json" "r")
       (trace (main (friendly_world orders_table sample_overrides)
                    sample_config))).
  { cbn. tauto. }
  split; [exact Hin |].
  exact (main_stays_within_its_footprint _ _ _ Hin).
Defined.

(** X14. A client that cannot be made stops the run before anything else.
    Each login function raises a [ConnectionError] made from its own text
    and the text of the error of boto3; as [ConnectionError] is an
    [OSError], its message reads "[Errno <text>] <error>". When the S3
    login fails, [main] logs that message and does nothing more, although
    the S3 client is never used; when the Glue login fails, the table is
    never fetched; and [get_table_metadata] itself raises the
    [ConnectionError] of its own login instead of returning [None]. *)
Theorem login_failure_stops_the_run (E : env) (cfg : config) :
  (forall err,
      aws_client E "s3" = Some err ->
      login_to_aws_s3 E
      = ([EvLogin "s3"],
         Raise (Exn ConnectionError
                    ("[Errno Error connecting to AWS S3 Bucket : ] " ++ err)))
      /\
      main E cfg
      = ([EvLogin "s3";
          EvLogException
            ("An error occurred: [Errno Error connecting to AWS S3 Bucket : ] "
             ++ err)],
         Ret tt)) /\
  (forall err,
      aws_client E "glue" = Some err ->
      login_to_aws_glue E
      = ([EvLogin "glue"],
         Raise (Exn ConnectionError
                    ("[Errno Error connecting to AWS Glue : ] " ++ err)))) /\
  (forall err,
      aws_client E "s3" = None ->
      aws_client E "glue" = Some err ->
      main E cfg
      = ([EvLogin "s3"; EvLogin "glue";
          EvLogException
            ("An error occurred: [Errno Error connecting to AWS Glue : ] "
             ++ err)],
         Ret tt)) /\
  (forall err database_name table_name,
      aws_client E "glue" = Some err ->
      get_table_metadata E cfg database_name table_name
      = ([EvLogin "glue"],
         Raise (Exn ConnectionError
                    ("[Errno Error connecting to AWS Glue : ] " ++ err)))).
Proof.
  split; [| split; [| split]].
  - intros err H. split.
    + unfold login_to_aws_s3. now rewrite H.
    + unfold main, login_to_aws_s3, get_aws_token. now rewrite H.
  - intros err H. unfold login_to_aws_glue. now rewrite H.
  - intros err Hs3 Hglue.
    unfold main, login_to_aws_s3, login_to_aws_glue, get_aws_token.
    now rewrite Hs3, Hglue.
  - intros err database_name table_name H.
    unfold get_table_metadata, login_to_aws_glue. now rewrite H.
Qed.

Lemma login_failure_stops_the_run_witness :
  let E := mkEnv (fun service =>
                    if String.eqb service "s3"
                    then Some "The config profile (fpac) could not be found"
                    else None)
                 (fun _ _ _ => Ret (VDict [(VStr "Table", orders_table)]))
                 (fun _ _ => None) (fun _ _ => None)
                 (fun _ => Ret (VDict [])) (fun _ _ => None) in
  aws_client E "s3" = Some "The config profile (fpac) could not be found" /\
  main E sample_config
  = ([EvLogin "s3";
      EvLogException
        "An error occurred: [Errno Error connecting to AWS S3 Bucket : ] The config profile (fpac) could not be found"],
     Ret tt).
Proof.
  intros E. split; [reflexivity |].
  exact (proj2 (proj1 (login_failure_stops_the_run E sample_config)
                      _ eq_refl)).
Defined.

(** X15. [get_table_metadata] does not use its two arguments: the
    database and the table it fetches are those of the configuration, which
    line 97 puts in their place. *)
Theorem fetch_ignores_its_arguments (E : env) (cfg : config)
    (database1 table1 database2 table2 : string) :
  get_table_metadata E cfg database1 table1
  = get_table_metadata E cfg database2 table2 /\
  forall database table catalog,
    In (EvGetTable database table catalog)
       (trace (get_table_metadata E cfg database1 table1)) ->
    database = DATABASE_NAME cfg /\ table = TABLE_NAME cfg /\
    catalog = CATALOG_ID cfg.
Proof.
  split; [reflexivity |].
  intros database table catalog H. apply fetch_events in H.
  destruct H as [H | [H | [H | [H | [(doc & H) | (line & H)]]]]];
    try discriminate.
  inversion H. tauto.
Qed.

Lemma fetch_ignores_its_arguments_witness :
  In (EvGetTable "sales" "orders" "123456789012")
     (trace (get_table_metadata (friendly_world orders_table sample_overrides)
                                sample_config "other_db" "other_table")) /\
  "sales" = DATABASE_NAME sample_config.
Proof.
  assert (Hin :
    In (EvGetTable "sales" "orders" "123456789012")
       (trace (get_table_metadata
                 (friendly_world orders_table sample_overrides)
                 sample_config "other_db" "other_table"))).
  { cbn. tauto. }
  split; [exact Hin |].
  exact (proj1 (proj2 (fetch_ignores_its_arguments
                         (friendly_world orders_table sample_overrides)
                         sample_config "other_db" "other_table" "" "")
                      _ _ _ Hin)).
Defined.

(** ** The steps of a run that goes well *)

Lemma fetch_success (E : env) (cfg : config) (database_name table_name : string)
    (response : pyval) (items : pydict) :
  aws_client E "glue" = None ->
  glue_get_table E (DATABASE_NAME cfg) (TABLE_NAME cfg) (CATALOG_ID cfg)
  = Ret response ->
  py_getitem response (VStr "Table") = Ret (VDict items) ->
  get_table_metadata E cfg database_name table_name
  = ((EvLogin "glue"
      :: EvGetTable (DATABASE_NAME cfg) (TABLE_NAME cfg) (CATALOG_ID cfg)
      :: trace (write_metadata_and_missing_values
                  E (VDict items) (VList (null_fields items))
                  "default_metadata.json")),
     Ret (VDict items)).
Proof.
  intros Hlogin Hfetch Htable.
  unfold get_table_metadata, login_to_aws_glue, get_aws_token.
  rewrite Hlogin. m_step. rewrite Hfetch. m_step. rewrite Htable. m_step.
  cbn [py_items]. m_step.
  destruct (writer_runs E (VDict items) (VList (null_fields items))
              "default_metadata.json")
    as [(t & d & _ & _ & ->) | [(e & ->) | (e & ->)]]; reflexivity.
Qed.

Lemma encode_members_app (d1 d2 : pydict) (f1 f2 : list (string * json)) :
  encode_members d1 = Ret f1 -> encode_members d2 = Ret f2 ->
  encode_members (d1 ++ d2)%list = Ret (f1 ++ f2)%list.
Proof.
  revert f1. induction d1 as [| [k x] d1 IH]; intros f1;
    cbn [encode_members app].
  - intros H1 H2. now inversion H1; subst.
  - destruct (json_key k) as [name |]; cbn [rbind]; [| discriminate].
    destruct (json_encode x) as [j |]; cbn [rbind]; [| discriminate].
    destruct (encode_members d1) as [fs |]; cbn [rbind]; [| discriminate].
    intros H1 H2. inversion H1; subst.
    now rewrite (IH fs eq_refl H2).
Qed.

(** The tables and the document of a snapshot of the data model. *)
Lemma snapshot_document_ok (metadata : pyval) (nulls cols : list pyval) :
  table_columns metadata = Some cols ->
  forallb is_column cols = true ->
  NoDup (map col_name cols) ->
  exists tables,
    snapshot_tables metadata (VList nulls) = Ret tables /\
    json_encode (snapshot_data tables) = Ret (snapshot_document nulls cols).
Proof.
  intros Hcols Hwf Hnd. eexists. split.
  - apply (snapshot_tables_list _ _ _ Hcols Hwf Hnd).
  - unfold snapshot_data, snapshot_document. cbn [fst snd].
    rewrite json_encode_dict. cbn [encode_members json_key rbind].
    rewrite !json_encode_dict.
    rewrite (encode_members_built shown_comment). cbn [rbind].
    rewrite (encode_members_app _ _ _ _
               (encode_members_built (fun _ => "default comment missing") _)
               (encode_members_built (fun _ => "") _)).
    reflexivity.
Qed.

Lemma writer_success (E : env) (metadata : pyval) (nulls cols : list pyval)
    (file : string) :
  table_columns metadata = Some cols ->
  forallb is_column cols = true ->
  NoDup (map col_name cols) ->
  fs_open E file "w" = None ->
  fs_write E file (Ret (snapshot_document nulls cols)) = None ->
  write_metadata_and_missing_values E metadata (VList nulls) file
  = ([EvSnapshot file; EvOpen file "w";
      EvJsonDump file (snapshot_document nulls cols)],
     Ret VNone).
Proof.
  intros Hcols Hwf Hnd Hopen Hwrite.
  destruct (snapshot_document_ok metadata nulls cols Hcols Hwf Hnd)
    as (tables & Ht & Hj).
  unfold write_metadata_and_missing_values. rewrite Ht. m_step.
  rewrite Hopen. m_step. rewrite Hj, Hwrite. reflexivity.
Qed.

(** On columns of the data model the empty dictionary is as good a
    candidate set as the empty list. *)
Lemma snapshot_loop_empty_dict (cols : list pyval) :
  forallb is_column cols = true ->
  forall acc,
    for_each (snapshot_column (VDict [])) cols acc
    = for_each (snapshot_column (VList [])) cols acc.
Proof.
  induction cols as [| c cols IH]; intros Hwf acc; cbn [for_each];
    [reflexivity |].
  apply forallb_cons_inv in Hwf as [Hc Hwf]. destruct acc as [dv mc].
  rewrite !snapshot_column_ok by assumption.
  cbn [py_contains hashable dict_lookup existsb rbind]. now apply IH.
Qed.

Lemma writer_success_empty_dict (E : env) (metadata : pyval)
    (cols : list pyval) (file : string) :
  table_columns metadata = Some cols ->
  forallb is_column cols = true ->
  NoDup (map col_name cols) ->
  fs_open E file "w" = None ->
  fs_write E file (Ret (snapshot_document [] cols)) = None ->
  write_metadata_and_missing_values E metadata (VDict []) file
  = ([EvSnapshot file; EvOpen file "w";
      EvJsonDump file (snapshot_document [] cols)],
     Ret VNone).
Proof.
  intros Hcols Hwf Hnd Hopen Hwrite.
  rewrite <- (writer_success E metadata [] cols file) by assumption.
  unfold write_metadata_and_missing_values, snapshot_tables.
  destruct (table_columns_inv _ _ Hcols) as (top & sd & -> & Hsd & Hc).
  py_step. rewrite Hsd. py_step. rewrite Hc. cbn [py_iter rbind].
  now rewrite (snapshot_loop_empty_dict cols Hwf).
Qed.

Lemma py_get_field (metadata : pyval) (cols : list pyval) (key : string)
    (default : pyval) :
  table_columns metadata = Some cols ->
  py_get metadata (VStr key) default
  = Ret (match field metadata key with Some v => v | None => default end).
Proof.
  intros H. destruct (table_columns_inv _ _ H) as (top & sd & -> & _ & _).
  reflexivity.
Qed.

(** X16. A run in which every step succeeds, on a table of the data model
    with an undocumented column: the "before" snapshot of the fetched
    columns, tagged against the null top-level fields; the override file;
    one update with all the merged columns; and the "after" snapshot of the
    merged columns, in which every column that is still undocumented stands
    under the empty tag, because the candidate set of line 239 is empty. *)
Theorem main_runs_fetch_merge_update_snapshot (E : env) (cfg : config)
    (response metadata : pyval) (cols : list pyval) (overrides : pydict) :
  aws_client E "s3" = None ->
  aws_client E "glue" = None ->
  glue_get_table E (DATABASE_NAME cfg) (TABLE_NAME cfg) (CATALOG_ID cfg)
  = Ret response ->
  py_getitem response (VStr "Table") = Ret metadata ->
  table_columns metadata = Some cols ->
  forallb is_column cols = true ->
  NoDup (map col_name cols) ->
  existsb undocumented cols = true ->
  field metadata "missing_columns" = None ->
  string_valued overrides = true ->
  fs_load E "new_values.json" = Ret (VDict overrides) ->
  (forall file mode, fs_open E file mode = None) ->
  (forall file encoded, fs_write E file encoded = None) ->
  (forall database table_input,
      glue_update_table E database table_input = None) ->
  let merged := map (merge_column overrides) cols in
  main E cfg
  = ([EvLogin "s3"; EvLogin "glue"; EvLogin "glue";
      EvGetTable (DATABASE_NAME cfg) (TABLE_NAME cfg) (CATALOG_ID cfg);
      EvSnapshot "default_metadata.json"; EvOpen "default_metadata.json" "w";
      EvJsonDump "default_metadata.json"
        (snapshot_document (null_fields (top_level metadata)) cols);
      EvOpen "new_values.json" "r"; EvJsonLoad "new_values.json";
      EvUpdateTable (DATABASE_NAME cfg)
                    (table_input_of (TABLE_NAME cfg) (VList merged));
      EvPrint "********** Missing column values updated successfully! **********";
      EvSnapshot "updated_metadata.json"; EvOpen "updated_metadata.json" "w";
      EvJsonDump "updated_metadata.json" (snapshot_document [] merged)],
     Ret tt).
Proof.
  intros Hs3 Hglue Hfetch Htable Hcols Hwf Hnd Hsome Hkey Hs Hload Hopen
         Hwrite Hupdate merged.
  destruct (table_columns_inv _ _ Hcols) as (top & sd & Hmd & Hsd & Hc).
  subst metadata. cbn [top_level].
  unfold main, login_to_aws_s3, login_to_aws_glue, get_aws_token.
  rewrite Hs3, Hglue. m_step.
  rewrite (fetch_success E cfg _ _ response top Hglue Hfetch Htable).
  rewrite (writer_success E (VDict top) (null_fields top) cols
             "default_metadata.json") by auto.
  m_step.
  rewrite (merge_run E GlueClient (DATABASE_NAME cfg) (TABLE_NAME cfg)
             (VDict top) cols overrides) by auto.
  rewrite Hupdate. cbn [snd]. m_step.
  fold merged.
  assert (Hm : table_columns (with_columns (VDict top) merged) = Some merged)
    by now apply (table_columns_with _ cols).
  rewrite (py_get_field _ merged "missing_columns" (VDict []) Hm).
  rewrite (proj1 (with_columns_outside (VDict top) merged) "missing_columns")
    by discriminate.
  rewrite Hkey. m_step.
  rewrite (writer_success_empty_dict E _ merged "updated_metadata.json");
    auto.
  - subst merged. rewrite forallb_forall in *. intros c' Hc'.
    apply in_map_iff in Hc' as (c & <- & Hin).
    apply is_column_merge_column; [assumption | now apply Hwf].
  - subst merged. rewrite map_map.
    now rewrite (map_ext _ _ (col_name_merge_column overrides)).
Qed.

Lemma main_runs_fetch_merge_update_snapshot_witness :
  existsb undocumented orders_columns = true /\
  field orders_table "missing_columns" = None /\
  NoDup (map col_name orders_columns) /\
  trace (main (friendly_world orders_table sample_overrides) sample_config)
  = [EvLogin "s3"; EvLogin "glue"; EvLogin "glue";
     EvGetTable "sales" "orders" "123456789012";
     EvSnapshot "default_metadata.json"; EvOpen "default_metadata.json" "w";
     EvJsonDump "default_metadata.json"
       (snapshot_document (null_fields (top_level orders_table)) orders_columns);
     EvOpen "new_values.json" "r"; EvJsonLoad "new_values.json";
     EvUpdateTable "sales"
       (table_input_of "orders"
          (VList (map (merge_column sample_overrides) orders_columns)));
     EvPrint "********** Missing column values updated successfully! **********";
     EvSnapshot "updated_metadata.json"; EvOpen "updated_metadata.json" "w";
     EvJsonDump "updated_metadata.json"
       (snapshot_document [] (map (merge_column sample_overrides)
                                  orders_columns))].
Proof.
  assert (Hnd : NoDup (map col_name orders_columns)) by distinct_names.
  split; [reflexivity |]. split; [reflexivity |]. split; [exact Hnd |].
  rewrite (main_runs_fetch_merge_update_snapshot
             (friendly_world orders_table sample_overrides) sample_config
             (VDict [(VStr "Table", orders_table)]) orders_table
             orders_columns sample_overrides
             eq_refl eq_refl eq_refl eq_refl eq_refl eq_refl Hnd eq_refl
             eq_refl eq_refl eq_refl
             (fun _ _ => eq_refl) (fun _ _ => eq_refl) (fun _ _ => eq_refl)).
  reflexivity.
Defined.

(** ** Runs that end early *)

Lemma merge_early_exit (E : env) (glue_client : client)
    (database_name table_name : string) (metadata : pyval)
    (cols : list pyval) :
  table_columns metadata = Some cols ->
  forallb documented cols = true ->
  add_update_missing_values E glue_client database_name table_name metadata
  = (metadata,
     ([EvPrint "***** No missing columns with empty 'Comment' found. *****"],
      Ret (VDict []))).
Proof.
  intros Hcols Hdoc. unfold add_update_missing_values, scan_missing_columns.
  rewrite (columns_of_table _ _ Hcols). cbn [rbind py_iter].
  now rewrite scan_documented.
Qed.

Lemma writer_on_empty (E : env) (file : string) :
  fs_open E file "w" = None ->
  (forall encoded, fs_write E file encoded = None) ->
  write_metadata_and_missing_values E (VDict []) (VDict []) file
  = ([EvSnapshot file; EvOpen file "w";
      EvJsonDump file (JObject [("default_values", JObject []);
                                ("missing_columns", JObject [])])],
     Ret VNone).
Proof.
  intros Hopen Hwrite. unfold write_metadata_and_missing_values.
  cbn [snapshot_tables py_get hashable dict_lookup py_iter for_each map rbind
       snapshot_data fst snd].
  m_step. rewrite Hopen. m_step. rewrite Hwrite. reflexivity.
Qed.

(** X17. When every column of the fetched table is documented, the
    "after" snapshot that [main] writes holds no column at all: merge
    returned [{}], and "updated_metadata.json" is written from it with two
    empty objects. *)
Theorem after_snapshot_of_documented_table_is_empty (E : env) (cfg : config)
    (response metadata : pyval) (cols : list pyval) :
  aws_client E "s3" = None ->
  aws_client E "glue" = None ->
  glue_get_table E (DATABASE_NAME cfg) (TABLE_NAME cfg) (CATALOG_ID cfg)
  = Ret response ->
  py_getitem response (VStr "Table") = Ret metadata ->
  table_columns metadata = Some cols ->
  forallb documented cols = true ->
  fs_open E "updated_metadata.json" "w" = None ->
  (forall encoded, fs_write E "updated_metadata.json" encoded = None) ->
  exists before,
    main E cfg
    = ((before ++
        [EvPrint "***** No missing columns with empty 'Comment' found. *****";
         EvSnapshot "updated_metadata.json"; EvOpen "updated_metadata.json" "w";
         EvJsonDump "updated_metadata.json"
           (JObject [("default_values", JObject []);
                     ("missing_columns", JObject [])])])%list,
       Ret tt) /\
    ~ In (EvOpen "new_values.json" "r") before /\
    filter is_update before = [].
Proof.
  intros Hs3 Hglue Hfetch Htable Hcols Hdoc Hopen Hwrite.
  destruct (table_columns_inv _ _ Hcols) as (top & sd & Hmd & Hsd & Hc).
  subst metadata.
  exists (EvLogin "s3" :: EvLogin "glue" :: EvLogin "glue"
          :: EvGetTable (DATABASE_NAME cfg) (TABLE_NAME cfg) (CATALOG_ID cfg)
          :: trace (write_metadata_and_missing_values
                      E (VDict top) (VList (null_fields top))
                      "default_metadata.json")).
  split; [| split].
  - unfold main, login_to_aws_s3, login_to_aws_glue, get_aws_token.
    rewrite Hs3, Hglue. m_step.
    rewrite (fetch_success E cfg _ _ response top Hglue Hfetch Htable). m_step.
    rewrite (merge_early_exit E GlueClient _ _ (VDict top) cols Hcols Hdoc).
    cbn [snd]. m_step. cbn [py_get hashable dict_lookup]. m_step.
    rewrite (writer_on_empty E "updated_metadata.json" Hopen Hwrite). m_step.
    cbn [app]. rewrite <- ?app_assoc. reflexivity.
  - cbn [In]. intros H. decompose [or] H; try discriminate.
    match goal with
    | Hw : In _ (trace _) |- _ => apply writer_events in Hw;
        destruct Hw as [Hw | [Hw | [(doc & Hw) | (line & Hw)]]]; discriminate
    end.
  - cbn [filter is_update]. apply filter_none. intros ev Hev.
    apply writer_events in Hev.
    destruct Hev as [-> | [-> | [(doc & ->) | (line & ->)]]]; reflexivity.
Qed.

Lemma after_snapshot_of_documented_table_is_empty_witness :
  table_columns documented_table = Some documented_columns /\
  forallb documented documented_columns = true /\
  exists before,
    main (friendly_world documented_table sample_overrides) sample_config
    = ((before ++
        [EvPrint "***** No missing columns with empty 'Comment' found. *****";
         EvSnapshot "updated_metadata.json"; EvOpen "updated_metadata.json" "w";
         EvJsonDump "updated_metadata.json"
           (JObject [("default_values", JObject []);
                     ("missing_columns", JObject [])])])%list,
       Ret tt).
Proof.
  split; [reflexivity |]. split; [reflexivity |].
  destruct (after_snapshot_of_documented_table_is_empty
              (friendly_world documented_table sample_overrides) sample_config
              (VDict [(VStr "Table", documented_table)]) documented_table
              documented_columns
              eq_refl eq_refl eq_refl eq_refl eq_refl eq_refl eq_refl
              (fun _ => eq_refl)) as (before & Hrun & _).
  now exists before.
Defined.

(** X18. An update that the catalog refuses ends the run: [main] logs the
    exception of [update_table] right after the one request, the success
    line is not printed and no "after" snapshot is started. *)
Theorem refused_update_ends_the_run (E : env) (cfg : config)
    (response metadata : pyval) (cols : list pyval) (overrides : pydict)
    (e : exn) :
  aws_client E "s3" = None ->
  aws_client E "glue" = None ->
  glue_get_table E (DATABASE_NAME cfg) (TABLE_NAME cfg) (CATALOG_ID cfg)
  = Ret response ->
  py_getitem response (VStr "Table") = Ret metadata ->
  table_columns metadata = Some cols ->
  forallb is_column cols = true ->
  NoDup (map col_name cols) ->
  existsb undocumented cols = true ->
  fs_open E "new_values.json" "r" = None ->
  fs_load E "new_values.json" = Ret (VDict overrides) ->
  glue_update_table E (DATABASE_NAME cfg)
    (table_input_of (TABLE_NAME cfg)
                    (VList (map (merge_column overrides) cols)))
  = Some e ->
  exists before,
    main E cfg
    = ((before ++
        [EvUpdateTable (DATABASE_NAME cfg)
           (table_input_of (TABLE_NAME cfg)
                           (VList (map (merge_column overrides) cols)));
         EvLogException ("An error occurred: " ++ exn_msg e)])%list,
       Ret tt) /\
    ~ In (EvSnapshot "updated_metadata.json") before /\
    filter is_update before = [].
Proof.
  intros Hs3 Hglue Hfetch Htable Hcols Hwf Hnd Hsome Hopen Hload Hupdate.
  destruct (table_columns_inv _ _ Hcols) as (top & sd & Hmd & Hsd & Hc).
  subst metadata.
  exists ((EvLogin "s3" :: EvLogin "glue" :: EvLogin "glue"
           :: EvGetTable (DATABASE_NAME cfg) (TABLE_NAME cfg) (CATALOG_ID cfg)
           :: trace (write_metadata_and_missing_values
                       E (VDict top) (VList (null_fields top))
                       "default_metadata.json"))
          ++ [EvOpen "new_values.json" "r"; EvJsonLoad "new_values.json"])%list.
  split; [| split].
  - unfold main, login_to_aws_s3, login_to_aws_glue, get_aws_token.
    rewrite Hs3, Hglue. m_step.
    rewrite (fetch_success E cfg _ _ response top Hglue Hfetch Htable). m_step.
    rewrite (merge_run E GlueClient (DATABASE_NAME cfg) (TABLE_NAME cfg)
               (VDict top) cols overrides) by auto.
    rewrite Hupdate. cbn [snd]. m_step.
    cbn [app]. rewrite <- !app_assoc. reflexivity.
  - intros H. apply in_app_or in H as [H | H].
    + cbn [In] in H. decompose [or] H; try discriminate.
      match goal with
      | Hw : In _ (trace _) |- _ => apply writer_events in Hw;
          destruct Hw as [Hw | [Hw | [(doc & Hw) | (line & Hw)]]];
          discriminate
      end.
    + cbn [In] in H. decompose [or] H; try discriminate. contradiction.
  - rewrite filter_app. cbn [filter is_update app].
    rewrite app_nil_r. apply filter_none. intros ev Hev.
    apply writer_events in Hev.
    destruct Hev as [-> | [-> | [(doc & ->) | (line & ->)]]]; reflexivity.
Qed.

Lemma refused_update_ends_the_run_witness :
  let refusal := Exn (OtherError "ConcurrentModificationException")
                     "Update table failed" in
  let E := mkEnv (fun _ => None)
                 (fun _ _ _ => Ret (VDict [(VStr "Table", orders_table)]))
                 (fun _ _ => Some refusal)
                 (fun _ _ => None)
                 (fun _ => Ret (VDict sample_overrides))
                 (fun _ _ => None) in
  NoDup (map col_name orders_columns) /\
  existsb undocumented orders_columns = true /\
  exists before,
    main E sample_config
    = ((before ++
        [EvUpdateTable "sales"
           (table_input_of "orders"
              (VList (map (merge_column sample_overrides) orders_columns)));
         EvLogException "An error occurred: Update table failed"])%list,
       Ret tt) /\
    ~ In (EvSnapshot "updated_metadata.json") before.
Proof.
  intros refusal E.
  assert (Hnd : NoDup (map col_name orders_columns)) by distinct_names.
  split; [exact Hnd |]. split; [reflexivity |].
  destruct (refused_update_ends_the_run E sample_config
              (VDict [(VStr "Table", orders_table)]) orders_table
              orders_columns sample_overrides refusal
              eq_refl eq_refl eq_refl eq_refl eq_refl eq_refl Hnd eq_refl
              eq_refl eq_refl eq_refl) as (before & Hrun & Hquiet & _).
  now exists before.
Defined.

(** ** The encoder class and the encoder hook *)

Lemma same_outcome_elements (f g : pyval -> result json) (xs : list pyval) :
  Forall (fun x => same_outcome (f x) (g x)) xs ->
  same_outcome
    ((fix each (xs : list pyval) : result (list json) :=
        match xs with
        | [] => Ret []
        | x :: rest => j <- f x;; js <- each rest;; Ret (j :: js)
        end) xs)
    ((fix each (xs : list pyval) : result (list json) :=
        match xs with
        | [] => Ret []
        | x :: rest => j <- g x;; js <- each rest;; Ret (j :: js)
        end) xs).
Proof.
  induction 1 as [| x xs Hx _ IH]; [reflexivity |].
  destruct (f x) as [j1 |], (g x) as [j2 |]; cbn [same_outcome rbind] in *;
    try contradiction; [| assumption].
  subst j2.
  match goal with
  | H : same_outcome ?a ?b |- _ =>
      destruct a as [js1 |], b as [js2 |]; cbn [same_outcome rbind] in *;
        try contradiction; [now subst | assumption]
  end.
Qed.

Lemma same_outcome_members (f g : pyval -> result json) (items : pydict) :
  Forall (fun kv => same_outcome (f (snd kv)) (g (snd kv))) items ->
  same_outcome
    ((fix each (items : pydict) : result (list (string * json)) :=
        match items with
        | [] => Ret []
        | (k, x) :: rest =>
            name <- json_key k;; j <- f x;; fs <- each rest;;
            Ret ((name, j) :: fs)
        end) items)
    ((fix each (items : pydict) : result (list (string * json)) :=
        match items with
        | [] => Ret []
        | (k, x) :: rest =>
            name <- json_key k;; j <- g x;; fs <- each rest;;
            Ret ((name, j) :: fs)
        end) items).
Proof.
  induction 1 as [| [k x] items Hx _ IH]; [reflexivity |].
  cbn [snd] in Hx.
  destruct (json_key k) as [name |]; cbn [same_outcome rbind]; [| reflexivity].
  destruct (f x) as [j1 |], (g x) as [j2 |]; cbn [same_outcome rbind] in *;
    try contradiction; [| assumption].
  subst j2.
  match goal with
  | H : same_outcome ?a ?b |- _ =>
      destruct a as [fs1 |], b as [fs2 |]; cbn [same_outcome rbind] in *;
        try contradiction; [now subst | assumption]
  end.
Qed.

Lemma same_outcome_bind {A B} (r1 r2 : result A) (k : A -> result B) :
  same_outcome r1 r2 ->
  (forall a, same_outcome (k a) (k a)) ->
  same_outcome (rbind r1 k) (rbind r2 k).
Proof.
  destruct r1, r2; cbn [same_outcome rbind]; try contradiction.
  - intros -> H. apply H.
  - auto.
Qed.

(** X19. The class [DateTimeEncoder] and the hook [serialize_datetime] do
    the same work: both turn a datetime into its ISO-8601 string and raise
    [TypeError] on any other object (with different wording), so that a
    value encoded with [cls=DateTimeEncoder] gives the document it gives
    with [default=serialize_datetime], and fails with a [TypeError] where
    that fails. *)
Theorem encoder_class_agrees_with_hook :
  (forall d, DateTimeEncoder_default (VDatetime d)
             = serialize_datetime (VDatetime d)) /\
  (forall obj, same_outcome (DateTimeEncoder_default obj)
                            (serialize_datetime obj)) /\
  (forall v, json_encode_with serialize_datetime v = json_encode v) /\
  (forall v, same_outcome (json_encode_with DateTimeEncoder_default v)
                          (json_encode v)).
Proof.
  split; [reflexivity |]. split; [| split].
  - intros obj. destruct obj; reflexivity.
  - induction v as [| b | n | s | d | xs IH | items IH | cls addr]
      using pyval_induction; try reflexivity.
    + cbn [json_encode_with json_encode]. f_equal.
      induction IH as [| x xs Hx _ IHxs]; [reflexivity |].
      now rewrite Hx, IHxs.
    + cbn [json_encode_with json_encode]. f_equal.
      induction IH as [| [k x] items [_ Hx] _ IHitems]; [reflexivity |].
      cbn [snd] in Hx. now rewrite Hx, IHitems.
  - induction v as [| b | n | s | d | xs IH | items IH | cls addr]
      using pyval_induction; try reflexivity.
    + cbn [json_encode_with json_encode].
      apply same_outcome_bind; [| reflexivity].
      now apply same_outcome_elements.
    + cbn [json_encode_with json_encode].
      apply same_outcome_bind; [| reflexivity].
      apply same_outcome_members.
      apply Forall_impl with (2 := IH). intros kv [_ H]. exact H.
Qed.

(** ** Names that occur more than once *)

(** Lines 179-183 without the assumption that names differ: the dictionary
    of missing names has one entry for each name of an undocumented
    column. *)
Lemma scan_loop_names (cols : list pyval) :
  forall seen,
    exists found,
      fold_left (fun d c => if undocumented c
                            then dict_set (VStr (col_name c)) (VStr "") d
                            else d)
                cols (built (fun _ => VStr "") seen)
      = built (fun _ => VStr "") found /\
      forall n, In n (map col_name found) <->
                In n (map col_name seen) \/
                exists c, In c cols /\ undocumented c = true /\ col_name c = n.
Proof.
  induction cols as [| c cols IH]; intros seen; cbn [fold_left].
  - exists seen. split; [reflexivity |]. intros n. split; [tauto |].
    intros [H | (c & [] & _)]. exact H.
  - destruct (undocumented c) eqn:Hu.
    + destruct (dict_lookup (VStr (col_name c)) (built (fun _ => VStr "") seen))
        as [v |] eqn:Hl.
      * assert (Hv : v = VStr "").
        { rewrite built_lookup in Hl.
          destruct (find _ seen); cbn [option_map] in Hl;
            [now inversion Hl | discriminate]. }
        subst v. rewrite (dict_set_same _ _ _ Hl).
        destruct (IH seen) as (found & Hfold & Hnames).
        exists found. split; [exact Hfold |].
        intros n. rewrite Hnames. split.
        -- intros [H | (c' & Hc' & Hu' & Hn)]; [now left |].
           right. exists c'. split; [now right | now split].
        -- intros [H | (c' & [<- | Hc'] & Hu' & Hn)]; [now left | |].
           ++ left. subst n. rewrite built_lookup in Hl.
              destruct (find (fun c0 => py_eqb (VStr (col_name c0))
                                               (VStr (col_name c))) seen)
                as [c0 |] eqn:Hf; [| discriminate].
              apply find_some in Hf as [Hin Heq].
              rewrite py_eqb_str in Heq. apply String.eqb_eq in Heq.
              rewrite <- Heq. now apply in_map.
           ++ right. now exists c'.
      * rewrite (dict_set_fresh _ _ _ Hl).
        replace (built (fun _ : pyval => VStr "") seen
                 ++ [(VStr (col_name c), VStr "")])%list
          with (built (fun _ : pyval => VStr "") (seen ++ [c]))
          by (unfold built; now rewrite map_app).
        destruct (IH (seen ++ [c])%list) as (found & Hfold & Hnames).
        exists found. split; [exact Hfold |].
        intros n. rewrite Hnames, map_app, in_app_iff. cbn [map In]. split.
        -- intros [[H | [H | []]] | (c' & Hc' & Hu' & Hn)].
           ++ now left.
           ++ right. exists c. split; [now left | now split].
           ++ right. exists c'. split; [now right | now split].
        -- intros [H | (c' & [<- | Hc'] & Hu' & Hn)].
           ++ left. now left.
           ++ left. right. now left.
           ++ right. now exists c'.
    + destruct (IH seen) as (found & Hfold & Hnames).
      exists found. split; [exact Hfold |].
      intros n. rewrite Hnames. split.
      * intros [H | (c' & Hc' & Hu' & Hn)]; [now left |].
        right. exists c'. split; [now right | now split].
      * intros [H | (c' & [<- | Hc'] & Hu' & Hn)]; [now left | congruence |].
        right. now exists c'.
Qed.

(** X20. Merge assigns by name. With nothing assumed about the names, a
    column takes the override of its name (or the empty string) exactly
    when some undocumented column bears that name: a documented column
    that shares its name with an undocumented one is overwritten. *)
Theorem merge_assigns_by_name (E : env) (glue_client : client)
    (database_name table_name : string) (metadata : pyval)
    (cols : list pyval) (overrides : pydict) :
  table_columns metadata = Some cols ->
  forallb is_column cols = true ->
  fs_open E "new_values.json" "r" = None ->
  fs_load E "new_values.json" = Ret (VDict overrides) ->
  table_columns
    (fst (add_update_missing_values E glue_client database_name table_name
                                    metadata))
  = Some (map (merge_by_name overrides cols) cols).
Proof.
  intros Hcols Hwf Hopen Hload. unfold add_update_missing_values.
  unfold scan_missing_columns.
  rewrite (columns_of_table _ _ Hcols). cbn [rbind py_iter].
  rewrite (for_each_fold scan_column
             (fun d c => if undocumented c
                         then dict_set (VStr (col_name c)) (VStr "") d
                         else d)).
  2:{ intros acc c Hc. apply scan_column_ok.
      rewrite forallb_forall in Hwf. now apply Hwf. }
  destruct (scan_loop_names cols []) as (found & Hfold & Hnames).
  cbn [built map] in Hfold. rewrite Hfold.
  assert (Hsame : map (merge_named overrides (rev (map col_name found) ++ []))
                      cols
                  = map (merge_by_name overrides cols) cols).
  { apply map_ext. intros c. unfold merge_named, merge_by_name.
    rewrite app_nil_r.
    assert (Heq : existsb (String.eqb (col_name c)) (rev (map col_name found))
                  = shares_undocumented_name cols c).
    { unfold shares_undocumented_name.
      destruct (existsb (fun u => undocumented u
                                  && String.eqb (col_name u) (col_name c)) cols)
        eqn:Hshare.
      - apply existsb_exists in Hshare as (u & Hu & Hboth).
        apply andb_true_iff in Hboth as [Hund Hname].
        apply String.eqb_eq in Hname.
        apply existsb_exists. exists (col_name c).
        split; [| apply String.eqb_refl].
        rewrite <- in_rev. apply Hnames. right. now exists u.
      - destruct (existsb _ (rev _)) eqn:Hex; [| reflexivity].
        apply existsb_exists in Hex as (n & Hn & Heq).
        apply String.eqb_eq in Heq. subst n.
        rewrite <- in_rev in Hn. apply Hnames in Hn.
        destruct Hn as [[] | (u & Hu & Hund & Hname)].
        assert (Hcontra : existsb (fun u => undocumented u
                                   && String.eqb (col_name u) (col_name c)) cols
                          = true).
        { apply existsb_exists. exists u. split; [assumption |].
          rewrite Hund, Hname. apply String.eqb_refl. }
        congruence. }
    now rewrite Heq. }
  pose proof (apply_new_values_ok overrides found metadata cols Hcols
                (forallb_is_column_has_name _ Hwf)) as Happly.
  pose proof (fold_assign overrides found cols []) as Hassign.
  rewrite map_merge_named_nil, Hsame in Hassign. rewrite Hassign in Happly.
  destruct found as [| u us].
  - cbn [built map fst]. rewrite Hcols. f_equal.
    cbn [rev map app] in Hsame. rewrite map_merge_named_nil in Hsame.
    exact Hsame.
  - cbn [built map] in *. rewrite Hopen, Hload. m_step. rewrite Happly.
    cbn [fst]. now apply (table_columns_with _ cols).
Qed.

Lemma merge_assigns_by_name_witness :
  let cols := [sample_column "ts" (Some "kept?"); sample_column "ts" None] in
  let metadata :=
    VDict [(VStr "StorageDescriptor", VDict [(VStr "Columns", VList cols)])] in
  table_columns metadata = Some cols /\
  forallb is_column cols = true /\
  table_columns
    (fst (add_update_missing_values
            (friendly_world VNone sample_overrides) GlueClient "sales" "orders"
            metadata))
  = Some [sample_column "ts" (Some "event timestamp");
          sample_column "ts" (Some "event timestamp")].
Proof.
  intros cols metadata. split; [reflexivity |]. split; [reflexivity |].
  rewrite (merge_assigns_by_name (friendly_world VNone sample_overrides)
             GlueClient "sales" "orders" metadata cols sample_overrides
             eq_refl eq_refl eq_refl eq_refl).
  reflexivity.
Defined.

(** ** Overrides that are not text *)

Lemma blank_comment_odd (v : pyval) :
  is_text v = false ->
  blank_comment v = Raise (no_attribute v "strip").
Proof. destruct v; try discriminate; reflexivity. Qed.

Lemma blank_comment_text (v : pyval) :
  is_text v = true -> exists b, blank_comment v = Ret b.
Proof. destruct v; try discriminate; intros _; eexists; reflexivity. Qed.

Lemma has_odd_comment_inv (c : pyval) :
  has_odd_comment c = true ->
  exists v, field c "Comment" = Some v /\ is_text v = false.
Proof.
  unfold has_odd_comment. destruct (field c "Comment") as [v |];
    [| discriminate].
  intros H. exists v. split; [reflexivity |]. now apply negb_true_iff.
Qed.

Lemma snapshot_loop_raises (missing_values : pyval) (cols : list pyval)
    (c' v' : pyval) :
  (forall n, exists b, py_contains (VStr n) missing_values = Ret b) ->
  forallb has_name cols = true ->
  find has_odd_comment cols = Some c' ->
  field c' "Comment" = Some v' ->
  forall acc,
    for_each (snapshot_column missing_values) cols acc
    = Raise (no_attribute v' "strip").
Proof.
  intros Hmv. induction cols as [| c cols IH]; cbn [find forallb for_each];
    [discriminate |].
  intros Hnames Hfind Hv' [dv mc].
  apply andb_true_iff in Hnames as [Hname Hnames].
  destruct (has_name_inv c Hname) as (fields & -> & Hget).
  unfold snapshot_column. py_step.
  cbn [py_getitem hashable] in Hget.
  destruct (dict_lookup (VStr "Name") fields) as [name |] eqn:Hn;
    [| discriminate].
  inversion Hget; subst name. py_step.
  destruct (has_odd_comment (VDict fields)) eqn:Hodd.
  - inversion Hfind; subst c'. clear Hfind.
    destruct (has_odd_comment_inv _ Hodd) as (v & Hv & Ht).
    rewrite Hv in Hv'. inversion Hv'; subst v'. clear Hv'.
    unfold field in Hv. rewrite Hv.
    now rewrite (blank_comment_odd v Ht).
  - unfold has_odd_comment, field in Hodd.
    destruct (dict_lookup (VStr "Comment") fields) as [v |] eqn:Hc.
    + apply negb_false_iff in Hodd.
      destruct (blank_comment_text v Hodd) as [b ->]. py_step.
      destruct (Hmv (col_name (VDict fields))) as [l ->]. cbn [rbind].
      destruct (l && b); py_step; now apply IH.
    + py_step.
      destruct (Hmv (col_name (VDict fields))) as [l ->]. cbn [rbind].
      destruct (l && true); py_step; now apply IH.
Qed.

Lemma scan_loop_raises (cols : list pyval) (c' v' : pyval) :
  forallb has_name cols = true ->
  find has_odd_comment cols = Some c' ->
  field c' "Comment" = Some v' ->
  forall acc, for_each scan_column cols acc = Raise (no_attribute v' "strip").
Proof.
  induction cols as [| c cols IH]; cbn [find forallb for_each];
    [discriminate |].
  intros Hnames Hfind Hv' acc.
  apply andb_true_iff in Hnames as [Hname Hnames].
  destruct (has_name_inv c Hname) as (fields & -> & Hget).
  unfold scan_column. py_step.
  cbn [py_getitem hashable] in Hget.
  destruct (dict_lookup (VStr "Name") fields) as [name |] eqn:Hn;
    [| discriminate].
  inversion Hget; subst name.
  destruct (has_odd_comment (VDict fields)) eqn:Hodd.
  - inversion Hfind; subst c'. clear Hfind.
    destruct (has_odd_comment_inv _ Hodd) as (v & Hv & Ht).
    rewrite Hv in Hv'. inversion Hv'; subst v'. clear Hv'.
    unfold field in Hv. rewrite Hv.
    destruct v; try discriminate Ht; reflexivity.
  - unfold has_odd_comment, field in Hodd.
    destruct (dict_lookup (VStr "Comment") fields) as [v |] eqn:Hc.
    + apply negb_false_iff in Hodd.
      destruct v; try discriminate Hodd; py_step; try (now apply IH).
      destruct (String.eqb (strip s) ""); py_step; now apply IH.
    + py_step. now apply IH.
Qed.

Lemma existsb_find {A} (f : A -> bool) (l : list A) :
  existsb f l = true -> exists a, find f l = Some a.
Proof.
  induction l as [| a l IH]; cbn [existsb find]; [discriminate |].
  destruct (f a); [now exists a | exact IH].
Qed.

(** X21. Merge does not check what the override file holds. An override
    that is neither a string nor [null] (a number, a list, an object) is
    stored as the comment of the column it names. From then on the
    document has a column whose comment has no [strip]: the snapshot writer
    fails on the first such column with the [AttributeError] of that
    comment, which it reports in its warning line without opening a file,
    and a further merge raises that same error before it opens any file. *)
Theorem override_that_is_no_text_breaks_later_steps (E E' : env)
    (glue_client : client) (database_name table_name : string)
    (metadata : pyval) (cols : list pyval) (overrides : pydict)
    (c v missing_values : pyval) (file : string) :
  table_columns metadata = Some cols ->
  forallb is_column cols = true ->
  NoDup (map col_name cols) ->
  fs_open E "new_values.json" "r" = None ->
  fs_load E "new_values.json" = Ret (VDict overrides) ->
  In c cols ->
  undocumented c = true ->
  dict_lookup (VStr (col_name c)) overrides = Some v ->
  is_text v = false ->
  (forall n, exists b, py_contains (VStr n) missing_values = Ret b) ->
  let merged :=
    fst (add_update_missing_values E glue_client database_name table_name
                                   metadata) in
  exists columns stored first comment,
    table_columns merged = Some columns /\
    In stored columns /\
    col_name stored = col_name c /\
    field stored "Comment" = Some v /\
    find has_odd_comment columns = Some first /\
    field first "Comment" = Some comment /\
    let error :=
      Exn AttributeError
          ("'" ++ tp_name comment ++ "' object has no attribute 'strip'") in
    write_metadata_and_missing_values E' merged missing_values file
    = ([EvSnapshot file; writing_warning error], Ret VNone) /\
    add_update_missing_values E' glue_client database_name table_name merged
    = (merged, ([], Raise error)).
Proof.
  intros Hcols Hwf Hnd Hopen Hload Hc Hu Hv Ht Hmv merged. subst merged.
  rewrite (merge_final_document E glue_client database_name table_name
             metadata cols overrides) by assumption.
  set (merged := map (merge_column overrides) cols).
  assert (Hm : table_columns (with_columns metadata merged) = Some merged)
    by now apply (table_columns_with _ cols).
  assert (Hnames : forallb has_name merged = true).
  { subst merged. rewrite forallb_forall in *. intros c' Hc'.
    apply in_map_iff in Hc' as (c0 & <- & Hc0). unfold merge_column.
    destruct (undocumented c0);
      [rewrite has_name_with_comment |]; apply is_column_has_name;
      now apply Hwf. }
  assert (Hname_c : has_name c = true).
  { apply is_column_has_name. rewrite forallb_forall in Hwf. now apply Hwf. }
  assert (Hstored : field (merge_column overrides c) "Comment" = Some v).
  { unfold merge_column, override_for, override_at. rewrite Hu, Hv.
    now apply field_with_comment. }
  assert (Hodd : existsb has_odd_comment merged = true).
  { apply existsb_exists. exists (merge_column overrides c). split.
    - subst merged. now apply in_map.
    - unfold has_odd_comment. now rewrite Hstored, Ht. }
  destruct (existsb_find _ _ Hodd) as [first Hfirst].
  destruct (has_odd_comment_inv first) as (comment & Hcomment & _).
  { now apply find_some in Hfirst. }
  exists merged, (merge_column overrides c), first, comment.
  split; [exact Hm |].
  split; [subst merged; now apply in_map |].
  split; [apply col_name_merge_column |].
  split; [exact Hstored |].
  split; [exact Hfirst |].
  split; [exact Hcomment |].
  cbv zeta. change (Exn AttributeError
                        ("'" ++ tp_name comment
                         ++ "' object has no attribute 'strip'"))
              with (no_attribute comment "strip").
  split.
  - pose proof (snapshot_loop_raises missing_values merged first comment
                  Hmv Hnames Hfirst Hcomment ([], [])) as Hloop.
    destruct (table_columns_inv _ _ Hm) as (top & sd & Heq & Hsd & Hcl).
    unfold write_metadata_and_missing_values, snapshot_tables, writing_warning.
    rewrite Heq. py_step. rewrite Hsd. py_step. rewrite Hcl.
    cbn [py_iter rbind]. rewrite Hloop. reflexivity.
  - pose proof (scan_loop_raises merged first comment Hnames Hfirst Hcomment
                  []) as Hloop.
    unfold add_update_missing_values, scan_missing_columns.
    rewrite (columns_of_table _ _ Hm). cbn [rbind py_iter].
    now rewrite Hloop.
Qed.

Lemma override_that_is_no_text_breaks_later_steps_witness :
  let overrides := [(VStr "ts", VInt 42)] in
  let E := friendly_world orders_table overrides in
  let merged :=
    fst (add_update_missing_values E GlueClient "sales" "orders"
                                   orders_table) in
  NoDup (map col_name orders_columns) /\
  In (sample_column "ts" (Some "")) orders_columns /\
  dict_lookup (VStr (col_name (sample_column "ts" (Some "")))) overrides
  = Some (VInt 42) /\
  (forall n, exists b, py_contains (VStr n) (VDict []) = Ret b) /\
  exists columns stored first comment,
    table_columns merged = Some columns /\
    In stored columns /\
    col_name stored = "ts" /\
    field stored "Comment" = Some (VInt 42) /\
    find has_odd_comment columns = Some first /\
    field first "Comment" = Some comment /\
    let error :=
      Exn AttributeError
          ("'" ++ tp_name comment ++ "' object has no attribute 'strip'") in
    write_metadata_and_missing_values E merged (VDict [])
                                      "updated_metadata.json"
    = ([EvSnapshot "updated_metadata.json"; writing_warning error],
       Ret VNone) /\
    add_update_missing_values E GlueClient "sales" "orders" merged
    = (merged, ([], Raise error)).
Proof.
  intros overrides E merged.
  assert (Hnd : NoDup (map col_name orders_columns)) by distinct_names.
  assert (Hin : In (sample_column "ts" (Some "")) orders_columns)
    by (cbn; tauto).
  assert (Hmv : forall n, exists b, py_contains (VStr n) (VDict []) = Ret b)
    by (intros n; now exists false).
  split; [exact Hnd |]. split; [exact Hin |]. split; [reflexivity |].
  split; [exact Hmv |].
  exact (override_that_is_no_text_breaks_later_steps
           E E GlueClient "sales" "orders" orders_table orders_columns
           overrides (sample_column "ts" (Some "")) (VInt 42)
           (VDict []) "updated_metadata.json"
           eq_refl eq_refl Hnd eq_refl eq_refl Hin eq_refl eq_refl
           eq_refl Hmv).
Defined.

(** ** A fetch that fails *)

(** X22. A table that cannot be fetched ends the run in a [TypeError]:
    [get_table_metadata] prints one line and returns [None], [main] hands
    the [None] to merge, and what it logs is that [None] cannot be
    subscripted, not the error of [get_table]. No file is opened and no
    update is sent. The printed line names the table and the database when
    the error is an [EntityNotFoundException], and carries the message of
    the error otherwise. *)
Theorem failed_fetch_ends_in_a_type_error (E : env) (cfg : config) (e : exn) :
  aws_client E "s3" = None ->
  aws_client E "glue" = None ->
  glue_get_table E (DATABASE_NAME cfg) (TABLE_NAME cfg) (CATALOG_ID cfg)
  = Raise e ->
  exists line,
    main E cfg
    = ([EvLogin "s3"; EvLogin "glue"; EvLogin "glue";
        EvGetTable (DATABASE_NAME cfg) (TABLE_NAME cfg) (CATALOG_ID cfg);
        EvPrint line;
        EvLogException
          "An error occurred: 'NoneType' object is not subscriptable"],
       Ret tt) /\
    (exn_cls e = EntityNotFoundException ->
     line = "***** Table '" ++ TABLE_NAME cfg
            ++ "' not found in the database '" ++ DATABASE_NAME cfg ++ "'.") /\
    (exn_cls e <> EntityNotFoundException ->
     line = "Error occurred: " ++ exn_msg e).
Proof.
  intros Hs3 Hglue Hanswer.
  unfold main, get_table_metadata, login_to_aws_s3, login_to_aws_glue,
    get_aws_token.
  rewrite Hs3, Hglue. m_step. rewrite Hanswer. m_step.
  destruct (exn_cls e) eqn:Hcls; m_step; rewrite merge_of_none; m_step;
    eexists; (split; [reflexivity |]);
    (split; [intros H; try discriminate H; reflexivity
            | intros H; try reflexivity; now contradiction H]).
Qed.

Lemma failed_fetch_ends_in_a_type_error_witness :
  let e := Exn (OtherError "AccessDeniedException")
               "User is not authorized to perform glue:GetTable" in
  let E := mkEnv (fun _ => None) (fun _ _ _ => Raise e)
                 (fun _ _ => None) (fun _ _ => None)
                 (fun _ => Ret (VDict [])) (fun _ _ => None) in
  exists line,
    main E sample_config
    = ([EvLogin "s3"; EvLogin "glue"; EvLogin "glue";
        EvGetTable "sales" "orders" "123456789012";
        EvPrint line;
        EvLogException
          "An error occurred: 'NoneType' object is not subscriptable"],
       Ret tt) /\
    line = "Error occurred: User is not authorized to perform glue:GetTable".
Proof.
  intros e E.
  destruct (failed_fetch_ends_in_a_type_error E sample_config e
              eq_refl eq_refl eq_refl) as (line & Hrun & _ & Hother).
  exists line. split; [exact Hrun |].
  apply Hother. discriminate.
Defined.
